(** * The arXiv ingestion pipeline: filter, embed, bulk load, snapshots

    A shallow embedding of the pipeline scripts

      - scripts/download_dataset.py    (corpus filter),
      - scripts/generate_embeddings.py (embedding batcher),
      - scripts/ingest_data.py         (bulk loader),
      - scripts/setup_snapshots.py     (snapshot manager),

    followed by the properties of the written specification that concern
    them.  Python values are modelled as the scripts see them: ints as [Z],
    lists as [list], dicts with string keys as [gmap string _], a raised
    exception as an explicit result.  External collaborators (the embedding
    model, the Elasticsearch client, the user at the prompt) are parameters
    of the sections that use them.

    Part I holds the embedding, Part II the properties. *)

From Stdlib Require Import ZArith Lia Ascii DecimalString DecimalZ.
From stdpp Require Import gmap strings list fin_maps.

#[local] Set Warnings "-register-all".
#[local] Open Scope Z_scope.

(** * Part I: the embedding *)

(** ** Python primitives used by the scripts *)

Module Py.

(** The exception classes the scripts can meet.  All of them derive from
    [Exception]; [BulkIndexError] and the client's [ConnectionError] come
    from the Elasticsearch package. *)
Inductive exn : Type :=
| ValueError
| TypeError
| AttributeError
| FileNotFoundError
| JSONDecodeError
| BulkIndexError
| ConnectionError
| OtherException (what : string).

(** A computation either returns a value or raises. *)
Inductive result (A : Type) : Type :=
| Ok (a : A)
| Raise (e : exn).
Arguments Ok {A} a.
Arguments Raise {A} e.

Definition bind {A B} (r : result A) (k : A -> result B) : result B :=
  match r with
  | Ok a => k a
  | Raise e => Raise e
  end.

(** The exit status of a script whose [main()] returned or let an exception
    escape: the interpreter exits with 0 in the first case and with 1,
    after printing the traceback, in the second. *)
Definition exit_status {A} (r : result A) : Z :=
  match r with
  | Ok _ => 0
  | Raise _ => 1
  end.

(** Records of the [logging] module: level, message template and the values
    interpolated into it (an f-string is kept as its text with [{}] for each
    hole, next to the values that fill the holes). *)
Inductive level : Type := INFO | WARNING | ERROR.

Inductive log_arg : Type :=
| Str (s : string)
| Int (n : Z)
| Exc (e : exn).

Record log_record : Type := Log {
  levelname : level;
  msg : string;
  args : list log_arg
}.

(** A computation that also logs: its result and the records it emitted,
    which stay emitted when it raises. *)
Definition logged (A : Type) : Type := result A * list log_record.

Definition ret {A} (a : A) : logged A := (Ok a, []).

Definition lift {A} (r : result A) : logged A := (r, []).

Definition emit (r : log_record) : logged unit := (Ok tt, [r]).

Definition and_then {A B} (m : logged A) (k : A -> logged B) : logged B :=
  match m with
  | (Ok a, l) => (fst (k a), l ++ snd (k a))
  | (Raise e, l) => (Raise e, l)
  end.

(** [len(xs)] *)
Definition len {A} (xs : list A) : Z := Z.of_nat (length xs).

(** [range(start, stop, step)]: ascending and descending enumeration.
    The fuel bounds the number of iterations; [range] supplies
    [|stop - start|], which is enough because [|step| >= 1]. *)
Fixpoint range_up (fuel : nat) (i stop step : Z) : list Z :=
  match fuel with
  | O => []
  | S fuel' =>
      if i <? stop then i :: range_up fuel' (i + step) stop step else []
  end.

Fixpoint range_down (fuel : nat) (i stop step : Z) : list Z :=
  match fuel with
  | O => []
  | S fuel' =>
      if stop <? i then i :: range_down fuel' (i + step) stop step else []
  end.

(** [range] with a zero step raises [ValueError]. *)
Definition range (start stop step : Z) : result (list Z) :=
  if step =? 0 then Raise ValueError
  else if 0 <? step
       then Ok (range_up (Z.to_nat (stop - start)) start stop step)
       else Ok (range_down (Z.to_nat (start - stop)) start stop step).

(** An end of a slice, clamped as Python does: a negative index counts
    from the end, and both ends are clipped to [0 .. len]. *)
Definition slice_index (n i : Z) : Z :=
  if i <? 0 then Z.max 0 (n + i) else Z.min i n.

(** [xs[i:j]] *)
Definition slice {A} (xs : list A) (i j : Z) : list A :=
  let lo := slice_index (len xs) i in
  let hi := slice_index (len xs) j in
  take (Z.to_nat (hi - lo)) (drop (Z.to_nat lo) xs).

(** Truthiness of the optional arguments the scripts test with
    [if x and ...]: [None], [0], the empty string and the empty list are
    false. *)
Definition truthy_int (o : option Z) : bool :=
  match o with
  | None => false
  | Some k => negb (k =? 0)
  end.

Definition truthy_str (o : option string) : bool :=
  match o with
  | None => false
  | Some s => negb (String.eqb s "")
  end.

Definition truthy_list {A} (o : option (list A)) : bool :=
  match o with
  | None | Some [] => false
  | Some (_ :: _) => true
  end.

(** Strings.  A [string] stands for a Python [str] whose characters are
    code points below 256; [isspace] lists the code points of that range
    for which [str.isspace] holds. *)
Definition isspace (c : ascii) : bool :=
  let n := N_of_ascii c in
  ((9 <=? n) && (n <=? 13) || (28 <=? n) && (n <=? 32)
   || (n =? 133) || (n =? 160))%N.

(** [s.split()]: the maximal runs of non-blank characters. [word] is the
    current run, reversed. *)
Fixpoint split_go (word : string) (s : string) : list string :=
  match s with
  | EmptyString =>
      match word with
      | EmptyString => []
      | _ => [String.rev word]
      end
  | String c s' =>
      if isspace c
      then match word with
           | EmptyString => split_go EmptyString s'
           | _ => String.rev word :: split_go EmptyString s'
           end
      else split_go (String c word) s'
  end.

Definition split (s : string) : list string := split_go EmptyString s.

Fixpoint lstrip (s : string) : string :=
  match s with
  | EmptyString => EmptyString
  | String c s' => if isspace c then lstrip s' else s
  end.

(** [s.strip()] *)
Definition strip (s : string) : string :=
  String.rev (lstrip (String.rev (lstrip s))).

(** [s.replace(old, new)] for one-character [old] and [new]. *)
Fixpoint replace (old new : ascii) (s : string) : string :=
  match s with
  | EmptyString => EmptyString
  | String c s' =>
      String (if Ascii.eqb c old then new else c) (replace old new s')
  end.

(** [s.startswith(p)] *)
Definition startswith (s p : string) : bool := String.prefix p s.

(** [s.lower()]: the capital letters below 256 are A to Z and the
    accented capitals 192 to 222, the sign at 215 apart. *)
Definition lower_char (c : ascii) : ascii :=
  let n := N_of_ascii c in
  if ((65 <=? n) && (n <=? 90)
      || (192 <=? n) && (n <=? 222) && negb (n =? 215))%N
  then ascii_of_N (n + 32) else c.

Fixpoint lower (s : string) : string :=
  match s with
  | EmptyString => EmptyString
  | String c s' => String (lower_char c) (lower s')
  end.

(** [os.path.join(a, b)] for a relative, non-empty [b] (POSIX). *)
Definition path_join (a b : string) : string :=
  match String.rev a with
  | EmptyString => b
  | String "/" _ => a +:+ b
  | _ => a +:+ "/" +:+ b
  end.

(** [os.getenv(name, default)] *)
Definition getenv (environ : gmap string string) (name dflt : string) : string :=
  default dflt (environ !! name).

End Py.

Import Py.

Notation "'let!' x ':=' m 'in' k" := (and_then m (fun x => k))
  (at level 10, x name, m at level 100, k at level 200, only parsing).
Notation "'log!' r 'in' k" := (and_then (emit r) (fun _ => k))
  (at level 10, r at level 100, k at level 200, only parsing).

(** ** JSON values

    What [json.loads] and [json.load] return.  A float is kept as the
    64-bit pattern of its IEEE-754 double: the pipeline stores and copies
    floats and never computes with them.  A JSON object becomes a [dict]
    with string keys. *)

Inductive json : Type :=
| JNull
| JBool (b : bool)
| JInt (n : Z)
| JFloat (bits : Z)
| JStr (s : string)
| JArr (items : list json)
| JObj (fields : gmap string json).

(** A paper as the stages annotate it: [Dict[str, Any]]. *)
Abbreviation dict := (gmap string json).

(** [d.get(key, dflt)] on a value known to be a dict. *)
Definition dict_get (d : dict) (key : string) (dflt : json) : json :=
  default dflt (d !! key).

(** [v.get(key, dflt)] on an arbitrary value: only a dict has the method. *)
Definition get (v : json) (key : string) (dflt : json) : result json :=
  match v with
  | JObj d => Ok (dict_get d key dflt)
  | _ => Raise AttributeError
  end.

Fixpoint chars (s : string) : list json :=
  match s with
  | EmptyString => []
  | String c s' => JStr (String c EmptyString) :: chars s'
  end.

(** [for x in v]: the items of a list, the characters of a string, the keys
    of a dict (here in the order of the keys, Python yields them in
    insertion order; nothing below iterates a dict whose order matters);
    other values are not iterable. *)
Definition iterate (v : json) : result (list json) :=
  match v with
  | JArr items => Ok items
  | JStr s => Ok (chars s)
  | JObj d => Ok (map (fun kv => JStr (fst kv)) (map_to_list d))
  | _ => Raise TypeError
  end.

(** ** Batching

    Both [generate_embeddings] and [bulk_index_papers] walk their input with

      for i in range(0, len(xs), batch_size):
          batch = xs[i:i + batch_size]

    [batches] is the list of the successive values of [batch]. *)

Definition batches {A} (xs : list A) (batch_size : Z) : result (list (list A)) :=
  bind (range 0 (len xs) batch_size)
       (fun starts => Ok (map (fun i => slice xs i (i + batch_size)) starts)).

(** The number of batches the specification expects, [ceil(n / b)]. *)
Definition ceil_div (n b : Z) : Z :=
  n / b + (if n mod b =? 0 then 0 else 1).

(** ** scripts/download_dataset.py *)

Module DownloadDataset.

(** What the loop gets for a line of the input file: [json.loads] raises
    [JSONDecodeError] on it, or returns a value, or the line cannot be had
    at all: the file iterator raises [UnicodeDecodeError] on bytes that
    are not UTF-8 (at the point where it decodes them, which may come
    before the lines of the same block are delivered), or [json.loads]
    raises something else, [RecursionError] on a text nested too deep or
    [ValueError] on a number with too many digits.  [Fails e] stands for
    the last two cases, with the exception raised. *)
Inductive raw_line : Type :=
| Malformed
| Parsed (paper : json)
| Fails (e : exn).

(** [cat.startswith('cs.')]: only a string has the method. *)
Definition is_cs (cat : json) : result bool :=
  match cat with
  | JStr s => Ok (startswith s "cs.")
  | _ => Raise AttributeError
  end.

(** [any(cat.startswith('cs.') for cat in categories)], which stops at the
    first match. *)
Fixpoint any_cs (categories : list json) : result bool :=
  match categories with
  | [] => Ok false
  | cat :: rest =>
      bind (is_cs cat) (fun b => if b then Ok true else any_cs rest)
  end.

(** [[cat for cat in categories if cat.startswith('cs.')]] *)
Fixpoint cs_only (categories : list json) : result (list json) :=
  match categories with
  | [] => Ok []
  | cat :: rest =>
      bind (is_cs cat) (fun b =>
      bind (cs_only rest) (fun kept =>
      Ok (if b then cat :: kept else kept)))
  end.

(** [categories = paper.get('categories', '')], split when it is a string,
    then iterated. *)
Definition categories_of (paper : json) : result (list json) :=
  bind (get paper "categories" (JStr "")) (fun categories =>
  match categories with
  | JStr s => Ok (map JStr (split s))
  | other => iterate other
  end).

(** [text.replace('\n', ' ').strip()] *)
Definition clean (text : json) : result json :=
  match text with
  | JStr s => Ok (JStr (strip (replace "010" " " s)))
  | _ => Raise AttributeError
  end.

(** The dict literal [cs_paper], its entries evaluated in source order. *)
Definition cs_paper_of (paper : json) (categories : list json) : result dict :=
  bind (get paper "id" (JStr "")) (fun id =>
  bind (bind (get paper "title" (JStr "")) clean) (fun title =>
  bind (bind (get paper "abstract" (JStr "")) clean) (fun abstract =>
  bind (cs_only categories) (fun kept =>
  bind (get paper "authors" (JStr "")) (fun authors =>
  bind (get paper "update_date" (JStr "")) (fun update_date =>
  Ok (<["id" := id]> (<["title" := title]> (<["abstract" := abstract]>
     (<["categories" := JArr kept]> (<["authors" := authors]>
     (<["update_date" := update_date]> ∅)))))))))))).

(** The local variables of [filter_cs_papers]. *)
Record filter_state : Type := FilterState {
  cs_papers : list dict;
  total_processed : Z
}.

Inductive flow : Type := Next | Break.

(** [max_papers and len(cs_papers) >= max_papers] *)
Definition reached (max_papers : option Z) (cs_papers : list dict) : bool :=
  truthy_int max_papers && (default 0 max_papers <=? len cs_papers).

(** One turn of the [for line in f] loop.  A line that does not parse is
    logged and skipped by [continue], before [total_processed] is touched;
    any other exception leaves the function: the handler is for
    [json.JSONDecodeError] alone, and the iterator is outside the [try]. *)
Definition visit (max_papers : option Z) (st : filter_state) (line : raw_line)
  : logged (flow * filter_state) :=
  match line with
  | Malformed | Fails JSONDecodeError =>
      log! Log WARNING "Error parsing line: {}" [Exc JSONDecodeError] in
      ret (Next, st)
  | Fails e => lift (Raise e)
  | Parsed paper =>
      let total := total_processed st + 1 in
      let! categories := lift (categories_of paper) in
      let! keep := lift (any_cs categories) in
      if keep : bool then
        let! cs_paper := lift (cs_paper_of paper categories) in
        let papers := cs_papers st ++ [cs_paper] in
        if reached max_papers papers
        then log! Log INFO "Reached maximum of {} papers"
                       [Int (default 0 max_papers)] in
             ret (Break, FilterState papers total)
        else ret (Next, FilterState papers total)
      else ret (Next, FilterState (cs_papers st) total)
  end.

(** The loop over the lines of the file; it returns the final state and the
    lines the iterator has not delivered. *)
Fixpoint loop (max_papers : option Z) (st : filter_state) (f : list raw_line)
  : logged (filter_state * list raw_line) :=
  match f with
  | [] => ret (st, [])
  | line :: rest =>
      let! r := visit max_papers st line in
      match fst r with
      | Next => loop max_papers (snd r) rest
      | Break => ret (snd r, rest)
      end
  end.

(** What a call that returns leaves behind: the list dumped to
    [output_file], the value returned, the counter of processed papers and
    the lines of the input never read. *)
Record run : Type := Run {
  saved : list dict;
  returned : Z;
  processed : Z;
  unread : list raw_line
}.

(** [filter_cs_papers]; [f] is the content of [input_file]. *)
Definition filter_cs_papers (f : list raw_line) (input_file output_file : string)
  (max_papers : option Z) : logged run :=
  log! Log INFO "Filtering CS papers from {}..." [Str input_file] in
  let! r := loop max_papers (FilterState [] 0) f in
  let st := fst r in
  log! Log INFO "Saving {} CS papers to {}..."
           [Int (len (cs_papers st)); Str output_file] in
  log! Log INFO "Processed {} total papers, kept {} CS papers"
           [Int (total_processed st); Int (len (cs_papers st))] in
  ret (Run (cs_papers st) (len (cs_papers st)) (total_processed st) (snd r)).

End DownloadDataset.

(** ** scripts/generate_embeddings.py *)

Module GenerateEmbeddings.

(** A row returned by [model.encode]: floats as bit patterns. *)
Abbreviation vector := (list Z).

(** [embedding.tolist()] *)
Definition tolist (embedding : vector) : json := JArr (map JFloat embedding).

(** The loop [for paper, embedding in zip(papers, all_embeddings)], which
    stores into the dicts of [papers] in place; [zip] stops with the shorter
    of its arguments. *)
Fixpoint attach (papers : list dict) (all_embeddings : list vector) : list dict :=
  match papers, all_embeddings with
  | paper :: papers', embedding :: rest =>
      <["abstract_vector" := tolist embedding]> paper :: attach papers' rest
  | _, _ => papers
  end.

(** The data directory: each artifact path with the list of papers the
    file holds. *)
Abbreviation files := (gmap string (list dict)).

(** [load_papers(input_file)] *)
Definition load_papers (fs : files) (input_file : string) : logged (list dict) :=
  log! Log INFO "Loading papers from {}..." [Str input_file] in
  let! papers := lift (match fs !! input_file with
                  | Some papers => Ok papers
                  | None => Raise FileNotFoundError
                  end) in
  log! Log INFO "Loaded {} papers" [Int (len papers)] in
  ret papers.

Section Model.

(** The loaded sentence-transformer: [model.encode(batch)] and
    [model.get_sentence_embedding_dimension()]. *)
Variable encode : list json -> list vector.
Variable embedding_dim : Z.

Definition generate_embeddings (papers : list dict) (model_name : string)
  (batch_size : Z) : logged (list dict) :=
  log! Log INFO "Loading model: {}..." [Str model_name] in
  log! Log INFO "Embedding dimension: {}" [Int embedding_dim] in
  let abstracts := map (fun paper => dict_get paper "abstract" (JStr "")) papers in
  log! Log INFO "Generating embeddings for {} papers..." [Int (len abstracts)] in
  let! bs := lift (batches abstracts batch_size) in
  let all_embeddings := concat (map encode bs) in
  log! Log INFO "Adding embeddings to papers..." [] in
  ret (attach papers all_embeddings).

(** The size in MB of the file [json.dump] writes, as a float. *)
Variable file_size_mb : list dict -> Z.

(** [save_papers_with_embeddings(papers, output_file)] *)
Definition save_papers_with_embeddings (fs : files) (papers : list dict)
  (output_file : string) : files * list log_record :=
  (<[output_file := papers]> fs,
   [Log INFO "Saving papers with embeddings to {}..." [Str output_file];
    Log INFO "Saved {} papers ({} MB)"
        [Int (len papers); Int (file_size_mb papers)]]).

(** [int(s)] on a string, and what the user types at the prompt. *)
Variable int : string -> result Z.
Variable response : string.

(** [main()]: how it ended, the files it leaves and its log. *)
Definition main (environ : gmap string string) (fs : files)
  : result unit * files * list log_record :=
  let data_dir := getenv environ "DATA_DIR" "./data" in
  let model_name := getenv environ "EMBEDDING_MODEL" "all-MiniLM-L6-v2" in
  match int (getenv environ "BATCH_SIZE" "32") with
  | Raise e => (Raise e, fs, [])
  | Ok batch_size =>
      let input_file := path_join data_dir "cs_papers.json" in
      let output_file := path_join data_dir "cs_papers_with_embeddings.json" in
      match fs !! input_file with
      | None =>
          (Ok tt, fs,
           [Log ERROR "Input file not found: {}" [Str input_file];
            Log INFO "Please run download_dataset.py first" []])
      | Some _ =>
          let exists_log :=
            match fs !! output_file with
            | Some _ =>
                [Log INFO "Embeddings file already exists: {}" [Str output_file]]
            | None => []
            end in
          let stop :=
            match fs !! output_file with
            | Some _ => negb (String.eqb (lower response) "y")
            | None => false
            end in
          if stop then (Ok tt, fs, exists_log)
          else
            match let! papers := load_papers fs input_file in
                  generate_embeddings papers model_name batch_size with
            | (Raise e, l) => (Raise e, fs, exists_log ++ l)
            | (Ok papers_with_embeddings, l) =>
                let (fs', l') :=
                  save_papers_with_embeddings fs papers_with_embeddings output_file in
                (Ok tt, fs',
                 exists_log ++ l ++ l' ++
                 [Log INFO "Embedding generation complete!" []])
            end
      end
  end.

End Model.

End GenerateEmbeddings.

(** ** scripts/ingest_data.py *)

Module IngestData.

(** [generate_actions(papers, index_name)]: one bulk action per paper. *)
Definition action_of (index_name : string) (paper : dict) : dict :=
  <["_index" := JStr index_name]>
  (<["_id" := dict_get paper "id" (JStr "")]>
  (<["_source" := JObj
      (<["paper_id" := dict_get paper "id" (JStr "")]>
      (<["title" := dict_get paper "title" (JStr "")]>
      (<["abstract" := dict_get paper "abstract" (JStr "")]>
      (<["categories" := dict_get paper "categories" (JArr [])]>
      (<["authors" := dict_get paper "authors" (JStr "")]>
      (<["update_date" := dict_get paper "update_date" (JStr "")]>
      (<["abstract_vector" := dict_get paper "abstract_vector" (JArr [])]>
       ∅)))))))]> ∅)).

Definition generate_actions (papers : list dict) (index_name : string) : list dict :=
  map (action_of index_name) papers.

(** What [bulk(client, actions, raise_on_error=False, stats_only=True)]
    gives back: the pair [(success, failed)], or an exception. *)
Inductive bulk_reply : Type :=
| Stats (success failed : Z)
| Raised (e : exn).

Abbreviation files := (gmap string (list dict)).

(** [load_papers(input_file)] *)
Definition load_papers (fs : files) (input_file : string) : logged (list dict) :=
  log! Log INFO "Loading papers from {}..." [Str input_file] in
  let! papers := lift (match fs !! input_file with
                  | Some papers => Ok papers
                  | None => Raise FileNotFoundError
                  end) in
  log! Log INFO "Loaded {} papers" [Int (len papers)] in
  ret papers.

Section Client.

(** The cluster behind the client, and the two calls of the loader. *)
Variable Client : Type.
Variable bulk : Client -> list dict -> Client * bulk_reply.
Variable indices_refresh : Client -> string -> Client * result unit.

(** The local variables of [bulk_index_papers], the cluster and the
    records logged in the loop; [calls] keeps, for the statements below,
    each request made to [bulk] with its reply, in order. *)
Record load_state : Type := LoadState {
  client : Client;
  total_indexed : Z;
  total_errors : Z;
  calls : list (list dict * bulk_reply);
  errors_logged : list log_record
}.

(** The body of the loop for one batch: the [try] with its two handlers.
    Every modelled exception derives from [Exception], so the second
    handler takes whatever the first does not. *)
Definition index_batch (index_name : string) (st : load_state) (batch : list dict)
  : load_state :=
  let actions := generate_actions batch index_name in
  let reply := snd (bulk (client st) actions) in
  let client' := fst (bulk (client st) actions) in
  let calls' := calls st ++ [(actions, reply)] in
  match reply with
  | Stats success failed =>
      LoadState client' (total_indexed st + success) (total_errors st + failed)
            calls' (errors_logged st)
  | Raised BulkIndexError =>
      LoadState client' (total_indexed st) (total_errors st + len batch) calls'
            (errors_logged st ++
             [Log ERROR "Bulk index error: {}" [Exc BulkIndexError]])
  | Raised e =>
      LoadState client' (total_indexed st) (total_errors st + len batch) calls'
            (errors_logged st ++
             [Log ERROR "Error indexing batch: {}" [Exc e]])
  end.

(** [bulk_index_papers] up to the summary it logs after the loop. *)
Definition bulk_index_loop (c : Client) (papers : list dict)
  (index_name : string) (batch_size : Z) : logged load_state :=
  log! Log INFO "Indexing {} papers into '{}'..."
            [Int (len papers); Str index_name] in
  let! bs := lift (batches papers batch_size) in
  let st := fold_left (index_batch index_name) bs (LoadState c 0 0 [] []) in
  (Ok st,
   errors_logged st ++
   [Log INFO "Indexed {} documents, {} errors"
        [Int (total_indexed st); Int (total_errors st)]]).

(** [bulk_index_papers]: the loop, the refresh, and [total_indexed] as the
    value returned.  The cluster comes back in every case: what the loop
    sent stays sent when the refresh raises. *)
Definition bulk_index_papers (c : Client) (papers : list dict)
  (index_name : string) (batch_size : Z) : Client * logged Z :=
  match bulk_index_loop c papers index_name batch_size with
  | (Raise e, l) => (c, (Raise e, l))
  | (Ok st, l) =>
      match indices_refresh (client st) index_name with
      | (c', Raise e) => (c', (Raise e, l))
      | (c', Ok _) => (c', (Ok (total_indexed st), l))
      end
  end.

(** The other steps of [main], which talk to the cluster, the configuration
    file and the user only. *)
Variable get_elasticsearch_client : logged Client.
Variable load_index_mapping : string -> logged json.
Variable create_index : Client -> string -> json -> Client * logged unit.
Variable verify_index : Client -> string -> Client * logged unit.
Variable int : string -> result Z.

(** [main()]: how it ended, the cluster as it left it (when it connected),
    and the log. *)
Definition main (environ : gmap string string) (fs : files)
  : result unit * option Client * list log_record :=
  let data_dir := getenv environ "DATA_DIR" "./data" in
  let index_name := getenv environ "INDEX_NAME" "arxiv-papers" in
  match int (getenv environ "BATCH_SIZE" "500") with
  | Raise e => (Raise e, None, [])
  | Ok batch_size =>
      let input_file := path_join data_dir "cs_papers_with_embeddings.json" in
      let mapping_file := "./config/index_mapping.json" in
      match fs !! input_file with
      | None =>
          (Ok tt, None,
           [Log ERROR "Input file not found: {}" [Str input_file];
            Log INFO "Please run generate_embeddings.py first" []])
      | Some _ =>
          match get_elasticsearch_client with
          | (Raise e, l0) => (Raise e, None, l0)
          | (Ok c, l0) =>
          match load_index_mapping mapping_file with
          | (Raise e, l1) => (Raise e, Some c, l0 ++ l1)
          | (Ok mapping, l1) =>
          match create_index c index_name mapping with
          | (c1, (Raise e, l2)) => (Raise e, Some c1, l0 ++ l1 ++ l2)
          | (c1, (Ok _, l2)) =>
          match load_papers fs input_file with
          | (Raise e, l3) => (Raise e, Some c1, l0 ++ l1 ++ l2 ++ l3)
          | (Ok papers, l3) =>
          match bulk_index_papers c1 papers index_name batch_size with
          | (c2, (Raise e, l4)) => (Raise e, Some c2, l0 ++ l1 ++ l2 ++ l3 ++ l4)
          | (c2, (Ok _, l4)) =>
          match verify_index c2 index_name with
          | (c3, (Raise e, l5)) =>
              (Raise e, Some c3, l0 ++ l1 ++ l2 ++ l3 ++ l4 ++ l5)
          | (c3, (Ok _, l5)) =>
              (Ok tt, Some c3,
               l0 ++ l1 ++ l2 ++ l3 ++ l4 ++ l5 ++
               [Log INFO "Data ingestion complete!" []])
          end end end end end end
      end
  end.

End Client.

Arguments LoadState {Client}.
Arguments client {Client}.
Arguments total_indexed {Client}.
Arguments total_errors {Client}.
Arguments calls {Client}.
Arguments errors_logged {Client}.
Arguments index_batch {Client}.
Arguments bulk_index_loop {Client}.
Arguments bulk_index_papers {Client}.
Arguments main {Client}.

End IngestData.

(** ** scripts/setup_snapshots.py *)

Module SetupSnapshots.

(** The keyword arguments of [client.snapshot.restore]. *)
Record restore_call : Type := Restore {
  repository : string;
  snapshot : string;
  body : gmap string string;
  wait_for_completion : bool
}.

(** The dict [body] as [restore_snapshot] fills it. *)
Definition restore_body (indices : option (list string))
  (rename_pattern rename_replacement : option string) : gmap string string :=
  let body0 : gmap string string := ∅ in
  let body1 :=
    if truthy_list indices
    then <["indices" := String.concat "," (default [] indices)]> body0
    else body0 in
  if truthy_str rename_pattern && truthy_str rename_replacement
  then <["rename_replacement" := default "" rename_replacement]>
       (<["rename_pattern" := default "" rename_pattern]> body1)
  else body1.

Section Client.

Variable Client : Type.
Variable snapshot_restore : Client -> restore_call -> Client * result json.

(** [restore_snapshot]: the request it sends, the cluster after it, and the
    response (or the exception of the client) with the log. *)
Definition restore_snapshot (c : Client) (repo_name snapshot_name : string)
  (indices : option (list string))
  (rename_pattern rename_replacement : option string)
  (wait_for_completion : bool)
  : restore_call * Client * logged json :=
  let request :=
    Restore repo_name snapshot_name
      (restore_body indices rename_pattern rename_replacement)
      wait_for_completion in
  let starting := Log INFO "Restoring snapshot '{}'..." [Str snapshot_name] in
  match snapshot_restore c request with
  | (c', Raise e) => (request, c', (Raise e, [starting]))
  | (c', Ok response) =>
      (request, c',
       (Ok response,
        [starting;
         if wait_for_completion
         then Log INFO "Snapshot '{}' restored successfully" [Str snapshot_name]
         else Log INFO "Snapshot '{}' restore started" [Str snapshot_name]]))
  end.

End Client.

Arguments restore_snapshot {Client}.

End SetupSnapshots.

(** ** Vocabulary of the statements *)

Import DownloadDataset GenerateEmbeddings IngestData SetupSnapshots.

(** *** The filter *)

(** A paper of the expected shape: an object whose categories, when
    present, are a string or a list of strings, and whose title and
    abstract, when present, are strings. *)
Definition is_text (field : option json) : bool :=
  match field with
  | None | Some (JStr _) => true
  | Some _ => false
  end.

Definition is_str (v : json) : bool :=
  match v with
  | JStr _ => true
  | _ => false
  end.

Definition wf_paper (paper : json) : bool :=
  match paper with
  | JObj d =>
      match d !! "categories" with
      | None | Some (JStr _) => true
      | Some (JArr items) => forallb is_str items
      | Some _ => false
      end
      && is_text (d !! "title") && is_text (d !! "abstract")
  | _ => false
  end.

Definition wf_line (line : raw_line) : bool :=
  match line with
  | Malformed => true
  | Parsed paper => wf_paper paper
  | Fails _ => false
  end.

(** The strings of a list of values. *)
Definition strings_of (items : list json) : list string :=
  flat_map (fun v => match v with JStr s => [s] | _ => [] end) items.

(** The category tags of a paper. *)
Definition tags (paper : json) : list string :=
  match paper with
  | JObj d =>
      match d !! "categories" with
      | None => split ""
      | Some (JStr s) => split s
      | Some (JArr items) => strings_of items
      | Some _ => []
      end
  | _ => []
  end.

(** The predicate on tags, and the papers it selects. *)
Definition cs_tag (tag : string) : bool := startswith tag "cs.".

Definition matches (paper : json) : bool := existsb cs_tag (tags paper).

(** The record the filter keeps for a paper of the expected shape. *)
Definition clean_text (v : json) : json :=
  match v with
  | JStr s => JStr (strip (replace "010" " " s))
  | other => other
  end.

Definition extract (paper : json) : dict :=
  match paper with
  | JObj d =>
      <["id" := dict_get d "id" (JStr "")]>
      (<["title" := clean_text (dict_get d "title" (JStr ""))]>
      (<["abstract" := clean_text (dict_get d "abstract" (JStr ""))]>
      (<["categories" := JArr (map JStr (List.filter cs_tag (tags paper)))]>
      (<["authors" := dict_get d "authors" (JStr "")]>
      (<["update_date" := dict_get d "update_date" (JStr "")]> ∅)))))
  | _ => ∅
  end.

(** The lines that parsed, and those among them the predicate selects. *)
Definition parsed (f : list raw_line) : list json :=
  flat_map (fun line => match line with Parsed paper => [paper] | _ => [] end) f.

Definition matching (f : list raw_line) : list json :=
  List.filter matches (parsed f).

Definition matching_count (f : list raw_line) : Z := len (matching f).



(** *** The embedding batcher *)

(** [paper.get('abstract', '')] *)
Definition abstract_of (paper : dict) : json := dict_get paper "abstract" (JStr "").

(** *** The loader *)

(** Sum of [f] over a list. *)
Definition total {A} (f : A -> Z) (xs : list A) : Z :=
  foldr (fun x acc => f x + acc) 0 xs.

(** What one request to [bulk] adds to each counter of the loader: the
    reported counts, or the size of the whole batch as errors when the
    call raised. *)
Definition indexed_by (call : list dict * bulk_reply) : Z :=
  match snd call with
  | Stats success _ => success
  | Raised _ => 0
  end.

Definition errors_by (call : list dict * bulk_reply) : Z :=
  match snd call with
  | Stats _ failed => failed
  | Raised _ => len (fst call)
  end.

(** The helper accounts for every action it was given: the two counts of
    a reply add up to the number of actions. *)
Definition accounts_for_every_action {Client}
  (bulk : Client -> list dict -> Client * bulk_reply) : Prop :=
  forall c actions success failed,
    snd (bulk c actions) = Stats success failed ->
    success + failed = len actions.

(** A reply that tells of failed documents: a positive failure count, or
    the bulk-index error of the helper. *)
Definition reports_failures (reply : bulk_reply) : Prop :=
  match reply with
  | Stats _ failed => 0 < failed
  | Raised e => e = BulkIndexError
  end.

(** The cluster and the replies when the requests are made to [bulk] one
    after the other, each on the cluster as the request before left it.
    This is the helper itself at work, apart from any record the loader
    keeps. *)
Fixpoint served {Client} (bulk : Client -> list dict -> Client * bulk_reply)
  (c : Client) (requests : list (list dict)) : Client * list bulk_reply :=
  match requests with
  | [] => (c, [])
  | actions :: rest =>
      (fst (served bulk (fst (bulk c actions)) rest),
       snd (bulk c actions) :: snd (served bulk (fst (bulk c actions)) rest))
  end.

(** ** Stand-ins for the collaborators, used to run the model *)

Module Fake.

(** A cluster that answers by turn: all documents indexed, half of them
    failing, all of them failing, a bulk-index error, a lost connection,
    and all documents indexed from then on.  Its state is the number of
    requests received. *)
Definition bulk (received : nat) (actions : list dict) : nat * bulk_reply :=
  (S received,
   match received with
   | 0%nat => Stats (len actions) 0
   | 1%nat => Stats (len actions / 2) (len actions - len actions / 2)
   | 2%nat => Stats 0 (len actions)
   | 3%nat => Raised BulkIndexError
   | 4%nat => Raised ConnectionError
   | _ => Stats (len actions) 0
   end).

(** A cluster that cannot be reached at all. *)
Definition unreachable (c : unit) (actions : list dict) : unit * bulk_reply :=
  (tt, Raised ConnectionError).

Definition paper (id : string) : dict :=
  <["id" := JStr id]> (<["abstract" := JStr ("On " +:+ id)]> ∅).

Definition papers : list dict :=
  map paper ["p01"; "p02"; "p03"; "p04"; "p05"; "p06";
             "p07"; "p08"; "p09"; "p10"; "p11"; "p12"].

(** An embedding service that answers a batch with one vector only, that
    of its first text: the length of the text, as a number. *)
Definition encode_first (batch : list json) : list (list Z) :=
  match batch with
  | JStr text :: _ => [[Z.of_nat (String.length text)]]
  | _ => []
  end.

(** A service that answers with one vector per text. *)
Definition encode_each (batch : list json) : list (list Z) :=
  map (fun text => match text with
                   | JStr s => [Z.of_nat (String.length s)]
                   | _ => [0]
                   end) batch.

Definition with_abstract (id abstract : string) : dict :=
  <["id" := JStr id]> (<["abstract" := JStr abstract]> ∅).

Definition three_papers : list dict :=
  [with_abstract "x" "a"; with_abstract "y" "bb"; with_abstract "z" "ccc"].

(** [int] on the decimal numerals. *)
Definition digit (c : ascii) : option Z :=
  let n := Z.of_N (N_of_ascii c) in
  if (48 <=? n) && (n <=? 57) then Some (n - 48) else None.

Fixpoint digits (acc : Z) (s : string) : result Z :=
  match s with
  | EmptyString => Ok acc
  | String c s' =>
      match digit c with
      | Some d => digits (10 * acc + d) s'
      | None => Raise ValueError
      end
  end.

Definition int (s : string) : result Z :=
  match s with
  | EmptyString => Raise ValueError
  | _ => digits 0 s
  end.

(** The steps of the loader's [main] around the bulk load, all succeeding
    and silent. *)
Definition indices_refresh (c : nat) (index_name : string) : nat * result unit :=
  (c, Ok tt).

Definition get_elasticsearch_client : logged nat := (Ok 0%nat, []).

Definition load_index_mapping (mapping_file : string) : logged json :=
  (Ok (JObj ∅), []).

Definition create_index (c : nat) (index_name : string) (mapping : json)
  : nat * logged unit :=
  (c, (Ok tt, [])).

Definition verify_index (c : nat) (index_name : string) : nat * logged unit :=
  (c, (Ok tt, [])).

Definition file_size_mb (papers : list dict) : Z := 0.

(** A small input file for the filter: four papers with a cs tag, two
    without, and a line that does not parse. *)
Definition raw (id categories : string) : raw_line :=
  Parsed (JObj (<["id" := JStr id]>
               (<["title" := JStr ("Title of " +:+ id)]>
               (<["abstract" := JStr ("On " +:+ id)]>
               (<["categories" := JStr categories]> ∅))))).

Definition corpus : list raw_line :=
  [raw "a" "cs.AI math.CO";
   Malformed;
   raw "b" "math.AG";
   raw "c" "stat.ML cs.LG";
   Parsed (JObj (<["id" := JStr "d"]> (<["categories" := JArr [JStr "cs.DB"]]> ∅)));
   raw "e" "physics.gen-ph";
   raw "f" "cs.CL"].

End Fake.

(** ** Further vocabulary *)

(** *** Text as the filter leaves it *)

Fixpoint has_char (c : ascii) (s : string) : bool :=
  match s with
  | EmptyString => false
  | String c' s' => Ascii.eqb c' c || has_char c s'
  end.

Definition head_space (s : string) : bool :=
  match s with
  | EmptyString => false
  | String c _ => isspace c
  end.

(** No newline inside, no blank at either end. *)
Definition normalised (s : string) : bool :=
  negb (has_char "010" s) && negb (head_space s)
  && negb (head_space (String.rev s)).

(** *** Records as the filter saves them *)

Definition cs_string (v : json) : bool :=
  match v with
  | JStr s => cs_tag s
  | _ => false
  end.

Definition kept_keys : gset string :=
  {["id"; "title"; "abstract"; "categories"; "authors"; "update_date"]}.

(** The six keys and no other, and categories that are a non-empty list of
    strings starting with [cs.]. *)
Definition has_schema (r : dict) : Prop :=
  dom r = kept_keys
  /\ exists cats,
       r !! "categories" = Some (JArr cats)
       /\ cats <> [] /\ forallb cs_string cats = true.

(** A title and an abstract that are normalised strings. *)
Definition has_clean_text (r : dict) : Prop :=
  exists title abstract,
    r !! "title" = Some (JStr title) /\ r !! "abstract" = Some (JStr abstract)
    /\ normalised title = true /\ normalised abstract = true.

Definition is_object (v : json) : bool :=
  match v with
  | JObj _ => true
  | _ => false
  end.

(** A raw data set in JSON Lines that holds the given objects, one per
    line, as [filter_cs_papers] reads its input.  (The files the scripts
    write with [json.dump(..., indent=2)] are not of this form: they hold
    one array, spread over many lines.) *)
Definition json_lines (objects : list dict) : list raw_line :=
  map (fun r => Parsed (JObj r)) objects.

(** ** scripts/download_dataset.py, the sample data set and [main] *)

Module DownloadMain.

(** [str(n)] for an int, and [format(n, '0<width>d')]: the sign, then
    zeros up to the width, then the digits. *)
Definition str (n : Z) : string := NilZero.string_of_int (Z.to_int n).

Fixpoint zeros (k : nat) : string :=
  match k with
  | O => EmptyString
  | S k' => String "0" (zeros k')
  end.

Definition format_0d (width : nat) (n : Z) : string :=
  let sign := if n <? 0 then "-" else "" in
  let body := str (Z.abs n) in
  sign +:+ zeros (width - String.length sign - String.length body) +:+ body.

(** [s.title()] on ASCII text, which is all the script gives it: the first
    letter of each run of letters in upper case, the others in lower
    case.  A character that is not an ASCII letter ends the run. *)
Definition is_lower (c : ascii) : bool :=
  let n := N_of_ascii c in ((97 <=? n) && (n <=? 122))%N.

Definition is_upper (c : ascii) : bool :=
  let n := N_of_ascii c in ((65 <=? n) && (n <=? 90))%N.

Definition upper_char (c : ascii) : ascii :=
  if is_lower c then ascii_of_N (N_of_ascii c - 32) else c.

Fixpoint title_go (in_word : bool) (s : string) : string :=
  match s with
  | EmptyString => EmptyString
  | String c s' =>
      if is_lower c
      then String (if in_word then c else upper_char c) (title_go true s')
      else if is_upper c
           then String (if in_word then lower_char c else c) (title_go true s')
           else String c (title_go false s')
  end.

Definition title (s : string) : string := title_go false s.

(** The two tables of [create_sample_dataset]. *)
Definition cs_categories : list string :=
  ["cs.AI"; "cs.CL"; "cs.CV"; "cs.LG"; "cs.NE";
   "cs.DB"; "cs.DC"; "cs.SE"; "cs.PL"; "cs.CR"].

Definition topics : list (string * string * string) :=
  [("deep learning", "neural networks", "training");
   ("natural language processing", "transformers", "attention");
   ("computer vision", "image classification", "convolutional");
   ("distributed systems", "consensus", "replication");
   ("database systems", "query optimization", "indexing");
   ("machine learning", "gradient descent", "optimization");
   ("reinforcement learning", "policy", "reward");
   ("graph neural networks", "node embeddings", "aggregation");
   ("knowledge graphs", "reasoning", "embeddings");
   ("federated learning", "privacy", "aggregation")].

(** The f-strings of a sample paper. *)
Definition sample_id (i : Z) : string :=
  format_0d 4 (2000 + i / 100) +:+ "." +:+ format_0d 5 (i mod 10000).

Definition sample_title (topic : string * string * string) : string :=
  "Advances in " +:+ title (fst (fst topic)) +:+ ": A Study of "
  +:+ title (snd (fst topic)) +:+ " and " +:+ title (snd topic).

Definition sample_abstract (topic : string * string * string) : string :=
  "This paper presents a comprehensive study of " +:+ fst (fst topic)
  +:+ " with focus on " +:+ snd (fst topic) +:+ ". "
  +:+ "We propose a novel approach using " +:+ snd topic
  +:+ " that achieves state-of-the-art results. "
  +:+ "Our method is evaluated on multiple benchmark datasets and demonstrates significant "
  +:+ "improvements over existing baselines. The experimental results show the effectiveness "
  +:+ "of our approach in various scenarios and highlight the importance of "
  +:+ fst (fst topic) +:+ " "
  +:+ "in modern computer science applications.".

Definition sample_authors (i : Z) : string :=
  "Author " +:+ str (i mod 5 + 1) +:+ ", Author " +:+ str ((i + 1) mod 5 + 1)
  +:+ ", Author " +:+ str ((i + 2) mod 5 + 1).

Definition sample_date (i : Z) : string :=
  "2023-" +:+ format_0d 2 (i mod 12 + 1) +:+ "-" +:+ format_0d 2 (i mod 28 + 1).

(** The dict [paper] of the loop, for the index [i]; [xs[k]] with [k]
    within bounds is [nth]. *)
Definition sample_paper (i : Z) : dict :=
  let topic := nth (Z.to_nat (i mod len topics)) topics ("", "", "") in
  let category := nth (Z.to_nat (i mod len cs_categories)) cs_categories "" in
  <["id" := JStr (sample_id i)]>
  (<["title" := JStr (sample_title topic)]>
  (<["abstract" := JStr (sample_abstract topic)]>
  (<["categories" := JArr [JStr category]]>
  (<["authors" := JStr (sample_authors i)]>
  (<["update_date" := JStr (sample_date i)]> ∅))))).

(** The list [sample_papers] after the loop over [range(num_samples)]. *)
Definition sample_papers (num_samples : Z) : list dict :=
  map sample_paper (range_up (Z.to_nat num_samples) 0 num_samples 1).

(** [create_sample_dataset]: the files after the dump, the value returned
    and the log. *)
Definition create_sample_dataset (fs : gmap string (list dict))
  (output_file : string) (num_samples : Z)
  : gmap string (list dict) * logged Z :=
  (<[output_file := sample_papers num_samples]> fs,
   (Ok num_samples,
    [Log INFO "Creating sample dataset with {} papers..." [Int num_samples];
     Log INFO "Created sample dataset with {} papers at {}"
         [Int num_samples; Str output_file]])).

(** The disk as [main] sees it: the raw data sets, read line by line; the
    artifacts of the pipeline, each a JSON list of papers; and the files
    that stand where an artifact is expected without being readable as
    one (truncated, not JSON, or JSON of a value without a length), each
    with the exception that [json.load], or [len] on what it returns,
    raises.  A path is in at most one of the last two; writing a file
    makes it an artifact. *)
Record disk : Type := Disk {
  datasets : gmap string (list raw_line);
  artifacts : gmap string (list dict);
  unreadable : gmap string exn
}.

(** [filter_cs_papers(input_file, output_file, max_papers)] on the disk:
    [open] raises when the input is missing; the output is written once
    the loop is over, and not at all when the loop raises. *)
Definition filter_file (d : disk) (input_file output_file : string)
  (max_papers : option Z) : disk * logged Z :=
  match datasets d !! input_file with
  | None =>
      (d, (Raise FileNotFoundError,
           [Log INFO "Filtering CS papers from {}..." [Str input_file]]))
  | Some f =>
      match filter_cs_papers f input_file output_file max_papers with
      | (Ok r, l) =>
          (Disk (datasets d) (<[output_file := saved r]> (artifacts d))
                (delete output_file (unreadable d)),
           (Ok (returned r), l))
      | (Raise e, l) => (d, (Raise e, l))
      end
  end.

Section Main.

(** The download from Kaggle, the creation of the data directory and
    [int] on a string. *)
Variable download_kaggle_dataset : disk -> string -> disk * logged string.
Variable mkdir : string -> result unit.
Variable int : string -> result Z.

(** The handler of [main]: any exception of the download or of the filter
    ends here. *)
Definition fall_back (d : disk) (output_file : string) (max_documents : Z)
  (e : exn) (l : list log_record) : result unit * disk * list log_record :=
  let created := create_sample_dataset (artifacts d) output_file
                   (Z.min 1000 max_documents) in
  (Ok tt, Disk (datasets d) (fst created) (delete output_file (unreadable d)),
   l ++ [Log WARNING "Could not download from Kaggle: {}" [Exc e];
         Log INFO "Creating sample dataset for demonstration purposes..." []]
     ++ snd (snd created)).

(** [main()]: how it ended, the disk it leaves and its log.  The file
    that exists already is read, and its papers counted, before the [try]:
    what [json.load] or [len] raises there leaves [main]. *)
Definition main (environ : gmap string string) (d : disk)
  : result unit * disk * list log_record :=
  let data_dir := getenv environ "DATA_DIR" "./data" in
  match int (getenv environ "MAX_DOCUMENTS" "50000") with
  | Raise e => (Raise e, d, [])
  | Ok max_documents =>
      match mkdir data_dir with
      | Raise e => (Raise e, d, [])
      | Ok _ =>
          let output_file := path_join data_dir "cs_papers.json" in
          match unreadable d !! output_file, artifacts d !! output_file with
          | Some e, _ =>
              (Raise e, d,
               [Log INFO "Dataset already exists at {}" [Str output_file]])
          | None, Some papers =>
              (Ok tt, d,
               [Log INFO "Dataset already exists at {}" [Str output_file];
                Log INFO "Dataset contains {} papers" [Int (len papers)]])
          | None, None =>
              let arxiv_file :=
                path_join data_dir "arxiv-metadata-oai-snapshot.json" in
              let downloaded :=
                match datasets d !! arxiv_file with
                | Some _ => (d, (Ok tt, []))
                | None =>
                    match download_kaggle_dataset d data_dir with
                    | (d1, (Ok _, l1)) => (d1, (Ok tt, l1))
                    | (d1, (Raise e, l1)) => (d1, (Raise e, l1))
                    end
                end in
              match downloaded with
              | (d1, (Raise e, l1)) => fall_back d1 output_file max_documents e l1
              | (d1, (Ok _, l1)) =>
                  match filter_file d1 arxiv_file output_file (Some max_documents) with
                  | (d2, (Ok _, l2)) => (Ok tt, d2, l1 ++ l2)
                  | (d2, (Raise e, l2)) =>
                      fall_back d2 output_file max_documents e (l1 ++ l2)
                  end
              end
          end
      end
  end.

End Main.

End DownloadMain.

(** The entry [k] of the two tables of [create_sample_dataset] gives
    normalised text and a [cs.] category. *)
Definition table_ok (k : nat) : bool :=
  normalised (DownloadMain.sample_title (nth k DownloadMain.topics ("", "", "")))
  && normalised (DownloadMain.sample_abstract (nth k DownloadMain.topics ("", "", "")))
  && cs_tag (nth k DownloadMain.cs_categories "").

(** The number a string of digits stands for, if it is one. *)
Definition number_of (s : string) : option Z :=
  option_map Z.of_uint (NilEmpty.uint_of_string s).

(** ** scripts/setup_snapshots.py, the menu and the demo

    What the script prints with [print] is left out; the requests to the
    cluster, the log, the lines read from the terminal and the exceptions
    are kept. *)

Module SnapshotMenu.

(** The calls of the snapshot API the script makes, with their keyword
    arguments. *)
Inductive request : Type :=
| CreateRepository (name : string) (settings : json)
| CreateSnapshot (repo_name snapshot_name : string) (indices : gmap string string)
    (wait : bool)
| GetSnapshots (repo_name snapshot_name : string)
| RestoreSnapshot (call : restore_call).

(** [v[key]] with a string for key: a dict has the key or raises
    [KeyError]; no other value takes a string as index. *)
Definition getitem (v : json) (key : string) : result json :=
  match v with
  | JObj d =>
      match d !! key with
      | Some x => Ok x
      | None => Raise (OtherException "KeyError")
      end
  | _ => Raise TypeError
  end.

(** [len(v)]: lists, strings and dicts have a length. *)
Definition len_json (v : json) : result Z :=
  match v with
  | JArr items => Ok (len items)
  | JStr s => Ok (Z.of_nat (String.length s))
  | JObj d => Ok (Z.of_nat (size d))
  | _ => Raise TypeError
  end.

(** [if v:] on a decoded JSON value.  A float is the bit pattern of a
    double: it is zero when all its bits but the sign are. *)
Definition truthy (v : json) : bool :=
  match v with
  | JNull => false
  | JBool b => b
  | JInt n => negb (n =? 0)
  | JFloat bits => negb (Z.land bits (2 ^ 63 - 1) =? 0)
  | JStr s => negb (String.eqb s "")
  | JArr items => negb (Z.of_nat (length items) =? 0)
  | JObj d => negb (Z.of_nat (size d) =? 0)
  end.

(** [needle in s] for strings. *)
Fixpoint contains (needle s : string) : bool :=
  String.prefix needle s
  || match s with
     | EmptyString => false
     | String _ s' => contains needle s'
     end.

(** The body of [create_repository]. *)
Definition repository_body (repo_path : string) : json :=
  JObj (<["type" := JStr "fs"]>
       (<["settings" := JObj (<["location" := JStr repo_path]>
                             (<["compress" := JBool true]> ∅))]> ∅)).

(** The dict [body] as [create_snapshot] fills it. *)
Definition snapshot_body (indices : option (list string)) : gmap string string :=
  if truthy_list indices
  then <["indices" := String.concat "," (default [] indices)]> ∅
  else ∅.

Section Session.

(** The cluster behind the client; the clock, as the successive values of
    [datetime.now().strftime('%Y%m%d_%H%M%S')]; [str] of a value and of
    an exception, as f-strings and [str(e)] use it. *)
Variable Client : Type.
Variable send : Client -> request -> Client * result json.
Variable strftime_now : nat -> string.
Variable format : json -> string.
Variable message : exn -> string.

(** The state a session runs in: the cluster, the number of times the
    clock was read and, for the statements below, the requests made so
    far, in order. *)
Record world : Type := World {
  cluster : Client;
  ticks : nat;
  sent : list request
}.

(** A step of the script: its result or exception, the state it leaves
    and the records it logged. *)
Definition io (A : Type) : Type := world -> result A * world * list log_record.

Definition pure {A} (a : A) : io A := fun w => (Ok a, w, []).

Definition raise {A} (e : exn) : io A := fun w => (Raise e, w, []).

Definition of_result {A} (r : result A) : io A := fun w => (r, w, []).

Definition seq {A B} (m : io A) (k : A -> io B) : io B := fun w =>
  match m w with
  | (Ok a, w1, l1) =>
      match k a w1 with
      | (r, w2, l2) => (r, w2, l1 ++ l2)
      end
  | (Raise e, w1, l1) => (Raise e, w1, l1)
  end.

(** [try: m except Exception as e: handler(e)] *)
Definition try {A} (m : io A) (handler : exn -> io A) : io A := fun w =>
  match m w with
  | (Ok a, w1, l1) => (Ok a, w1, l1)
  | (Raise e, w1, l1) =>
      match handler e w1 with
      | (r, w2, l2) => (r, w2, l1 ++ l2)
      end
  end.

Definition log (lv : level) (template : string) (values : list log_arg) : io unit :=
  fun w => (Ok tt, w, [Log lv template values]).

Definition call (r : request) : io json := fun w =>
  (snd (send (cluster w) r),
   World (fst (send (cluster w) r)) (ticks w) (sent w ++ [r]),
   []).

Definition now : io string := fun w =>
  (Ok (strftime_now (ticks w)), World (cluster w) (S (ticks w)) (sent w), []).

Notation "'run!' x ':=' m 'in' k" := (seq m (fun x => k))
  (at level 10, x name, m at level 100, k at level 200, only parsing).
Notation "'do!' m 'in' k" := (seq m (fun _ => k))
  (at level 10, m at level 100, k at level 200, only parsing).

Fixpoint for_each {A} (xs : list A) (body : A -> io unit) : io unit :=
  match xs with
  | [] => pure tt
  | x :: xs' => do! body x in for_each xs' body
  end.

Definition register_snapshot_repository (repo_name repo_path : string) : io json :=
  do! log INFO "Registering snapshot repository '{}'..." [Str repo_name] in
  run! response := call (CreateRepository repo_name (repository_body repo_path)) in
  do! log INFO "Repository '{}' registered successfully" [Str repo_name] in
  pure response.

Definition create_snapshot (repo_name : string) (snapshot_name : option string)
  (indices : option (list string)) (wait_for_completion : bool) : io json :=
  run! snapshot_name :=
    match snapshot_name with
    | None => run! timestamp := now in pure ("snapshot_" +:+ timestamp)
    | Some name => pure name
    end in
  do! log INFO "Creating snapshot '{}' in repository '{}'..."
           [Str snapshot_name; Str repo_name] in
  run! response :=
    call (CreateSnapshot repo_name snapshot_name (snapshot_body indices)
            wait_for_completion) in
  do! (if wait_for_completion
        then
          do! log INFO "Snapshot '{}' created successfully" [Str snapshot_name] in
          run! made := of_result (getitem response "snapshot") in
          run! state := of_result (getitem made "state") in
          do! log INFO "  - State: {}" [Str (format state)] in
          run! made := of_result (getitem response "snapshot") in
          run! names := of_result (getitem made "indices") in
          do! log INFO "  - Indices: {}" [Str (format names)] in
          run! made := of_result (getitem response "snapshot") in
          run! shards := of_result (getitem made "shards") in
          log INFO "  - Shards: {}" [Str (format shards)]
        else log INFO "Snapshot '{}' creation started" [Str snapshot_name]) in
  pure response.

(** The body of the loop of [list_snapshots]. *)
Definition describe (snapshot : json) : io unit :=
  run! name := of_result (getitem snapshot "snapshot") in
  do! log INFO "  - {}" [Str (format name)] in
  run! state := of_result (getitem snapshot "state") in
  do! log INFO "    State: {}" [Str (format state)] in
  run! start_time := of_result (get snapshot "start_time" (JStr "N/A")) in
  do! log INFO "    Start time: {}" [Str (format start_time)] in
  run! end_time := of_result (get snapshot "end_time" (JStr "N/A")) in
  do! log INFO "    End time: {}" [Str (format end_time)] in
  run! names := of_result (get snapshot "indices" (JArr [])) in
  log INFO "    Indices: {}" [Str (format names)].

Definition list_snapshots (repo_name : string) : io json :=
  do! log INFO "Listing snapshots in repository '{}'..." [Str repo_name] in
  run! response := call (GetSnapshots repo_name "*") in
  run! snapshots := of_result (get response "snapshots" (JArr [])) in
  run! n := of_result (len_json snapshots) in
  do! log INFO "Found {} snapshot(s)" [Int n] in
  run! items := of_result (iterate snapshots) in
  do! for_each items describe in
  pure snapshots.

(** [restore_snapshot], as modelled above, on the state of the session. *)
Definition restore_snapshot (repo_name snapshot_name : string)
  (indices : option (list string))
  (rename_pattern rename_replacement : option string)
  (wait_for_completion : bool) : io json := fun w =>
  match SetupSnapshots.restore_snapshot
          (fun c r => send c (RestoreSnapshot r)) (cluster w) repo_name
          snapshot_name indices rename_pattern rename_replacement
          wait_for_completion with
  | (r, c', (reply, l)) =>
      (reply, World c' (ticks w) (sent w ++ [RestoreSnapshot r]), l)
  end.

Definition demo_snapshot_restore (environ : gmap string string)
  (index_name : string) : io unit :=
  let repo_name := getenv environ "SNAPSHOT_REPO_NAME" "arxiv_backup" in
  let repo_path :=
    getenv environ "SNAPSHOT_REPO_PATH" "/usr/share/elasticsearch/snapshots" in
  do! try (do! register_snapshot_repository repo_name repo_path in pure tt)
           (fun e =>
              if contains "repository_already_exists" (lower (message e))
              then log INFO "Repository '{}' already exists" [Str repo_name]
              else raise e) in
  run! timestamp := now in
  let snapshot_name := "demo_snapshot_" +:+ timestamp in
  do! try (do! create_snapshot repo_name (Some snapshot_name)
                   (Some [index_name]) true in pure tt)
           (fun e => log ERROR "Error creating snapshot: {}" [Exc e]) in
  do! try (do! list_snapshots repo_name in pure tt)
           (fun e => log ERROR "Error listing snapshots: {}" [Exc e]) in
  pure tt.

(** The loop of [main] over the lines typed at the terminal; [input]
    raises [EOFError] when there is no line left. *)
Fixpoint menu (environ : gmap string string)
  (repo_name repo_path index_name : string) (lines : list string) : io unit :=
  match lines with
  | [] => raise (OtherException "EOFError")
  | choice :: rest =>
      if String.eqb choice "1" then
        do! register_snapshot_repository repo_name repo_path in
        menu environ repo_name repo_path index_name rest
      else if String.eqb choice "2" then
        match rest with
        | [] => raise (OtherException "EOFError")
        | line :: rest' =>
            let name := strip line in
            do! create_snapshot repo_name
                   (if truthy_str (Some name) then Some name else None)
                   (Some [index_name]) true in
            menu environ repo_name repo_path index_name rest'
        end
      else if String.eqb choice "3" then
        do! list_snapshots repo_name in
        menu environ repo_name repo_path index_name rest
      else if String.eqb choice "4" then
        run! snapshots := list_snapshots repo_name in
        if truthy snapshots then
          match rest with
          | [] => raise (OtherException "EOFError")
          | line :: rest' =>
              let name := strip line in
              do! (if truthy_str (Some name)
                    then do! restore_snapshot repo_name name (Some [index_name])
                                (Some index_name)
                                (Some (index_name +:+ "_restored")) true in
                         pure tt
                    else pure tt) in
              menu environ repo_name repo_path index_name rest'
          end
        else menu environ repo_name repo_path index_name rest
      else if String.eqb choice "5" then
        do! demo_snapshot_restore environ index_name in
        menu environ repo_name repo_path index_name rest
      else if String.eqb choice "6" then pure tt
      else menu environ repo_name repo_path index_name rest
  end.

(** The connection, which raises [ConnectionError] when the ping fails. *)
Variable get_elasticsearch_client : result Client.

(** [main()] on the lines typed: how it ended, the state of the session
    when it did (once connected) and the log. *)
Definition main (environ : gmap string string) (lines : list string)
  : result unit * option world * list log_record :=
  let repo_name := getenv environ "SNAPSHOT_REPO_NAME" "arxiv_backup" in
  let repo_path :=
    getenv environ "SNAPSHOT_REPO_PATH" "/usr/share/elasticsearch/snapshots" in
  let index_name := getenv environ "INDEX_NAME" "arxiv-papers" in
  match get_elasticsearch_client with
  | Raise e => (Raise e, None, [])
  | Ok c =>
      match menu environ repo_name repo_path index_name lines (World c 0 []) with
      | (r, w, l) => (r, Some w, l)
      end
  end.

End Session.

Arguments World {Client}.
Arguments cluster {Client}.
Arguments ticks {Client}.
Arguments sent {Client}.
Arguments io Client A : clear implicits.
Arguments menu {Client}.
Arguments main {Client}.
Arguments demo_snapshot_restore {Client}.
Arguments list_snapshots {Client}.
Arguments create_snapshot {Client}.
Arguments register_snapshot_repository {Client}.
Arguments restore_snapshot {Client}.

End SnapshotMenu.

(** The cluster after the requests have been sent to it, one after the
    other: the client at work, apart from the record the session keeps. *)
Definition replayed {Client}
  (send : Client -> SnapshotMenu.request -> Client * result json)
  (c : Client) (requests : list SnapshotMenu.request) : Client :=
  fold_left (fun c r => fst (send c r)) requests c.

(** The restore requests among the requests of a session. *)
Definition restores (requests : list SnapshotMenu.request) : list restore_call :=
  flat_map (fun r => match r with
                     | SnapshotMenu.RestoreSnapshot call => [call]
                     | _ => []
                     end) requests.

(** A step whose record is true to the cluster, and that sends only
    restore requests for which [P] holds: the requests it adds to the
    record are those the cluster received, in this order. *)
Definition adds {Client A}
  (send : Client -> SnapshotMenu.request -> Client * result json)
  (P : restore_call -> Prop) (m : SnapshotMenu.io Client A) : Prop :=
  forall w, exists new,
    SnapshotMenu.sent (snd (fst (m w))) = SnapshotMenu.sent w ++ new
    /\ SnapshotMenu.cluster (snd (fst (m w)))
       = replayed send (SnapshotMenu.cluster w) new
    /\ Forall P (restores new).

(** A step that sends the requests [requests], in this order, whether it
    returns or raises. *)
Definition emits {Client A} (requests : list SnapshotMenu.request)
  (m : SnapshotMenu.io Client A) : Prop :=
  forall w, SnapshotMenu.sent (snd (fst (m w))) = SnapshotMenu.sent w ++ requests.

(** A restore request as the menu makes it. *)
Definition menu_restore (repo_name index_name : string) (lines : list string)
  (call : restore_call) : Prop :=
  repository call = repo_name
  /\ wait_for_completion call = true
  /\ In "4" lines
  /\ (exists line, In line lines /\ snapshot call = strip line /\ strip line <> "")
  /\ body call = restore_body (Some [index_name]) (Some index_name)
                   (Some (index_name +:+ "_restored")).

(** ** Further stand-ins *)

Module Scenario.

(** A paper whose title runs over two lines, with blanks around. *)
Definition two_line_title : list raw_line :=
  [Parsed (JObj (<["title" := JStr "  Deep
 learning  "]> (<["categories" := JStr "cs.LG"]> ∅)))].

(** A download that fails, as without Kaggle credentials, and a data
    directory that can be created. *)
Definition download_fails (d : DownloadMain.disk) (data_dir : string)
  : DownloadMain.disk * logged string :=
  (d, (Raise (OtherException "Could not find kaggle.json"),
       [Log ERROR "Error downloading dataset: {}"
            [Exc (OtherException "Could not find kaggle.json")]])).

Definition mkdir (data_dir : string) : result unit := Ok tt.

(** A disk that holds the raw data set only, with a bare list as the
    third of its lines. *)
Definition raw_disk : DownloadMain.disk :=
  DownloadMain.Disk
    (<["./data/arxiv-metadata-oai-snapshot.json" :=
         take 2 Fake.corpus ++ Parsed (JArr [JStr "cs.AI"]) :: drop 2 Fake.corpus]> ∅)
    ∅ ∅.


(** A cluster that accepts the connection and then drops every bulk
    request. *)
Definition lost (c : nat) (actions : list dict) : nat * bulk_reply :=
  (c, Raised ConnectionError).

(** The data directory once the embedding stage has run. *)
Definition embedded_files : gmap string (list dict) :=
  <["./data/cs_papers_with_embeddings.json" := Fake.papers]> ∅.

(** A cluster that counts the requests it gets: it holds one snapshot,
    and its repository is registered already. *)
Definition snapshot_cluster (c : nat) (r : SnapshotMenu.request) : nat * result json :=
  (S c,
   match r with
   | SnapshotMenu.GetSnapshots _ _ =>
       Ok (JObj (<["snapshots" :=
                   JArr [JObj (<["snapshot" := JStr "nightly"]>
                              (<["state" := JStr "SUCCESS"]> ∅))]]> ∅))
   | SnapshotMenu.CreateRepository _ _ =>
       Raise (OtherException "repository_already_exists_exception")
   | _ => Ok (JObj ∅)
   end).

Definition clock (k : nat) : string := "20240101_000000".

Definition show (v : json) : string :=
  match v with
  | JStr s => s
  | _ => "..."
  end.

Definition message (e : exn) : string :=
  match e with
  | OtherException what => what
  | _ => "error"
  end.

End Scenario.

(** * Part II: properties *)

(** ** Batching *)

Example batches_7_3 :
  batches [1; 2; 3; 4; 5; 6; 7] 3 = Ok [[1; 2; 3]; [4; 5; 6]; [7]].
Proof. reflexivity. Qed.

Example batches_6_3 :
  batches [1; 2; 3; 4; 5; 6] 3 = Ok [[1; 2; 3]; [4; 5; 6]].
Proof. reflexivity. Qed.

Example batches_zero_step : batches [1; 2; 3] 0 = Raise ValueError.
Proof. reflexivity. Qed.

Example batches_negative_step : batches [1; 2; 3] (-2) = Ok [].
Proof. reflexivity. Qed.

Section BatchFacts.

Context {A : Type}.
Variable xs : list A.
Variable b : Z.
Hypothesis b_pos : 0 < b.

Local Abbreviation n := (len xs).

Lemma slice_in_range i :
  0 <= i -> i <= n ->
  slice xs i (i + b)
  = take (Z.to_nat (Z.min (i + b) n - i)) (drop (Z.to_nat i) xs).
Proof.
  intros Hi Hn. unfold slice, slice_index.
  destruct (i <? 0) eqn:E1; [apply Z.ltb_lt in E1; lia|].
  destruct (i + b <? 0) eqn:E2; [apply Z.ltb_lt in E2; lia|].
  replace (Z.min i n) with i by lia. reflexivity.
Qed.

Lemma slice_length i :
  0 <= i -> i <= n -> len (slice xs i (i + b)) = Z.min (i + b) n - i.
Proof.
  intros Hi Hn. rewrite slice_in_range by assumption.
  unfold len. rewrite length_take, length_drop. unfold len in *. lia.
Qed.

(** Walking from [i] with enough fuel covers the rest of the list. *)
Lemma concat_range_up fuel i :
  0 <= i -> n - i <= Z.of_nat fuel ->
  concat (map (fun j => slice xs j (j + b)) (range_up fuel i n b))
  = drop (Z.to_nat i) xs.
Proof.
  revert i. induction fuel as [|fuel IH]; intros i Hi Hfuel; simpl.
  - symmetry. apply drop_ge. unfold len in *. lia.
  - destruct (i <? n) eqn:E.
    + apply Z.ltb_lt in E. simpl.
      rewrite IH by lia. rewrite slice_in_range by lia.
      destruct (Z.le_gt_cases (i + b) n) as [Hle|Hgt].
      * replace (Z.min (i + b) n - i) with b by lia.
        replace (Z.to_nat (i + b)) with (Z.to_nat i + Z.to_nat b)%nat by lia.
        rewrite <- drop_drop. apply take_drop.
      * replace (Z.min (i + b) n - i) with (n - i) by lia.
        rewrite (drop_ge xs (Z.to_nat (i + b)))
          by (unfold len in *; lia).
        rewrite app_nil_r. apply take_ge.
        rewrite length_drop. unfold len in *. lia.
    + apply Z.ltb_ge in E. symmetry. apply drop_ge.
      unfold len in *. lia.
Qed.

Lemma range_up_length fuel i :
  n - i <= Z.of_nat fuel ->
  Z.of_nat (length (range_up fuel i n b)) = Z.max 0 ((n - i + b - 1) / b).
Proof.
  revert i. induction fuel as [|fuel IH]; intros i Hfuel; simpl.
  - assert ((n - i + b - 1) / b < 1); [|lia].
    apply Z.div_lt_upper_bound; lia.
  - destruct (i <? n) eqn:E.
    + apply Z.ltb_lt in E. simpl length.
      rewrite Nat2Z.inj_succ, IH by lia.
      replace (n - i + b - 1) with (n - (i + b) + b - 1 + 1 * b) by lia.
      rewrite Z.div_add by lia.
      assert (0 <= (n - (i + b) + b - 1) / b) by (apply Z.div_pos; lia).
      lia.
    + apply Z.ltb_ge in E. simpl.
      assert ((n - i + b - 1) / b < 1); [|lia].
      apply Z.div_lt_upper_bound; lia.
Qed.

Lemma range_up_lookup fuel i k v :
  range_up fuel i n b !! k = Some v -> v = i + Z.of_nat k * b /\ v < n.
Proof.
  revert i k. induction fuel as [|fuel IH]; intros i k; simpl; [done|].
  destruct (i <? n) eqn:E; [|done].
  apply Z.ltb_lt in E. destruct k as [|k]; simpl.
  - intros [= <-]. lia.
  - intros H. apply IH in H. lia.
Qed.

Lemma ceil_div_alt : Z.max 0 ((n + b - 1) / b) = ceil_div n b.
Proof.
  assert (0 <= n) as Hn by (unfold len; lia).
  unfold ceil_div.
  pose proof (Z.div_mod n b ltac:(lia)) as Hdm.
  pose proof (Z.mod_pos_bound n b b_pos) as Hmod.
  assert (0 <= n / b) by (apply Z.div_pos; lia).
  destruct (n mod b =? 0) eqn:E.
  - apply Z.eqb_eq in E.
    assert ((n + b - 1) / b = n / b); [|lia].
    symmetry. apply (Z.div_unique _ _ _ (b - 1)); lia.
  - apply Z.eqb_neq in E.
    assert ((n + b - 1) / b = n / b + 1); [|lia].
    symmetry. apply (Z.div_unique _ _ _ (n mod b - 1)); lia.
Qed.

(** With a positive step the walk is the ascending one. *)
Lemma batches_unfold :
  batches xs b
  = Ok (map (fun i => slice xs i (i + b)) (range_up (Z.to_nat n) 0 n b)).
Proof.
  unfold batches, range.
  destruct (b =? 0) eqn:E0; [apply Z.eqb_eq in E0; lia|].
  destruct (0 <? b) eqn:E1; [|apply Z.ltb_ge in E1; lia].
  simpl. rewrite Z.sub_0_r. reflexivity.
Qed.

Lemma batches_count bs : batches xs b = Ok bs -> len bs = ceil_div n b.
Proof.
  rewrite batches_unfold. intros [= <-].
  unfold len at 1. rewrite length_map, range_up_length by lia.
  rewrite Z.sub_0_r. apply ceil_div_alt.
Qed.

Lemma batches_concat bs : batches xs b = Ok bs -> concat bs = xs.
Proof.
  rewrite batches_unfold. intros [= <-].
  rewrite concat_range_up by lia. reflexivity.
Qed.

Lemma batches_size bs k batch :
  batches xs b = Ok bs -> bs !! k = Some batch ->
  len batch = if Z.of_nat k + 1 <? len bs then b
              else if n mod b =? 0 then b else n mod b.
Proof.
  intros Hbs Hk. pose proof (batches_count _ Hbs) as Hcount.
  rewrite Hcount.
  rewrite batches_unfold in Hbs. injection Hbs as <-.
  rewrite list_lookup_fmap in Hk.
  destruct (range_up (Z.to_nat n) 0 n b !! k) as [v|] eqn:Hv; [|done].
  injection Hk as <-.
  pose proof (lookup_lt_Some _ _ _ Hv) as Hlt.
  apply range_up_lookup in Hv as [-> Hvn].
  rewrite slice_length by (unfold len in *; lia).
  unfold len in Hcount. rewrite length_map in Hcount.
  unfold ceil_div, len in *.
  pose proof (Z.div_mod (Z.of_nat (length xs)) b ltac:(lia)) as Hdm.
  pose proof (Z.mod_pos_bound (Z.of_nat (length xs)) b b_pos) as Hmod.
  destruct (Z.of_nat (length xs) mod b =? 0) eqn:E;
    [apply Z.eqb_eq in E | apply Z.eqb_neq in E];
    destruct (Z.of_nat k + 1 <? _) eqn:E2;
    [apply Z.ltb_lt in E2 | apply Z.ltb_ge in E2
    |apply Z.ltb_lt in E2 | apply Z.ltb_ge in E2]; nia.
Qed.

End BatchFacts.

(** With a positive batch size the walk returns, and loses nothing. *)
Lemma batches_cover {A} (xs : list A) (b : Z) :
  0 < b -> exists bs, batches xs b = Ok bs /\ concat bs = xs.
Proof.
  intros Hb. eexists. split; [apply batches_unfold; exact Hb|].
  apply batches_concat with (b := b); [exact Hb|apply batches_unfold; exact Hb].
Qed.

(** C2.  For a list of [n] records and a positive [batch_size = b], the walk
    shared by the embedding batcher and the bulk loader yields [ceil(n/b)]
    batches whose concatenation is the input; every batch but the last has
    [b] records, and the last has [n mod b] when that is not zero (and [b]
    otherwise). *)
Theorem batches_partition {A} (xs : list A) (b : Z) :
  0 < b ->
  exists bs,
    batches xs b = Ok bs
    /\ len bs = ceil_div (len xs) b
    /\ concat bs = xs
    /\ (forall k batch, bs !! k = Some batch ->
          len batch = if Z.of_nat k + 1 <? len bs then b
                      else if len xs mod b =? 0 then b else len xs mod b).
Proof.
  intros Hb. eexists. split; [apply batches_unfold; exact Hb|].
  split; [apply batches_count; [exact Hb|apply batches_unfold; exact Hb]|].
  split; [apply batches_concat with (b := b); [exact Hb|apply batches_unfold; exact Hb]|].
  intros k batch Hk.
  apply batches_size with (bs := map (fun i => slice xs i (i + b))
                                     (range_up (Z.to_nat (len xs)) 0 (len xs) b));
    [exact Hb|apply batches_unfold; exact Hb|exact Hk].
Qed.

(** C2 on seven records in batches of three. *)
Lemma batches_partition_witness :
  exists bs,
    batches [1; 2; 3; 4; 5; 6; 7] 3 = Ok bs
    /\ len bs = ceil_div (len [1; 2; 3; 4; 5; 6; 7]) 3
    /\ concat bs = [1; 2; 3; 4; 5; 6; 7]
    /\ (forall k batch, bs !! k = Some batch ->
          len batch = if Z.of_nat k + 1 <? len bs then 3
                      else if len [1; 2; 3; 4; 5; 6; 7] mod 3 =? 0 then 3
                           else len [1; 2; 3; 4; 5; 6; 7] mod 3).
Proof. apply (batches_partition [1; 2; 3; 4; 5; 6; 7] 3). lia. Defined.

(** ** The bulk loader *)

Example load_by_turn :
  exists st l,
    bulk_index_loop Fake.bulk 0%nat Fake.papers "arxiv-papers" 2 = (Ok st, l)
    /\ total_indexed st = 5 /\ total_errors st = 7
    /\ map snd (calls st)
       = [Stats 2 0; Stats 1 1; Stats 0 2; Raised BulkIndexError;
          Raised ConnectionError; Stats 2 0]
    /\ l = [Log INFO "Indexing {} papers into '{}'..." [Int 12; Str "arxiv-papers"];
            Log ERROR "Bulk index error: {}" [Exc BulkIndexError];
            Log ERROR "Error indexing batch: {}" [Exc ConnectionError];
            Log INFO "Indexed {} documents, {} errors" [Int 5; Int 7]].
Proof. eexists _, _. repeat split. Qed.

Example load_zero_batch_size :
  bulk_index_loop Fake.bulk 0%nat Fake.papers "arxiv-papers" 0
  = (Raise ValueError,
     [Log INFO "Indexing {} papers into '{}'..." [Int 12; Str "arxiv-papers"]]).
Proof. reflexivity. Qed.

Section LoaderFacts.

Context {Client : Type}.
Variable bulk : Client -> list dict -> Client * bulk_reply.
Variable index_name : string.

Lemma total_app {A} (f : A -> Z) (xs ys : list A) :
  total f (xs ++ ys) = total f xs + total f ys.
Proof. unfold total. induction xs as [|x xs IH]; simpl; lia. Qed.

Lemma generate_actions_len (batch : list dict) :
  len (generate_actions batch index_name) = len batch.
Proof. unfold len, generate_actions. rewrite length_map. reflexivity. Qed.

(** One batch: exactly one request, carrying the actions of the batch; the
    counters grow by what the reply says. *)
Lemma index_batch_step (st : load_state Client) (batch : list dict) :
  let actions := generate_actions batch index_name in
  let reply := snd (bulk (client st) actions) in
  let st' := index_batch bulk index_name st batch in
  calls st' = calls st ++ [(actions, reply)]
  /\ client st' = fst (bulk (client st) actions)
  /\ total_indexed st' = total_indexed st + indexed_by (actions, reply)
  /\ total_errors st' = total_errors st + errors_by (actions, reply).
Proof.
  simpl. unfold index_batch, indexed_by, errors_by. simpl.
  destruct (snd (bulk (client st) (generate_actions batch index_name)))
    as [success failed|e]; simpl.
  - repeat split.
  - rewrite generate_actions_len. destruct e; simpl; repeat split; lia.
Qed.

(** The loop: one request per batch, in order, whatever the replies. *)
Lemma fold_calls (bs : list (list dict)) (st : load_state Client) :
  map fst (calls (fold_left (index_batch bulk index_name) bs st))
  = map fst (calls st) ++ map (fun batch => generate_actions batch index_name) bs.
Proof.
  revert st. induction bs as [|batch bs IH]; intros st; simpl.
  - rewrite app_nil_r. reflexivity.
  - rewrite IH. destruct (index_batch_step st batch) as (-> & _).
    rewrite map_app. simpl. rewrite <- app_assoc. reflexivity.
Qed.

Lemma fold_totals (bs : list (list dict)) (st : load_state Client) :
  total_indexed st = total indexed_by (calls st) ->
  total_errors st = total errors_by (calls st) ->
  let st' := fold_left (index_batch bulk index_name) bs st in
  total_indexed st' = total indexed_by (calls st')
  /\ total_errors st' = total errors_by (calls st').
Proof.
  revert st. induction bs as [|batch bs IH]; intros st Hi He; simpl.
  - split; assumption.
  - destruct (index_batch_step st batch) as (Hc & _ & Hi' & He').
    apply IH; rewrite Hc, total_app; simpl; lia.
Qed.

(** With a positive batch size the loop returns. *)
Lemma bulk_index_loop_unfold (c : Client) (papers : list dict) (b : Z) bs :
  batches papers b = Ok bs ->
  bulk_index_loop bulk c papers index_name b
  = (Ok (fold_left (index_batch bulk index_name) bs (LoadState c 0 0 [] [])),
     Log INFO "Indexing {} papers into '{}'..." [Int (len papers); Str index_name]
     :: errors_logged (fold_left (index_batch bulk index_name) bs (LoadState c 0 0 [] []))
     ++ [Log INFO "Indexed {} documents, {} errors"
             [Int (total_indexed (fold_left (index_batch bulk index_name) bs
                                            (LoadState c 0 0 [] [])));
              Int (total_errors (fold_left (index_batch bulk index_name) bs
                                           (LoadState c 0 0 [] [])))]]).
Proof.
  intros Hbs. unfold bulk_index_loop, and_then, emit, lift. rewrite Hbs.
  reflexivity.
Qed.

(** When the helper accounts for every action, so do the counters. *)
Lemma total_accounted (cs : list (list dict * bulk_reply)) :
  Forall (fun call => forall success failed,
            snd call = Stats success failed ->
            success + failed = len (fst call)) cs ->
  total indexed_by cs + total errors_by cs = total (fun call => len (fst call)) cs.
Proof.
  induction 1 as [|call cs Hcall _ IH]; simpl; [reflexivity|].
  unfold indexed_by at 1, errors_by at 1.
  destruct (snd call) as [success failed|e] eqn:E.
  - specialize (Hcall _ _ eq_refl). lia.
  - lia.
Qed.

Lemma fold_replies (bs : list (list dict)) (st : load_state Client) :
  accounts_for_every_action bulk ->
  Forall (fun call => forall success failed,
            snd call = Stats success failed ->
            success + failed = len (fst call)) (calls st) ->
  Forall (fun call => forall success failed,
            snd call = Stats success failed ->
            success + failed = len (fst call))
         (calls (fold_left (index_batch bulk index_name) bs st)).
Proof.
  intros Hbulk. revert st. induction bs as [|batch bs IH]; intros st H; simpl.
  - exact H.
  - apply IH. destruct (index_batch_step st batch) as (-> & _).
    apply Forall_app. split; [exact H|].
    constructor; [|constructor]. simpl. intros success failed Hr.
    exact (Hbulk _ _ _ _ Hr).
Qed.

Lemma total_len_concat {A} (bs : list (list A)) :
  total len bs = len (concat bs).
Proof.
  unfold total, len. induction bs as [|x bs IH]; simpl; [reflexivity|].
  rewrite length_app. lia.
Qed.

Lemma total_map {A B} (f : B -> Z) (g : A -> B) (xs : list A) :
  total f (map g xs) = total (fun x => f (g x)) xs.
Proof. unfold total. induction xs as [|x xs IH]; simpl; congruence. Qed.

Lemma total_ext {A} (f g : A -> Z) (xs : list A) :
  (forall x, f x = g x) -> total f xs = total g xs.
Proof. intros H. unfold total. induction xs as [|x xs IH]; simpl; rewrite ?H; congruence. Qed.

(** Every batch has its request, at its own position. *)
Lemma batch_requested (bs : list (list dict)) (st : load_state Client) j batch :
  map fst (calls st) = map (fun batch => generate_actions batch index_name) bs ->
  bs !! j = Some batch ->
  exists reply, calls st !! j = Some (generate_actions batch index_name, reply).
Proof.
  intros Hcalls Hj.
  assert (map fst (calls st) !! j = Some (generate_actions batch index_name)) as H.
  { rewrite Hcalls, list_lookup_fmap, Hj. reflexivity. }
  rewrite list_lookup_fmap in H.
  destruct (calls st !! j) as [[actions reply]|]; [|done].
  simpl in H. injection H as ->. eauto.
Qed.

(** A request that raised anything but the bulk-index error left its
    record in the log. *)
Lemma fold_errors_logged (bs : list (list dict)) (st : load_state Client) actions e :
  e <> BulkIndexError ->
  (In (actions, Raised e) (calls st) ->
   In (Log ERROR "Error indexing batch: {}" [Exc e]) (errors_logged st)) ->
  In (actions, Raised e) (calls (fold_left (index_batch bulk index_name) bs st)) ->
  In (Log ERROR "Error indexing batch: {}" [Exc e])
     (errors_logged (fold_left (index_batch bulk index_name) bs st)).
Proof.
  intros He. revert st. induction bs as [|batch bs IH]; intros st H; simpl.
  - exact H.
  - apply IH. unfold index_batch.
    destruct (snd (bulk (client st) (generate_actions batch index_name)))
      as [success failed|e'] eqn:E; simpl.
    + rewrite in_app_iff. simpl. intros [Hin|[[=]|[]]]. auto.
    + assert (forall rec,
                In (actions, Raised e)
                   (calls st ++ [(generate_actions batch index_name, Raised e')]) ->
                (e' = e -> rec = Log ERROR "Error indexing batch: {}" [Exc e]) ->
                In (Log ERROR "Error indexing batch: {}" [Exc e])
                   (errors_logged st ++ [rec])) as Hstep.
      { intros rec Hin Hrec. rewrite in_app_iff in *. simpl in *.
        destruct Hin as [Hin|[[= _ ->]|[]]]; [left; auto|].
        right. left. apply Hrec. reflexivity. }
      destruct e'; simpl; intros Hin; apply Hstep; try exact Hin;
        intros <-; congruence.
Qed.

(** The record of the loop is the helper at work: the cluster after the
    loop and the replies recorded are those the helper gives when the
    batches are sent to it one after the other. *)
Lemma fold_served (bs : list (list dict)) (st : load_state Client) :
  let requests := map (fun batch => generate_actions batch index_name) bs in
  let st' := fold_left (index_batch bulk index_name) bs st in
  client st' = fst (served bulk (client st) requests)
  /\ calls st' = calls st ++ zip requests (snd (served bulk (client st) requests)).
Proof.
  cbv zeta. revert st. induction bs as [|batch bs IH]; intros st.
  - simpl. rewrite app_nil_r. split; reflexivity.
  - cbn [fold_left map served fst snd].
    destruct (IH (index_batch bulk index_name st batch)) as [Hc Hcalls].
    destruct (index_batch_step st batch) as (Hcalls1 & Hc1 & _).
    cbv zeta in Hcalls1, Hc1. rewrite Hc1 in Hc, Hcalls. rewrite Hcalls1 in Hcalls.
    split; [exact Hc|]. rewrite Hcalls, <- app_assoc. reflexivity.
Qed.

Lemma served_length (c : Client) (requests : list (list dict)) :
  length (snd (served bulk c requests)) = length requests.
Proof.
  revert c. induction requests as [|actions rest IH]; intros c; simpl;
    [reflexivity|]. rewrite IH. reflexivity.
Qed.

(** The reply to a request is what the helper gives on the cluster as the
    requests before it left it. *)
Lemma served_lookup (requests : list (list dict)) :
  forall c j actions,
    requests !! j = Some actions ->
    snd (served bulk c requests) !! j
    = Some (snd (bulk (fst (served bulk c (take j requests))) actions)).
Proof.
  induction requests as [|first rest IH]; intros c j actions Hj; [done|].
  destruct j as [|j].
  - injection Hj as ->. reflexivity.
  - cbn [served snd take fst]. apply (IH _ j actions Hj).
Qed.

Lemma zip_lookup_served (c : Client) (requests : list (list dict)) j actions reply :
  requests !! j = Some actions ->
  snd (served bulk c requests) !! j = Some reply ->
  zip requests (snd (served bulk c requests)) !! j = Some (actions, reply).
Proof.
  intros Hr Hs. rewrite lookup_zip_with, Hr. simpl. rewrite Hs. reflexivity.
Qed.

End LoaderFacts.

Lemma fake_bulk_accounts : accounts_for_every_action Fake.bulk.
Proof.
  intros c actions success failed. unfold Fake.bulk. simpl.
  destruct c as [|[|[|[|[|c]]]]]; intros [= <- <-]; lia.
Qed.

(** C1.  Whatever the batches reply (documents indexed, documents failing,
    a bulk-index error or any other exception, which counts the whole
    batch as errors), the two counters of the loader add up to the number
    of papers it was given, provided the batch size is positive and the
    bulk helper reports one outcome per action. *)
Theorem load_accounting {Client} (bulk : Client -> list dict -> Client * bulk_reply)
  (c : Client) (papers : list dict) (index_name : string) (batch_size : Z) :
  0 < batch_size ->
  accounts_for_every_action bulk ->
  exists st l,
    bulk_index_loop bulk c papers index_name batch_size = (Ok st, l)
    /\ total_indexed st + total_errors st = len papers
    /\ total_indexed st = total indexed_by (calls st)
    /\ total_errors st = total errors_by (calls st)
    /\ last l = Some (Log INFO "Indexed {} documents, {} errors"
                          [Int (total_indexed st); Int (total_errors st)]).
Proof.
  intros Hb Hbulk.
  destruct (batches_cover papers batch_size Hb) as (bs & Hbs & Hcat).
  eexists _, _. split; [apply bulk_index_loop_unfold; exact Hbs|].
  set (st := fold_left _ _ _).
  destruct (fold_totals bulk index_name bs (LoadState c 0 0 [] []) eq_refl eq_refl)
    as [Hi He]. fold st in Hi, He.
  split; [|split; [exact Hi|split; [exact He|]]].
  - rewrite Hi, He, total_accounted.
    + pose proof (fold_calls bulk index_name bs (LoadState c 0 0 [] [])) as Hcalls.
      fold st in Hcalls. simpl in Hcalls.
      rewrite <- (total_map len fst), Hcalls, total_map.
      rewrite (total_ext _ len) by (intros x; apply generate_actions_len).
      rewrite total_len_concat, Hcat. reflexivity.
    + apply fold_replies; [exact Hbulk|constructor].
  - rewrite app_comm_cons, last_snoc. reflexivity.
Qed.

(** C1 on twelve papers in batches of two, against the cluster that
    answers by turn. *)
Lemma load_accounting_witness :
  (0 < 2) /\ accounts_for_every_action Fake.bulk /\
  exists st l,
    bulk_index_loop Fake.bulk 0%nat Fake.papers "arxiv-papers" 2 = (Ok st, l)
    /\ total_indexed st + total_errors st = len Fake.papers
    /\ total_indexed st = total indexed_by (calls st)
    /\ total_errors st = total errors_by (calls st)
    /\ last l = Some (Log INFO "Indexed {} documents, {} errors"
                          [Int (total_indexed st); Int (total_errors st)]).
Proof.
  split; [lia|]. split; [exact fake_bulk_accounts|].
  apply (load_accounting Fake.bulk 0%nat Fake.papers "arxiv-papers" 2);
    [lia|exact fake_bulk_accounts].
Defined.

(** C7.  A batch whose reply tells of failed documents (a positive failure
    count, or a bulk-index error) does not end the run: the loop returns
    having sent every batch to the helper, in order, each on the cluster
    as the batch before left it, so every batch after the failed one is
    submitted; and the two counters are the sums, over the replies the
    helper gave, of the counts reported, the whole batch counting as
    errors when the call raised. *)
Theorem failed_batch_does_not_abort {Client}
  (bulk : Client -> list dict -> Client * bulk_reply)
  (c : Client) (papers : list dict) (index_name : string) (batch_size : Z) :
  0 < batch_size ->
  exists bs st l,
    batches papers batch_size = Ok bs
    /\ bulk_index_loop bulk c papers index_name batch_size = (Ok st, l)
    /\ let requests := map (fun batch => generate_actions batch index_name) bs in
       let replies := snd (served bulk c requests) in
       client st = fst (served bulk c requests)
       /\ calls st = zip requests replies
       /\ length replies = length bs
       /\ (forall k reply,
             replies !! k = Some reply ->
             reports_failures reply ->
             forall j batch, (k < j)%nat -> bs !! j = Some batch ->
               replies !! j
               = Some (snd (bulk (fst (served bulk c (take j requests)))
                                 (generate_actions batch index_name))))
       /\ total_indexed st = total indexed_by (zip requests replies)
       /\ total_errors st = total errors_by (zip requests replies).
Proof.
  intros Hb.
  destruct (batches_cover papers batch_size Hb) as (bs & Hbs & _).
  exists bs. eexists _, _. split; [exact Hbs|].
  split; [apply bulk_index_loop_unfold; exact Hbs|].
  cbv zeta. set (st := fold_left _ _ _).
  destruct (fold_served bulk index_name bs (LoadState c 0 0 [] [])) as [Hclient Hcalls].
  fold st in Hclient, Hcalls. cbn [client calls app] in Hclient, Hcalls.
  destruct (fold_totals bulk index_name bs (LoadState c 0 0 [] []) eq_refl eq_refl)
    as [Hi He]. fold st in Hi, He.
  split; [exact Hclient|]. split; [exact Hcalls|].
  split; [rewrite served_length, length_map; reflexivity|].
  split; [|rewrite <- Hcalls; split; assumption].
  intros k reply _ _ j batch _ Hj.
  apply served_lookup. rewrite list_lookup_fmap, Hj. reflexivity.
Qed.

(** C7 on twelve papers in batches of two, against the cluster that
    answers by turn and counts the requests it receives. *)
Lemma failed_batch_does_not_abort_witness :
  (0 < 2) /\
  exists bs st l,
    batches Fake.papers 2 = Ok bs
    /\ bulk_index_loop Fake.bulk 0%nat Fake.papers "arxiv-papers" 2 = (Ok st, l)
    /\ let requests := map (fun batch => generate_actions batch "arxiv-papers") bs in
       let replies := snd (served Fake.bulk 0%nat requests) in
       client st = fst (served Fake.bulk 0%nat requests)
       /\ calls st = zip requests replies
       /\ length replies = length bs
       /\ (forall k reply,
             replies !! k = Some reply ->
             reports_failures reply ->
             forall j batch, (k < j)%nat -> bs !! j = Some batch ->
               replies !! j
               = Some (snd (Fake.bulk (fst (served Fake.bulk 0%nat (take j requests)))
                                      (generate_actions batch "arxiv-papers"))))
       /\ total_indexed st = total indexed_by (zip requests replies)
       /\ total_errors st = total errors_by (zip requests replies).
Proof.
  split; [lia|].
  apply (failed_batch_does_not_abort Fake.bulk 0%nat Fake.papers "arxiv-papers" 2).
  lia.
Defined.

(** The same run, computed: the cluster has received six requests, the
    third, fourth and fifth of which failed, and the counters are those of
    the six replies. *)
Example load_by_turn_served :
  exists st l,
    bulk_index_loop Fake.bulk 0%nat Fake.papers "arxiv-papers" 2 = (Ok st, l)
    /\ client st = 6%nat
    /\ map snd (calls st)
       = [Stats 2 0; Stats 1 1; Stats 0 2; Raised BulkIndexError;
          Raised ConnectionError; Stats 2 0]
    /\ total_indexed st = 5 /\ total_errors st = 7.
Proof. eexists _, _. repeat split. Qed.

(** C6, as the code has it.  A bulk call that raises a connection error is
    handled like any other exception: the loop returns having sent every
    batch to the helper, in order; the error is logged, the size of the
    batch goes to the error counter, and every batch after it is
    submitted, on the cluster as the batch before left it. *)
Theorem connection_loss_does_not_abort {Client}
  (bulk : Client -> list dict -> Client * bulk_reply)
  (c : Client) (papers : list dict) (index_name : string) (batch_size : Z) :
  0 < batch_size ->
  exists bs st l,
    batches papers batch_size = Ok bs
    /\ bulk_index_loop bulk c papers index_name batch_size = (Ok st, l)
    /\ let requests := map (fun batch => generate_actions batch index_name) bs in
       let replies := snd (served bulk c requests) in
       client st = fst (served bulk c requests)
       /\ calls st = zip requests replies
       /\ total_errors st = total errors_by (zip requests replies)
       /\ (forall k batch,
             bs !! k = Some batch ->
             replies !! k = Some (Raised ConnectionError) ->
             errors_by (generate_actions batch index_name, Raised ConnectionError)
             = len batch
             /\ In (Log ERROR "Error indexing batch: {}" [Exc ConnectionError]) l
             /\ forall j later, (k < j)%nat -> bs !! j = Some later ->
                  replies !! j
                  = Some (snd (bulk (fst (served bulk c (take j requests)))
                                    (generate_actions later index_name)))).
Proof.
  intros Hb.
  destruct (batches_cover papers batch_size Hb) as (bs & Hbs & _).
  exists bs. eexists _, _. split; [exact Hbs|].
  split; [apply bulk_index_loop_unfold; exact Hbs|].
  cbv zeta. set (st := fold_left _ _ _).
  destruct (fold_served bulk index_name bs (LoadState c 0 0 [] [])) as [Hclient Hcalls].
  fold st in Hclient, Hcalls. cbn [client calls app] in Hclient, Hcalls.
  destruct (fold_totals bulk index_name bs (LoadState c 0 0 [] []) eq_refl eq_refl)
    as [_ He]. fold st in He.
  split; [exact Hclient|]. split; [exact Hcalls|].
  split; [rewrite <- Hcalls; exact He|].
  intros k batch Hk Hreply. split; [|split].
  - unfold errors_by. simpl. apply generate_actions_len.
  - right. apply in_or_app. left.
    apply (fold_errors_logged bulk index_name bs (LoadState c 0 0 [] [])
             (generate_actions batch index_name));
      [discriminate|intros []|].
    fold st. rewrite Hcalls. apply list_elem_of_In, list_elem_of_lookup.
    exists k. apply zip_lookup_served; [|exact Hreply].
    rewrite list_lookup_fmap, Hk. reflexivity.
  - intros j later _ Hj.
    apply served_lookup. rewrite list_lookup_fmap, Hj. reflexivity.
Qed.

(** C6 as the code has it, on twelve papers in batches of two against the
    cluster that answers by turn: its fifth reply is a lost connection,
    and the sixth batch is sent all the same. *)
Lemma connection_loss_does_not_abort_witness :
  (0 < 2) /\
  exists bs st l,
    batches Fake.papers 2 = Ok bs
    /\ bulk_index_loop Fake.bulk 0%nat Fake.papers "arxiv-papers" 2 = (Ok st, l)
    /\ let requests := map (fun batch => generate_actions batch "arxiv-papers") bs in
       let replies := snd (served Fake.bulk 0%nat requests) in
       client st = fst (served Fake.bulk 0%nat requests)
       /\ calls st = zip requests replies
       /\ total_errors st = total errors_by (zip requests replies)
       /\ (forall k batch,
             bs !! k = Some batch ->
             replies !! k = Some (Raised ConnectionError) ->
             errors_by (generate_actions batch "arxiv-papers", Raised ConnectionError)
             = len batch
             /\ In (Log ERROR "Error indexing batch: {}" [Exc ConnectionError]) l
             /\ forall j later, (k < j)%nat -> bs !! j = Some later ->
                  replies !! j
                  = Some (snd (Fake.bulk
                                 (fst (served Fake.bulk 0%nat (take j requests)))
                                 (generate_actions later "arxiv-papers")))).
Proof.
  split; [lia|].
  apply (connection_loss_does_not_abort Fake.bulk 0%nat Fake.papers "arxiv-papers" 2).
  lia.
Defined.

(** C6, as the specification states it, fails: with a cluster that cannot
    be reached, the first request raises a connection error and the two
    remaining batches are requested all the same. *)
Lemma connection_loss_still_submits :
  exists st l,
    bulk_index_loop Fake.unreachable tt Fake.papers "arxiv-papers" 4 = (Ok st, l)
    /\ map snd (calls st)
       = [Raised ConnectionError; Raised ConnectionError; Raised ConnectionError]
    /\ map fst (calls st)
       = [generate_actions (take 4 Fake.papers) "arxiv-papers";
          generate_actions (take 4 (drop 4 Fake.papers)) "arxiv-papers";
          generate_actions (drop 8 Fake.papers) "arxiv-papers"]
    /\ total_indexed st = 0 /\ total_errors st = 12.
Proof. eexists _, _. repeat split. Qed.

(** ** The corpus filter *)

Section FilterFacts.

(** Two states of the filter with the same papers; the counters are left
    to arithmetic. *)
Ltac same_state :=
  do 3 f_equal; unfold len; cbn [length]; try reflexivity; try lia.

Lemma and_then_lift_ok {A B} (a : A) (k : A -> logged B) :
  and_then (lift (Ok a)) k = k a.
Proof. unfold and_then, lift. simpl. destruct (k a); reflexivity. Qed.

Lemma fst_and_then {A B} (m : logged A) (k : A -> logged B) :
  fst (and_then m k) = bind (fst m) (fun a => fst (k a)).
Proof. destruct m as [[a|e] l]; reflexivity. Qed.

Lemma strings_of_strs (items : list json) :
  forallb is_str items = true -> items = map JStr (strings_of items).
Proof.
  induction items as [|v items IH]; simpl; [reflexivity|].
  destruct v; simpl; try discriminate.
  intros H. f_equal. exact (IH H).
Qed.

Lemma any_cs_strs (ts : list string) :
  any_cs (map JStr ts) = Ok (existsb cs_tag ts).
Proof.
  induction ts as [|t ts IH]; simpl; [reflexivity|].
  fold (cs_tag t). destruct (cs_tag t); simpl; [reflexivity|exact IH].
Qed.

Lemma cs_only_strs (ts : list string) :
  cs_only (map JStr ts) = Ok (map JStr (List.filter cs_tag ts)).
Proof.
  induction ts as [|t ts IH]; simpl; [reflexivity|].
  rewrite IH. simpl. fold (cs_tag t). destruct (cs_tag t); reflexivity.
Qed.

Lemma categories_of_wf (paper : json) :
  wf_paper paper = true -> categories_of paper = Ok (map JStr (tags paper)).
Proof.
  destruct paper as [| | | | |items|d]; simpl; try discriminate.
  unfold categories_of. simpl. unfold dict_get.
  destruct (d !! "categories") as [[| | | |s|items|d']|]; simpl;
    intros H; try discriminate H; try reflexivity.
  apply andb_true_iff in H as [H _]. apply andb_true_iff in H as [H _].
  f_equal. apply strings_of_strs. exact H.
Qed.

Lemma clean_text_ok (d : dict) (key : string) :
  is_text (d !! key) = true ->
  clean (dict_get d key (JStr "")) = Ok (clean_text (dict_get d key (JStr ""))).
Proof.
  unfold dict_get. destruct (d !! key) as [[]|]; simpl; try discriminate; reflexivity.
Qed.

Lemma cs_paper_of_wf (paper : json) :
  wf_paper paper = true ->
  cs_paper_of paper (map JStr (tags paper)) = Ok (extract paper).
Proof.
  destruct paper as [| | | | |items|d]; simpl; try discriminate.
  intros H. apply andb_true_iff in H as [H Habs].
  apply andb_true_iff in H as [_ Htitle].
  unfold cs_paper_of. simpl.
  rewrite (clean_text_ok _ _ Htitle), (clean_text_ok _ _ Habs). simpl.
  rewrite cs_only_strs. reflexivity.
Qed.

(** One turn of the loop on a paper of the expected shape. *)
Lemma visit_wf (max_papers : option Z) (st : filter_state) (paper : json) :
  wf_paper paper = true ->
  visit max_papers st (Parsed paper)
  = if matches paper then
      if reached max_papers (cs_papers st ++ [extract paper])
      then (Ok (Break, FilterState (cs_papers st ++ [extract paper])
                                   (total_processed st + 1)),
            [Log INFO "Reached maximum of {} papers" [Int (default 0 max_papers)]])
      else (Ok (Next, FilterState (cs_papers st ++ [extract paper])
                                  (total_processed st + 1)), [])
    else (Ok (Next, FilterState (cs_papers st) (total_processed st + 1)), []).
Proof.
  intros Hwf. unfold visit.
  rewrite (categories_of_wf _ Hwf), and_then_lift_ok.
  rewrite any_cs_strs, and_then_lift_ok. fold (matches paper).
  destruct (matches paper); [|reflexivity].
  rewrite (cs_paper_of_wf _ Hwf), and_then_lift_ok.
  destruct (reached max_papers _); reflexivity.
Qed.

(** A line that does not parse: a warning, and the loop goes on from the
    same state. *)
Lemma loop_malformed (max_papers : option Z) (st : filter_state) (rest : list raw_line) :
  loop max_papers st (Malformed :: rest)
  = (fst (loop max_papers st rest),
     Log WARNING "Error parsing line: {}" [Exc JSONDecodeError]
     :: snd (loop max_papers st rest)).
Proof. reflexivity. Qed.

(** A line that cannot be had: the exception leaves the loop, unless it
    is the one the handler is for. *)
Lemma loop_fails (max_papers : option Z) (st : filter_state) (e : exn)
  (rest : list raw_line) :
  e <> JSONDecodeError ->
  loop max_papers st (Fails e :: rest) = (Raise e, []).
Proof. intros He. destruct e; try contradiction; reflexivity. Qed.

Lemma loop_fails_decode (max_papers : option Z) (st : filter_state)
  (rest : list raw_line) :
  loop max_papers st (Fails JSONDecodeError :: rest)
  = (fst (loop max_papers st rest),
     Log WARNING "Error parsing line: {}" [Exc JSONDecodeError]
     :: snd (loop max_papers st rest)).
Proof. reflexivity. Qed.

Lemma exn_decode_dec (e : exn) : {e = JSONDecodeError} + {e <> JSONDecodeError}.
Proof. destruct e; (left; reflexivity) || (right; discriminate). Qed.

(** The cap depends on the number of papers kept only. *)
Lemma reached_len (max_papers : option Z) (papers : list dict) :
  reached max_papers papers
  = truthy_int max_papers && (default 0 max_papers <=? len papers).
Proof. reflexivity. Qed.

Lemma matching_app (f g : list raw_line) : matching (f ++ g) = matching f ++ matching g.
Proof.
  unfold matching, parsed. rewrite flat_map_app, List.filter_app. reflexivity.
Qed.

Lemma parsed_app (f g : list raw_line) : parsed (f ++ g) = parsed f ++ parsed g.
Proof. unfold parsed. apply flat_map_app. Qed.

Lemma len_app {A} (xs ys : list A) : len (xs ++ ys) = len xs + len ys.
Proof. unfold len. rewrite length_app. lia. Qed.

Lemma len_nonneg {A} (xs : list A) : 0 <= len xs.
Proof. unfold len. lia. Qed.

(** While the cap is not reached, the loop reads every line and keeps
    every paper the predicate selects. *)
Lemma loop_no_break (max_papers : option Z) (f : list raw_line) :
  Forall (fun line => wf_line line = true) f ->
  forall acc t,
    (truthy_int max_papers = false
     \/ len acc + matching_count f < default 0 max_papers) ->
    fst (loop max_papers (FilterState acc t) f)
    = Ok (FilterState (acc ++ map extract (matching f)) (t + len (parsed f)), []).
Proof.
  induction 1 as [|line f Hline _ IH]; intros acc t Hcap.
  - simpl. rewrite app_nil_r, Z.add_0_r. reflexivity.
  - destruct line as [|paper|e]; [| |discriminate Hline].
    + rewrite loop_malformed. simpl. apply IH. exact Hcap.
    + simpl in Hline. cbn [loop]. rewrite fst_and_then, (visit_wf _ _ _ Hline).
      cbn [cs_papers total_processed].
      unfold matching_count, matching in *. cbn [parsed flat_map app] in *.
      change (flat_map _ f) with (parsed f) in *.
      cbn [List.filter] in *.
      destruct (matches paper) eqn:Hm.
      * assert (reached max_papers (acc ++ [extract paper]) = false) as ->.
        { rewrite reached_len, len_app. destruct Hcap as [->|Hlt]; [reflexivity|].
          apply andb_false_iff. right. apply Z.leb_gt.
          pose proof (len_nonneg (List.filter matches (parsed f))).
          unfold len in *. simpl in *. lia. }
        cbn [fst snd bind]. rewrite IH.
        -- rewrite <- app_assoc. cbn [map app]. same_state.
        -- destruct Hcap as [Hcap|Hcap]; [left; exact Hcap|right].
           rewrite ?len_app in *. unfold len in *. simpl in *. lia.
      * cbn [fst snd bind]. rewrite IH by exact Hcap. same_state.
Qed.

(** When the cap is reached at a line, the loop stops there: what follows
    the line is left unread, whatever it holds. *)
Lemma loop_break_at (k : Z) (pre : list raw_line) (paper : json) :
  Forall (fun line => wf_line line = true) pre ->
  wf_paper paper = true -> matches paper = true ->
  forall acc t rest,
    len acc + matching_count pre + 1 = k -> 1 <= k ->
    fst (loop (Some k) (FilterState acc t) (pre ++ Parsed paper :: rest))
    = Ok (FilterState (acc ++ map extract (matching (pre ++ [Parsed paper])))
                      (t + len (parsed (pre ++ [Parsed paper]))), rest).
Proof.
  intros Hpre Hwf Hm. induction Hpre as [|line pre Hline _ IH]; intros acc t rest Hk Hk1.
  - cbn [app loop]. rewrite fst_and_then, (visit_wf _ _ _ Hwf), Hm.
    cbn [cs_papers total_processed].
    assert (reached (Some k) (acc ++ [extract paper]) = true) as ->.
    { rewrite reached_len, len_app. simpl.
      unfold matching_count, matching, len in *. simpl in *.
      apply andb_true_iff. split; [apply negb_true_iff, Z.eqb_neq; lia|].
      apply Z.leb_le. lia. }
    cbn [fst snd bind]. unfold matching. simpl. rewrite Hm. simpl. reflexivity.
  - destruct line as [|q|e]; [| |discriminate Hline].
    + cbn [app]. rewrite loop_malformed. cbn [fst]. apply IH; assumption.
    + simpl in Hline. cbn [app loop].
      rewrite fst_and_then, (visit_wf _ _ _ Hline).
      cbn [cs_papers total_processed].
      unfold matching_count, matching in Hk. cbn [parsed flat_map app] in Hk.
      change (flat_map _ pre) with (parsed pre) in Hk. cbn [List.filter] in Hk.
      unfold matching. cbn [parsed flat_map app].
      change (flat_map _ (pre ++ [Parsed paper])) with (parsed (pre ++ [Parsed paper])).
      cbn [List.filter].
      destruct (matches q) eqn:Hq.
      * assert (reached (Some k) (acc ++ [extract q]) = false) as ->.
        { rewrite reached_len, len_app. simpl.
          apply andb_false_iff. right. apply Z.leb_gt.
          pose proof (len_nonneg (List.filter matches (parsed pre))).
          unfold len in *. simpl in *. lia. }
        cbn [fst snd bind]. rewrite IH.
        -- rewrite <- app_assoc. cbn [map app]. same_state.
        -- unfold matching_count, matching. rewrite ?len_app in *.
           unfold len in *. simpl in *. lia.
        -- exact Hk1.
      * cbn [fst snd bind]. rewrite IH.
        -- same_state.
        -- exact Hk.
        -- exact Hk1.
Qed.

(** The line at which the [m]-th selected paper stands. *)
Lemma split_at_match (f : list raw_line) (m : Z) :
  1 <= m -> m <= matching_count f ->
  exists pre paper rest,
    f = pre ++ Parsed paper :: rest
    /\ matches paper = true
    /\ matching_count pre + 1 = m.
Proof.
  revert m. induction f as [|line f IH]; intros m Hm1 Hm.
  - unfold matching_count, len in Hm. simpl in Hm. lia.
  - destruct line as [|q|e];
      [destruct (IH m Hm1 Hm) as (pre & paper & rest & -> & Hp & Hc);
       exists (Malformed :: pre), paper, rest; repeat split; assumption
      | |destruct (IH m Hm1 Hm) as (pre & paper & rest & -> & Hp & Hc);
         exists (Fails e :: pre), paper, rest; repeat split; assumption].
    + unfold matching_count, matching in Hm. simpl in Hm.
      change (flat_map _ f) with (parsed f) in Hm.
      destruct (matches q) eqn:Hq.
      * destruct (Z.eq_dec m 1) as [->|Hne].
        -- exists [], q, f. repeat split. exact Hq.
        -- destruct (IH (m - 1)) as (pre & paper & rest & -> & Hp & Hc).
           { lia. }
           { unfold matching_count, matching, len in *. simpl in Hm. lia. }
           exists (Parsed q :: pre), paper, rest. repeat split; [exact Hp|].
           unfold matching_count, matching in *. simpl.
           change (flat_map _ pre) with (parsed pre).
           rewrite Hq. unfold len in *. simpl. lia.
      * destruct (IH m Hm1) as (pre & paper & rest & -> & Hp & Hc).
        { exact Hm. }
        exists (Parsed q :: pre), paper, rest. repeat split; [exact Hp|].
        unfold matching_count, matching in *. simpl.
        change (flat_map _ pre) with (parsed pre). rewrite Hq. exact Hc.
Qed.

End FilterFacts.

Example filter_corpus :
  exists r,
    fst (filter_cs_papers Fake.corpus "in.json" "out.json" None) = Ok r
    /\ map (fun p => p !! "id") (saved r)
       = [Some (JStr "a"); Some (JStr "c"); Some (JStr "d"); Some (JStr "f")]
    /\ map (fun p => p !! "categories") (saved r)
       = [Some (JArr [JStr "cs.AI"]); Some (JArr [JStr "cs.LG"]);
          Some (JArr [JStr "cs.DB"]); Some (JArr [JStr "cs.CL"])]
    /\ returned r = 4 /\ processed r = 6 /\ unread r = [].
Proof. eexists. split; [vm_compute; reflexivity|]. vm_compute. repeat split. Qed.

Example filter_corpus_capped :
  exists r,
    fst (filter_cs_papers Fake.corpus "in.json" "out.json" (Some 2)) = Ok r
    /\ map (fun p => p !! "id") (saved r) = [Some (JStr "a"); Some (JStr "c")]
    /\ returned r = 2 /\ processed r = 3
    /\ unread r = drop 4 Fake.corpus.
Proof. eexists. split; [vm_compute; reflexivity|]. vm_compute. repeat split. Qed.

Example filter_ill_typed :
  fst (filter_cs_papers [Parsed (JArr [])] "in.json" "out.json" None)
  = Raise AttributeError.
Proof. reflexivity. Qed.

Section FilterClaims.

Variables input_file output_file : string.

Lemma filter_unfold (f : list raw_line) (max_papers : option Z) :
  fst (filter_cs_papers f input_file output_file max_papers)
  = bind (fst (loop max_papers (FilterState [] 0) f))
         (fun r => Ok (Run (cs_papers (fst r)) (len (cs_papers (fst r)))
                           (total_processed (fst r)) (snd r))).
Proof.
  unfold filter_cs_papers. rewrite fst_and_then. simpl.
  rewrite fst_and_then. destruct (fst (loop _ _ _)); reflexivity.
Qed.

Lemma in_parsed (f : list raw_line) (paper : json) :
  In paper (parsed f) <-> In (Parsed paper) f.
Proof.
  unfold parsed. rewrite in_flat_map. split.
  - intros ([|q|e] & Hin & Hq); simpl in Hq; [contradiction| |contradiction].
    destruct Hq as [->|[]]. exact Hin.
  - intros Hin. exists (Parsed paper). split; [exact Hin|left; reflexivity].
Qed.

Lemma extract_categories (paper : json) :
  wf_paper paper = true ->
  extract paper !! "categories"
  = Some (JArr (map JStr (List.filter cs_tag (tags paper)))).
Proof.
  destruct paper; simpl; try discriminate. intros _.
  rewrite !(lookup_insert_ne _ _ "categories") by done.
  apply lookup_insert_eq.
Qed.

Lemma matches_tag (paper : json) :
  matches paper = true <-> exists tag, In tag (tags paper) /\ cs_tag tag = true.
Proof. unfold matches. apply existsb_exists. Qed.

Lemma matches_kept (paper : json) :
  matches paper = true <-> List.filter cs_tag (tags paper) <> [].
Proof.
  rewrite matches_tag. split.
  - intros (tag & Hin & Hcs) Hnil.
    assert (In tag (List.filter cs_tag (tags paper))) as H
      by (apply filter_In; split; assumption).
    rewrite Hnil in H. exact H.
  - destruct (List.filter cs_tag (tags paper)) as [|tag l] eqn:E; [congruence|].
    intros _. exists tag. apply filter_In. rewrite E. left. reflexivity.
Qed.

Lemma len_zero_nil {A} (xs : list A) : len xs = 0 -> xs = [].
Proof. destruct xs; [reflexivity|unfold len; simpl; lia]. Qed.

(** What the loop keeps when the cap does not cut: every selected paper. *)
Lemma filter_all (f : list raw_line) (max_papers : option Z) :
  Forall (fun line => wf_line line = true) f ->
  truthy_int max_papers = false \/ matching_count f <= default 0 max_papers ->
  exists unread,
    fst (loop max_papers (FilterState [] 0) f)
    = Ok (FilterState (map extract (matching f)) (len (parsed f) - len (parsed unread)),
          unread)
    /\ matching unread = [].
Proof.
  intros Hwf Hcap.
  assert (truthy_int max_papers = false
          \/ len (@nil dict) + matching_count f < default 0 max_papers
          \/ (1 <= default 0 max_papers /\ matching_count f = default 0 max_papers
              /\ max_papers = Some (default 0 max_papers))) as Hcases.
  { destruct Hcap as [Hcap|Hcap]; [left; exact Hcap|].
    destruct max_papers as [k|]; [|left; reflexivity]. simpl in *.
    pose proof (len_nonneg (matching f)). unfold matching_count in *.
    destruct (Z.eq_dec k 0) as [->|Hk0]; [left; reflexivity|].
    right. change (len (@nil dict)) with 0.
    destruct (Z.eq_dec (len (matching f)) k) as [Heq|Hne]; [right|left; lia].
    repeat split; [lia|exact Heq]. }
  destruct Hcases as [Hno|[Hno|(Hk1 & Hk & Hmp)]].
  - exists []. rewrite (loop_no_break _ _ Hwf) by (left; exact Hno).
    simpl. split; [|reflexivity]. do 3 f_equal. change (len []) with 0. lia.
  - exists []. rewrite (loop_no_break _ _ Hwf) by (right; exact Hno).
    simpl. split; [|reflexivity]. do 3 f_equal. change (len []) with 0. lia.
  - destruct (split_at_match f (default 0 max_papers) Hk1 ltac:(lia))
      as (pre & paper & rest & -> & Hm & Hc).
    apply Forall_app in Hwf as [Hpre Hrest].
    apply Forall_cons in Hrest as [Hpaper Hrest]. simpl in Hpaper.
    exists rest. rewrite Hmp.
    rewrite (loop_break_at _ _ _ Hpre Hpaper Hm)
      by (change (len []) with 0; lia).
    assert (matching rest = []) as Hnone.
    { apply len_zero_nil.
      unfold matching_count in *.
      change (pre ++ Parsed paper :: rest) with (pre ++ [Parsed paper] ++ rest) in Hk.
      rewrite !matching_app, !len_app in Hk.
      unfold matching at 2 in Hk. simpl in Hk. rewrite Hm in Hk.
      change (len [paper]) with 1 in Hk. lia. }
    split; [|exact Hnone]. simpl.
    change (pre ++ Parsed paper :: rest) with (pre ++ [Parsed paper] ++ rest).
    rewrite app_assoc, (matching_app (pre ++ [Parsed paper]) rest), Hnone, app_nil_r.
    rewrite (parsed_app (pre ++ [Parsed paper]) rest), len_app.
    do 3 f_equal. lia.
Qed.

End FilterClaims.

(** C3.  On an input whose lines are papers of the expected shape (lines
    that do not parse apart), and when the cap does not cut the output, a
    paper appears in the output iff one of its category tags starts with
    [cs.]; the categories of a kept record are exactly the tags of the
    paper that do, a non-empty part of its tags. *)
Theorem filter_completeness (f : list raw_line) (input_file output_file : string)
  (max_papers : option Z) :
  Forall (fun line => wf_line line = true) f ->
  truthy_int max_papers = false \/ matching_count f <= default 0 max_papers ->
  exists r,
    fst (filter_cs_papers f input_file output_file max_papers) = Ok r
    /\ saved r = map extract (matching f)
    /\ (forall paper, In (Parsed paper) f ->
          (In (extract paper) (saved r)
           <-> exists tag, In tag (tags paper) /\ cs_tag tag = true))
    /\ (forall paper, In (Parsed paper) f -> In (extract paper) (saved r) ->
          extract paper !! "categories"
          = Some (JArr (map JStr (List.filter cs_tag (tags paper))))
          /\ List.filter cs_tag (tags paper) <> []
          /\ (forall tag, In tag (List.filter cs_tag (tags paper))
                          <-> In tag (tags paper) /\ cs_tag tag = true)).
Proof.
  intros Hwf Hcap.
  destruct (filter_all f max_papers Hwf Hcap) as (unread & Hloop & _).
  eexists. split; [rewrite filter_unfold, Hloop; reflexivity|].
  cbn [saved fst cs_papers].
  assert (forall paper, In (Parsed paper) f -> wf_paper paper = true) as Hshape.
  { intros paper Hin. rewrite List.Forall_forall in Hwf. exact (Hwf _ Hin). }
  assert (forall paper, In (Parsed paper) f ->
            (In (extract paper) (map extract (matching f)) <-> matches paper = true))
    as Hiff.
  { intros paper Hin. split.
    - intros Hex. apply in_map_iff in Hex as (q & Heq & Hq).
      unfold matching in Hq. apply filter_In in Hq as [Hq Hmq].
      apply in_parsed in Hq.
      pose proof (extract_categories _ (Hshape _ Hq)) as Hcq.
      pose proof (extract_categories _ (Hshape _ Hin)) as Hcp.
      rewrite Heq, Hcp in Hcq. injection Hcq as Hcq.
      apply matches_kept. apply matches_kept in Hmq.
      intros Hnil. rewrite Hnil in Hcq. simpl in Hcq.
      destruct (List.filter cs_tag (tags q)); [congruence|discriminate].
    - intros Hm. apply in_map. unfold matching. apply filter_In.
      split; [apply in_parsed; exact Hin|exact Hm]. }
  split; [reflexivity|]. split.
  - intros paper Hin. rewrite (Hiff _ Hin). apply matches_tag.
  - intros paper Hin Hkept. split; [exact (extract_categories _ (Hshape _ Hin))|].
    split; [apply matches_kept, (Hiff _ Hin), Hkept|].
    intros tag. apply filter_In.
Qed.

Lemma fake_corpus_wf : Forall (fun line => wf_line line = true) Fake.corpus.
Proof. repeat constructor. Qed.

(** C3 on the small input file, without a cap. *)
Lemma filter_completeness_witness :
  Forall (fun line => wf_line line = true) Fake.corpus /\
  (truthy_int None = false \/ matching_count Fake.corpus <= default 0 None) /\
  exists r,
    fst (filter_cs_papers Fake.corpus "in.json" "out.json" None) = Ok r
    /\ saved r = map extract (matching Fake.corpus)
    /\ (forall paper, In (Parsed paper) Fake.corpus ->
          (In (extract paper) (saved r)
           <-> exists tag, In tag (tags paper) /\ cs_tag tag = true))
    /\ (forall paper, In (Parsed paper) Fake.corpus -> In (extract paper) (saved r) ->
          extract paper !! "categories"
          = Some (JArr (map JStr (List.filter cs_tag (tags paper))))
          /\ List.filter cs_tag (tags paper) <> []
          /\ (forall tag, In tag (List.filter cs_tag (tags paper))
                          <-> In tag (tags paper) /\ cs_tag tag = true)).
Proof.
  split; [exact fake_corpus_wf|]. split; [left; reflexivity|].
  apply (filter_completeness Fake.corpus "in.json" "out.json" None);
    [exact fake_corpus_wf|left; reflexivity].
Defined.

(** C4, as the code has it.  With a cap [k >= 1] the output has
    [min(k, matching_count)] records, the first selected ones; the filter
    reads nothing past the line of the [k]-th: what follows that line is
    left unread and has no influence on the result. *)
Theorem filter_cap (f : list raw_line) (input_file output_file : string) (k : Z) :
  Forall (fun line => wf_line line = true) f ->
  1 <= k ->
  exists r consumed,
    fst (filter_cs_papers f input_file output_file (Some k)) = Ok r
    /\ len (saved r) = Z.min k (matching_count f)
    /\ returned r = Z.min k (matching_count f)
    /\ f = consumed ++ unread r
    /\ saved r = map extract (matching consumed)
    /\ (matching_count f < k -> unread r = [])
    /\ (k <= matching_count f ->
          (exists pre paper,
              consumed = pre ++ [Parsed paper] /\ matches paper = true)
          /\ forall rest,
               exists r',
                 fst (filter_cs_papers (consumed ++ rest) input_file output_file (Some k))
                 = Ok r'
                 /\ saved r' = saved r /\ unread r' = rest).
Proof.
  intros Hwf Hk.
  destruct (Z.lt_ge_cases (matching_count f) k) as [Hlt|Hge].
  - exists (Run (map extract (matching f)) (len (map extract (matching f)))
                (0 + len (parsed f)) []), f.
    split.
    { rewrite filter_unfold, (loop_no_break _ _ Hwf)
        by (right; change (len []) with 0; simpl; lia).
      reflexivity. }
    cbn [saved returned unread].
    assert (len (map extract (matching f)) = Z.min k (matching_count f)) as Hlen.
    { unfold len. rewrite length_map. unfold matching_count, len in *. lia. }
    repeat split; try exact Hlen; try lia.
    + rewrite app_nil_r. reflexivity.
  - destruct (split_at_match f k Hk Hge) as (pre & paper & rest & -> & Hm & Hc).
    apply Forall_app in Hwf as [Hpre Hrest].
    apply Forall_cons in Hrest as [Hpaper _]. simpl in Hpaper.
    assert (forall rest',
              fst (filter_cs_papers (pre ++ Parsed paper :: rest')
                                    input_file output_file (Some k))
              = Ok (Run (map extract (matching (pre ++ [Parsed paper])))
                        (len (map extract (matching (pre ++ [Parsed paper]))))
                        (0 + len (parsed (pre ++ [Parsed paper]))) rest')) as Hrun.
    { intros rest'.
      rewrite filter_unfold, (loop_break_at _ _ _ Hpre Hpaper Hm)
        by (change (len []) with 0; lia).
      reflexivity. }
    eexists _, (pre ++ [Parsed paper]). split; [apply Hrun|].
    cbn [saved returned unread].
    assert (len (map extract (matching (pre ++ [Parsed paper])))
            = Z.min k (matching_count (pre ++ Parsed paper :: rest))) as Hlen.
    { unfold len. rewrite length_map, matching_app, length_app.
      unfold matching at 2. simpl. rewrite Hm. simpl.
      unfold matching_count, len in *. lia. }
    split; [exact Hlen|]. split; [exact Hlen|].
    split; [rewrite <- app_assoc; reflexivity|]. split; [reflexivity|].
    split; [lia|]. intros _. split; [eauto|].
    intros rest'. eexists. rewrite <- app_assoc. split; [apply Hrun|].
    split; reflexivity.
Qed.

(** C4 as the code has it, on the small input file with a cap of two. *)
Lemma filter_cap_witness :
  Forall (fun line => wf_line line = true) Fake.corpus /\ (1 <= 2) /\
  exists r consumed,
    fst (filter_cs_papers Fake.corpus "in.json" "out.json" (Some 2)) = Ok r
    /\ len (saved r) = Z.min 2 (matching_count Fake.corpus)
    /\ returned r = Z.min 2 (matching_count Fake.corpus)
    /\ Fake.corpus = consumed ++ unread r
    /\ saved r = map extract (matching consumed)
    /\ (matching_count Fake.corpus < 2 -> unread r = [])
    /\ (2 <= matching_count Fake.corpus ->
          (exists pre paper,
              consumed = pre ++ [Parsed paper] /\ matches paper = true)
          /\ forall rest,
               exists r',
                 fst (filter_cs_papers (consumed ++ rest) "in.json" "out.json" (Some 2))
                 = Ok r'
                 /\ saved r' = saved r /\ unread r' = rest).
Proof.
  split; [exact fake_corpus_wf|]. split; [lia|].
  apply (filter_cap Fake.corpus "in.json" "out.json" 2); [exact fake_corpus_wf|lia].
Defined.

(** C4, as the specification states it, fails for a cap that is not
    positive.  The test [max_papers and ...] takes 0 for no cap at all: the
    filter keeps the four selected papers of the input, where
    [min(0, 4) = 0] are promised.  A negative cap stops the filter at the
    first paper it keeps. *)
Lemma cap_zero_keeps_all :
  matching_count Fake.corpus = 4
  /\ (exists r,
        fst (filter_cs_papers Fake.corpus "in.json" "out.json" (Some 0)) = Ok r
        /\ len (saved r) = 4
        /\ len (saved r) <> Z.min 0 (matching_count Fake.corpus)
        /\ unread r = [])
  /\ (exists r,
        fst (filter_cs_papers Fake.corpus "in.json" "out.json" (Some (-1))) = Ok r
        /\ len (saved r) = 1
        /\ len (saved r) <> Z.min (-1) (matching_count Fake.corpus)
        /\ unread r = drop 1 Fake.corpus).
Proof.
  split; [reflexivity|].
  split; (eexists; split; [vm_compute; reflexivity|]); vm_compute;
    repeat split; discriminate.
Qed.

Section MalformedLines.

Variable max_papers : option Z.




End MalformedLines.

Section FilterPrefix.

(** Lines of the expected shape over which the cap is not reached are read
    through, and the loop goes on behind them. *)
Lemma loop_through (max_papers : option Z) (pre g : list raw_line) :
  Forall (fun line => wf_line line = true) pre ->
  forall acc t,
    (truthy_int max_papers = false
     \/ len acc + matching_count pre < default 0 max_papers
     \/ matching pre = []) ->
    fst (loop max_papers (FilterState acc t) (pre ++ g))
    = fst (loop max_papers
             (FilterState (acc ++ map extract (matching pre)) (t + len (parsed pre)))
             g).
Proof.
  induction 1 as [|line pre Hline _ IH]; intros acc t Hcap.
  - simpl. rewrite app_nil_r, Z.add_0_r. reflexivity.
  - destruct line as [|paper|e]; [| |discriminate Hline].
    + cbn [app]. rewrite loop_malformed. cbn [fst]. apply IH. exact Hcap.
    + simpl in Hline. cbn [app loop].
      rewrite fst_and_then, (visit_wf _ _ _ Hline).
      cbn [cs_papers total_processed].
      unfold matching_count, matching in *. cbn [parsed flat_map app] in *.
      change (flat_map _ pre) with (parsed pre) in *.
      cbn [List.filter] in *.
      destruct (matches paper) eqn:Hm.
      * assert (reached max_papers (acc ++ [extract paper]) = false) as ->.
        { rewrite reached_len, len_app.
          destruct Hcap as [->|[Hlt|Hnil]]; [reflexivity| |discriminate].
          apply andb_false_iff. right. apply Z.leb_gt.
          pose proof (len_nonneg (List.filter matches (parsed pre))).
          unfold len in *. simpl in *. lia. }
        cbn [fst snd bind]. rewrite IH.
        -- rewrite <- app_assoc. cbn [map app].
           do 3 f_equal. unfold len. cbn [length]. lia.
        -- destruct Hcap as [Hcap|[Hcap|Hcap]];
             [left; exact Hcap|right; left|discriminate].
           rewrite ?len_app in *. unfold len in *. simpl in *. lia.
      * cbn [fst snd bind]. rewrite IH by exact Hcap.
        do 3 f_equal. unfold len. cbn [length]. lia.
Qed.

Lemma visit_not_object (max_papers : option Z) (st : filter_state) (v : json) :
  is_object v = false ->
  visit max_papers st (Parsed v) = (Raise AttributeError, []).
Proof. destruct v; try discriminate; reflexivity. Qed.

End FilterPrefix.


(** A line nested too deep for [json.loads], after a paper that is kept:
    the call raises and saves nothing, the paper read before included. *)
Example unreadable_line_aborts :
  filter_cs_papers [Fake.raw "a" "cs.AI"; Fails (OtherException "RecursionError");
                    Fake.raw "b" "cs.LG"] "in.json" "out.json" None
  = (Raise (OtherException "RecursionError"),
     [Log INFO "Filtering CS papers from {}..." [Str "in.json"]]).
Proof. vm_compute. reflexivity. Qed.


(** ** The embedding batcher *)

Example embed_each :
  exists out,
    fst (generate_embeddings Fake.encode_each 1 Fake.three_papers "all-MiniLM-L6-v2" 2)
    = Ok out
    /\ map (fun p => p !! "abstract_vector") out
       = [Some (JArr [JFloat 1]); Some (JArr [JFloat 2]); Some (JArr [JFloat 3])].
Proof. eexists. split; [vm_compute; reflexivity|]. vm_compute. reflexivity. Qed.

Example embed_zero_batch_size :
  generate_embeddings Fake.encode_each 1 Fake.three_papers "all-MiniLM-L6-v2" 0
  = (Raise ValueError,
     [Log INFO "Loading model: {}..." [Str "all-MiniLM-L6-v2"];
      Log INFO "Embedding dimension: {}" [Int 1];
      Log INFO "Generating embeddings for {} papers..." [Int 3]]).
Proof. reflexivity. Qed.

Section EmbedFacts.

Variable encode : list json -> list vector.
Variable embedding_dim : Z.

Lemma attach_length (papers : list dict) (all_embeddings : list vector) :
  length (attach papers all_embeddings) = length papers.
Proof.
  revert all_embeddings.
  induction papers as [|paper papers IH]; intros [|v vs]; simpl; auto.
Qed.

(** [zip] pairs by position and stops with the shorter list. *)
Lemma attach_lookup (papers : list dict) (all_embeddings : list vector) i paper :
  papers !! i = Some paper ->
  attach papers all_embeddings !! i
  = Some (match all_embeddings !! i with
          | Some v => <["abstract_vector" := tolist v]> paper
          | None => paper
          end).
Proof.
  revert all_embeddings i.
  induction papers as [|p papers IH]; intros all_embeddings i Hi; [done|].
  destruct all_embeddings as [|v vs]; [exact Hi|].
  destruct i as [|i]; simpl in *.
  - injection Hi as ->. reflexivity.
  - apply (IH vs i Hi).
Qed.

Lemma concat_replies_length (bs : list (list json)) :
  Forall (fun batch => length (encode batch) = length batch) bs ->
  length (concat (map encode bs)) = length (concat bs).
Proof.
  induction 1 as [|batch bs Hb _ IH]; simpl; [reflexivity|].
  rewrite !length_app, Hb, IH. reflexivity.
Qed.

Lemma generate_embeddings_unfold (papers : list dict) (model_name : string)
  (batch_size : Z) bs :
  batches (map abstract_of papers) batch_size = Ok bs ->
  generate_embeddings encode embedding_dim papers model_name batch_size
  = (Ok (attach papers (concat (map encode bs))),
     [Log INFO "Loading model: {}..." [Str model_name];
      Log INFO "Embedding dimension: {}" [Int embedding_dim];
      Log INFO "Generating embeddings for {} papers..."
          [Int (len (map abstract_of papers))];
      Log INFO "Adding embeddings to papers..." []]).
Proof.
  intros Hbs. unfold generate_embeddings, and_then, emit, lift, ret.
  change (map (fun paper => dict_get paper "abstract" (JStr "")) papers)
    with (map abstract_of papers).
  rewrite Hbs. reflexivity.
Qed.

End EmbedFacts.

(** C5, as the code has it.  The embedding stage makes no check on the
    number of vectors a batch comes back with and raises nothing: it logs
    its four records, concatenates the replies and attaches them by
    position, so a paper receives the vector at its own index when there
    is one and is left as it was otherwise.  When every batch comes back
    with one vector per text, every paper receives a vector. *)
Theorem embeddings_attached_by_position (encode : list json -> list vector)
  (embedding_dim : Z) (papers : list dict) (model_name : string) (batch_size : Z) :
  0 < batch_size ->
  exists bs out,
    batches (map abstract_of papers) batch_size = Ok bs
    /\ generate_embeddings encode embedding_dim papers model_name batch_size
       = (Ok out,
          [Log INFO "Loading model: {}..." [Str model_name];
           Log INFO "Embedding dimension: {}" [Int embedding_dim];
           Log INFO "Generating embeddings for {} papers..."
               [Int (len (map abstract_of papers))];
           Log INFO "Adding embeddings to papers..." []])
    /\ length out = length papers
    /\ (forall i paper,
          papers !! i = Some paper ->
          out !! i = Some (match concat (map encode bs) !! i with
                           | Some v => <["abstract_vector" := tolist v]> paper
                           | None => paper
                           end))
    /\ (Forall (fun batch => length (encode batch) = length batch) bs ->
        forall i paper,
          out !! i = Some paper ->
          exists v, concat (map encode bs) !! i = Some v
                    /\ paper !! "abstract_vector" = Some (tolist v)).
Proof.
  intros Hb.
  destruct (batches_cover (map abstract_of papers) batch_size Hb)
    as (bs & Hbs & Hcat).
  exists bs, (attach papers (concat (map encode bs))).
  split; [exact Hbs|].
  split; [apply generate_embeddings_unfold; exact Hbs|].
  split; [apply attach_length|].
  split; [intros i paper; apply attach_lookup|].
  intros Hall i paper Hi.
  pose proof (concat_replies_length encode bs Hall) as Hlen.
  rewrite Hcat, length_map in Hlen.
  pose proof (lookup_lt_Some _ _ _ Hi) as Hlt. rewrite attach_length in Hlt.
  destruct (lookup_lt_is_Some_2 papers i Hlt) as [p Hp].
  destruct (lookup_lt_is_Some_2 (concat (map encode bs)) i ltac:(lia)) as [v Hv].
  rewrite (attach_lookup _ _ _ _ Hp), Hv in Hi. injection Hi as <-.
  exists v. split; [exact Hv|]. apply lookup_insert_eq.
Qed.

(** C5 as the code has it, on three papers in batches of two. *)
Lemma embeddings_attached_by_position_witness :
  (0 < 2) /\
  exists bs out,
    batches (map abstract_of Fake.three_papers) 2 = Ok bs
    /\ generate_embeddings Fake.encode_each 1 Fake.three_papers "all-MiniLM-L6-v2" 2
       = (Ok out,
          [Log INFO "Loading model: {}..." [Str "all-MiniLM-L6-v2"];
           Log INFO "Embedding dimension: {}" [Int 1];
           Log INFO "Generating embeddings for {} papers..."
               [Int (len (map abstract_of Fake.three_papers))];
           Log INFO "Adding embeddings to papers..." []])
    /\ length out = length Fake.three_papers
    /\ (forall i paper,
          Fake.three_papers !! i = Some paper ->
          out !! i = Some (match concat (map Fake.encode_each bs) !! i with
                           | Some v => <["abstract_vector" := tolist v]> paper
                           | None => paper
                           end))
    /\ (Forall (fun batch => length (Fake.encode_each batch) = length batch) bs ->
        forall i paper,
          out !! i = Some paper ->
          exists v, concat (map Fake.encode_each bs) !! i = Some v
                    /\ paper !! "abstract_vector" = Some (tolist v)).
Proof.
  split; [lia|].
  apply (embeddings_attached_by_position Fake.encode_each 1 Fake.three_papers
           "all-MiniLM-L6-v2" 2).
  lia.
Defined.

(** C5, as the specification states it, fails: the first batch has two
    texts and comes back with one vector, and the stage returns all the
    same; the second paper carries the vector of the third, and the third
    carries none. *)
Lemma mismatched_batch_is_not_rejected :
  exists bs out,
    batches (map abstract_of Fake.three_papers) 2 = Ok bs
    /\ bs = [[JStr "a"; JStr "bb"]; [JStr "ccc"]]
    /\ map Fake.encode_first bs = [[[1]]; [[3]]]
    /\ fst (generate_embeddings Fake.encode_first 1 Fake.three_papers
              "all-MiniLM-L6-v2" 2) = Ok out
    /\ map (fun p => p !! "abstract_vector") out
       = [Some (JArr [JFloat 1]); Some (JArr [JFloat 3]); None].
Proof.
  eexists _, _. split; [vm_compute; reflexivity|].
  split; [reflexivity|]. split; [reflexivity|].
  split; [vm_compute; reflexivity|]. vm_compute. reflexivity.
Qed.

(** ** The stages run before their input exists *)

Example embed_main_runs :
  GenerateEmbeddings.main Fake.encode_each 1 Fake.file_size_mb Fake.int "n"
    ∅ (<["./data/cs_papers.json" := Fake.three_papers]> ∅)
  = (Ok tt,
     <["./data/cs_papers_with_embeddings.json" :=
         attach Fake.three_papers [[1]; [2]; [3]]]>
       (<["./data/cs_papers.json" := Fake.three_papers]> ∅),
     [Log INFO "Loading papers from {}..." [Str "./data/cs_papers.json"];
      Log INFO "Loaded {} papers" [Int 3];
      Log INFO "Loading model: {}..." [Str "all-MiniLM-L6-v2"];
      Log INFO "Embedding dimension: {}" [Int 1];
      Log INFO "Generating embeddings for {} papers..." [Int 3];
      Log INFO "Adding embeddings to papers..." [];
      Log INFO "Saving papers with embeddings to {}..."
          [Str "./data/cs_papers_with_embeddings.json"];
      Log INFO "Saved {} papers ({} MB)" [Int 3; Int 0];
      Log INFO "Embedding generation complete!" []]).
Proof. reflexivity. Qed.

Example embed_main_bad_batch_size :
  GenerateEmbeddings.main Fake.encode_each 1 Fake.file_size_mb Fake.int "n"
    (<["BATCH_SIZE" := "many"]> ∅) ∅
  = (Raise ValueError, ∅, []).
Proof. reflexivity. Qed.

(** C9, as the code has it.  A stage started while its input file is
    missing (and with a batch size that reads as an integer) logs an error
    naming the file and the script to run first, then returns: the files
    are as they were, the cluster was never contacted, and the process
    ends with status 0. *)
Theorem missing_input_is_reported
  (encode : list json -> list vector) (embedding_dim : Z)
  (file_size_mb : list dict -> Z) (response : string)
  {Client : Type}
  (bulk : Client -> list dict -> Client * bulk_reply)
  (indices_refresh : Client -> string -> Client * result unit)
  (get_elasticsearch_client : logged Client)
  (load_index_mapping : string -> logged json)
  (create_index : Client -> string -> json -> Client * logged unit)
  (verify_index : Client -> string -> Client * logged unit)
  (int : string -> result Z)
  (environ : gmap string string) (fs : gmap string (list dict)) (b1 b2 : Z) :
  int (getenv environ "BATCH_SIZE" "32") = Ok b1 ->
  int (getenv environ "BATCH_SIZE" "500") = Ok b2 ->
  let data_dir := getenv environ "DATA_DIR" "./data" in
  let embedded := GenerateEmbeddings.main encode embedding_dim file_size_mb int
                    response environ fs in
  let ingested := IngestData.main bulk indices_refresh get_elasticsearch_client
                    load_index_mapping create_index verify_index int environ fs in
  (fs !! path_join data_dir "cs_papers.json" = None ->
   embedded
   = (Ok tt, fs,
      [Log ERROR "Input file not found: {}"
           [Str (path_join data_dir "cs_papers.json")];
       Log INFO "Please run download_dataset.py first" []])
   /\ exit_status (fst (fst embedded)) = 0)
  /\ (fs !! path_join data_dir "cs_papers_with_embeddings.json" = None ->
      ingested
      = (Ok tt, None,
         [Log ERROR "Input file not found: {}"
              [Str (path_join data_dir "cs_papers_with_embeddings.json")];
          Log INFO "Please run generate_embeddings.py first" []])
      /\ exit_status (fst (fst ingested)) = 0).
Proof.
  intros H1 H2. simpl. split; intros Hmissing.
  - unfold GenerateEmbeddings.main. rewrite H1, Hmissing. split; reflexivity.
  - unfold IngestData.main. rewrite H2, Hmissing. split; reflexivity.
Qed.

(** C9 as the code has it, in an empty data directory. *)
Lemma missing_input_is_reported_witness :
  Fake.int (getenv ∅ "BATCH_SIZE" "32") = Ok 32 /\
  Fake.int (getenv ∅ "BATCH_SIZE" "500") = Ok 500 /\
  let fs : gmap string (list dict) := ∅ in
  let embedded := GenerateEmbeddings.main Fake.encode_each 1 Fake.file_size_mb
                    Fake.int "y" ∅ fs in
  let ingested := IngestData.main Fake.bulk Fake.indices_refresh
                    Fake.get_elasticsearch_client Fake.load_index_mapping
                    Fake.create_index Fake.verify_index Fake.int ∅ fs in
  (fs !! path_join (getenv ∅ "DATA_DIR" "./data") "cs_papers.json" = None ->
   embedded
   = (Ok tt, fs,
      [Log ERROR "Input file not found: {}"
           [Str (path_join (getenv ∅ "DATA_DIR" "./data") "cs_papers.json")];
       Log INFO "Please run download_dataset.py first" []])
   /\ exit_status (fst (fst embedded)) = 0)
  /\ (fs !! path_join (getenv ∅ "DATA_DIR" "./data")
                      "cs_papers_with_embeddings.json" = None ->
      ingested
      = (Ok tt, None,
         [Log ERROR "Input file not found: {}"
              [Str (path_join (getenv ∅ "DATA_DIR" "./data")
                              "cs_papers_with_embeddings.json")];
          Log INFO "Please run generate_embeddings.py first" []])
      /\ exit_status (fst (fst ingested)) = 0).
Proof.
  split; [reflexivity|]. split; [reflexivity|].
  apply (missing_input_is_reported Fake.encode_each 1 Fake.file_size_mb "y"
           Fake.bulk Fake.indices_refresh Fake.get_elasticsearch_client
           Fake.load_index_mapping Fake.create_index Fake.verify_index
           Fake.int ∅ ∅ 32 500); reflexivity.
Defined.

(** C9, as the specification states it, fails: in an empty data directory
    both stages name the missing file and the script to run first, and end
    with status 0. *)
Lemma missing_input_exits_with_zero :
  let fs : gmap string (list dict) := ∅ in
  let embedded := GenerateEmbeddings.main Fake.encode_each 1 Fake.file_size_mb
                    Fake.int "y" ∅ fs in
  let ingested := IngestData.main Fake.bulk Fake.indices_refresh
                    Fake.get_elasticsearch_client Fake.load_index_mapping
                    Fake.create_index Fake.verify_index Fake.int ∅ fs in
  fs !! "./data/cs_papers.json" = None
  /\ embedded
     = (Ok tt, ∅,
        [Log ERROR "Input file not found: {}" [Str "./data/cs_papers.json"];
         Log INFO "Please run download_dataset.py first" []])
  /\ exit_status (fst (fst embedded)) = 0
  /\ fs !! "./data/cs_papers_with_embeddings.json" = None
  /\ ingested
     = (Ok tt, None,
        [Log ERROR "Input file not found: {}"
             [Str "./data/cs_papers_with_embeddings.json"];
         Log INFO "Please run generate_embeddings.py first" []])
  /\ exit_status (fst (fst ingested)) = 0.
Proof. repeat split. Qed.

(** ** Restoring a snapshot *)

Example restore_renamed :
  restore_body (Some ["arxiv-papers"]) (Some "arxiv-papers")
               (Some "arxiv-papers_restored")
  = <["indices" := "arxiv-papers"]>
      (<["rename_pattern" := "arxiv-papers"]>
        (<["rename_replacement" := "arxiv-papers_restored"]> ∅)).
Proof. apply map_eq. intros k. vm_compute. reflexivity. Qed.

Example restore_pattern_alone :
  restore_body (Some ["a"; "b"]) (Some "a") None = <["indices" := "a,b"]> ∅.
Proof. reflexivity. Qed.

Lemma restore_body_rename (indices : option (list string))
  (rename_pattern rename_replacement : option string) :
  let body := restore_body indices rename_pattern rename_replacement in
  if truthy_str rename_pattern && truthy_str rename_replacement
  then body !! "rename_pattern" = rename_pattern
       /\ body !! "rename_replacement" = rename_replacement
  else body !! "rename_pattern" = None
       /\ body !! "rename_replacement" = None.
Proof.
  unfold restore_body.
  destruct (truthy_str rename_pattern && truthy_str rename_replacement) eqn:E.
  - apply andb_true_iff in E as [Hp Hr].
    destruct rename_pattern as [p|]; [|discriminate].
    destruct rename_replacement as [r|]; [|discriminate]. simpl.
    rewrite lookup_insert_ne by done. rewrite !lookup_insert_eq. done.
  - destruct (truthy_list indices).
    + rewrite !lookup_insert_ne by done. rewrite !lookup_empty. done.
    + rewrite !lookup_empty. done.
Qed.

Lemma restore_snapshot_sends {Client : Type}
  (snapshot_restore : Client -> restore_call -> Client * result json)
  (c : Client) (repo_name snapshot_name : string)
  (indices : option (list string))
  (rename_pattern rename_replacement : option string)
  (wait_for_completion : bool) :
  let sent := restore_snapshot snapshot_restore c repo_name snapshot_name indices
                rename_pattern rename_replacement wait_for_completion in
  let request := Restore repo_name snapshot_name
                   (restore_body indices rename_pattern rename_replacement)
                   wait_for_completion in
  fst (fst sent) = request
  /\ (snd (fst sent), fst (snd sent)) = snapshot_restore c request.
Proof.
  cbv zeta. unfold restore_snapshot.
  destruct (snapshot_restore c _) as [c' [response|e]]; split; reflexivity.
Qed.

(** C10.  The request [restore_snapshot] sends carries both rename fields,
    with the values given, iff [rename_pattern] and [rename_replacement]
    are both given and not empty; when either is missing or empty the
    request is sent all the same and carries neither field. *)
Theorem restore_rename_fields {Client : Type}
  (snapshot_restore : Client -> restore_call -> Client * result json)
  (c : Client) (repo_name snapshot_name : string)
  (indices : option (list string))
  (rename_pattern rename_replacement : option string)
  (wait_for_completion : bool) :
  let sent := restore_snapshot snapshot_restore c repo_name snapshot_name indices
                rename_pattern rename_replacement wait_for_completion in
  let request := fst (fst sent) in
  (snd (fst sent), fst (snd sent)) = snapshot_restore c request
  /\ repository request = repo_name /\ snapshot request = snapshot_name
  /\ (is_Some (body request !! "rename_pattern")
      /\ is_Some (body request !! "rename_replacement")
      <-> truthy_str rename_pattern = true /\ truthy_str rename_replacement = true)
  /\ (truthy_str rename_pattern = true -> truthy_str rename_replacement = true ->
      body request !! "rename_pattern" = rename_pattern
      /\ body request !! "rename_replacement" = rename_replacement)
  /\ (truthy_str rename_pattern = false \/ truthy_str rename_replacement = false ->
      body request !! "rename_pattern" = None
      /\ body request !! "rename_replacement" = None).
Proof.
  destruct (restore_snapshot_sends snapshot_restore c repo_name snapshot_name
              indices rename_pattern rename_replacement wait_for_completion)
    as [Hreq Hcall].
  cbv zeta. rewrite Hreq. split; [exact Hcall|]. cbn [repository snapshot body].
  split; [reflexivity|]. split; [reflexivity|].
  pose proof (restore_body_rename indices rename_pattern rename_replacement) as H.
  cbv zeta in H.
  destruct (truthy_str rename_pattern) eqn:Ep;
    destruct (truthy_str rename_replacement) eqn:Er;
    cbn [andb] in H; destruct H as [Hp Hr]; rewrite Hp, Hr.
  all: unfold is_Some; repeat split; intros; try done.
  all: repeat match goal with
              | H : _ /\ _ |- _ => destruct H
              | H : _ \/ _ |- _ => destruct H
              | H : ex _ |- _ => destruct H
              end; try discriminate.
  - destruct rename_pattern; [eauto|discriminate].
  - destruct rename_replacement; [eauto|discriminate].
Qed.

(** * Part III: further properties of the code *)

#[local] Set Warnings "-clear-no-such-hyp".

(** ** Strings *)

Section StringFacts.

Lemma rev_app_rev_app (s t u : string) :
  String.rev_app (String.rev_app s t) u = String.rev_app t (s +:+ u).
Proof.
  revert t u. induction s as [|a s IH]; intros t u; simpl; [reflexivity|].
  rewrite IH. reflexivity.
Qed.

Lemma append_cons (a : ascii) (s t : string) :
  String a s +:+ t = String a (s +:+ t).
Proof. reflexivity. Qed.

Lemma append_empty_r (s : string) : s +:+ "" = s.
Proof.
  induction s as [|a s IH]; [reflexivity|]. rewrite append_cons, IH. reflexivity.
Qed.

Lemma rev_rev (s : string) : String.rev (String.rev s) = s.
Proof.
  unfold String.rev. rewrite rev_app_rev_app. simpl. apply append_empty_r.
Qed.

Lemma has_char_rev_app (c : ascii) (s t : string) :
  has_char c (String.rev_app s t) = has_char c s || has_char c t.
Proof.
  revert t. induction s as [|a s IH]; intros t; simpl; [reflexivity|].
  rewrite IH. simpl. destruct (Ascii.eqb a c), (has_char c s), (has_char c t);
    reflexivity.
Qed.

Lemma has_char_rev (c : ascii) (s : string) :
  has_char c (String.rev s) = has_char c s.
Proof. unfold String.rev. rewrite has_char_rev_app. simpl. apply orb_false_r. Qed.

Lemma has_char_lstrip (c : ascii) (s : string) :
  has_char c s = false -> has_char c (lstrip s) = false.
Proof.
  induction s as [|a s IH]; simpl; [reflexivity|].
  intros H. apply orb_false_iff in H as [Ha Hs].
  destruct (isspace a); [exact (IH Hs)|]. simpl. rewrite Ha, Hs. reflexivity.
Qed.

Lemma has_char_strip (c : ascii) (s : string) :
  has_char c s = false -> has_char c (strip s) = false.
Proof.
  intros H. unfold strip. rewrite has_char_rev. apply has_char_lstrip.
  rewrite has_char_rev. apply has_char_lstrip. exact H.
Qed.

Lemma has_char_replace (old new : ascii) (s : string) :
  Ascii.eqb new old = false -> has_char old (replace old new s) = false.
Proof.
  intros Hne. induction s as [|a s IH]; simpl; [reflexivity|].
  rewrite IH, orb_false_r. destruct (Ascii.eqb a old) eqn:E; [exact Hne|exact E].
Qed.

Lemma replace_absent (old new : ascii) (s : string) :
  has_char old s = false -> replace old new s = s.
Proof.
  induction s as [|a s IH]; simpl; [reflexivity|].
  intros H. apply orb_false_iff in H as [Ha Hs]. rewrite Ha, (IH Hs). reflexivity.
Qed.

Lemma head_space_lstrip (s : string) : head_space (lstrip s) = false.
Proof.
  induction s as [|a s IH]; simpl; [reflexivity|].
  destruct (isspace a) eqn:E; [exact IH|]. simpl. exact E.
Qed.

Lemma lstrip_fixed (s : string) : head_space s = false -> lstrip s = s.
Proof. destruct s as [|a s]; simpl; [reflexivity|]. intros ->. reflexivity. Qed.

(** What [lstrip] removes is a prefix. *)
Lemma lstrip_suffix (s : string) : exists w, s = w +:+ lstrip s.
Proof.
  induction s as [|a s [w IH]]; simpl; [exists ""; reflexivity|].
  destruct (isspace a).
  - exists (String a w). rewrite append_cons, <- IH. reflexivity.
  - exists "". reflexivity.
Qed.

Lemma rev_app_append (s t u : string) :
  String.rev_app (s +:+ t) u = String.rev_app t (String.rev_app s u).
Proof.
  revert u. induction s as [|a s IH]; intros u; [reflexivity|].
  rewrite append_cons. simpl. apply IH.
Qed.

Lemma rev_app_acc (s t : string) :
  String.rev_app s t = String.rev s +:+ t.
Proof.
  unfold String.rev. revert t. induction s as [|a s IH]; intros t; simpl;
    [reflexivity|].
  rewrite (IH (String a t)), (IH (String a "")).
  clear IH. generalize (String.rev_app s ""). intros r.
  induction r as [|b r IHr]; [reflexivity|].
  rewrite !append_cons, IHr. reflexivity.
Qed.

Lemma head_space_append (s t : string) :
  s <> "" -> head_space (s +:+ t) = head_space s.
Proof. destruct s; [congruence|reflexivity]. Qed.

Lemma head_space_strip (s : string) : head_space (strip s) = false.
Proof.
  unfold strip. set (t := lstrip s).
  assert (head_space t = false) as Ht by apply head_space_lstrip.
  destruct (lstrip_suffix (String.rev t)) as [w Hw].
  set (u := lstrip (String.rev t)) in *.
  assert (t = String.rev u +:+ String.rev w) as Heq.
  { rewrite <- (rev_rev t), Hw. unfold String.rev at 1.
    rewrite rev_app_append. apply rev_app_acc. }
  destruct (String.rev u) as [|a r] eqn:E; [reflexivity|].
  rewrite Heq in Ht. exact Ht.
Qed.

Lemma tail_space_strip (s : string) : head_space (String.rev (strip s)) = false.
Proof. unfold strip. rewrite rev_rev. apply head_space_lstrip. Qed.

(** [replace] then [strip] leaves normalised text, and leaves normalised
    text alone. *)
Lemma clean_normalised (s : string) :
  normalised (strip (replace "010" " " s)) = true.
Proof.
  unfold normalised.
  rewrite has_char_strip by (apply has_char_replace; reflexivity).
  rewrite head_space_strip, tail_space_strip. reflexivity.
Qed.

Lemma clean_fixed (s : string) :
  normalised s = true -> strip (replace "010" " " s) = s.
Proof.
  unfold normalised. intros H.
  apply andb_true_iff in H as [H Htail]. apply andb_true_iff in H as [Hnl Hhead].
  apply negb_true_iff in Hnl, Hhead, Htail.
  rewrite (replace_absent _ _ _ Hnl). unfold strip.
  rewrite (lstrip_fixed _ Hhead), (lstrip_fixed _ Htail). apply rev_rev.
Qed.

End StringFacts.

(** ** The corpus filter, on any input *)

Section FilterInvariants.

Variable max_papers : option Z.

(** A turn of the loop that returns either keeps nothing or appends the
    record built from a paper with a [cs.] tag. *)
Lemma visit_inv (st st' : filter_state) (paper : json) (fl : flow) :
  fst (visit max_papers st (Parsed paper)) = Ok (fl, st') ->
  total_processed st' = total_processed st + 1
  /\ (cs_papers st' = cs_papers st
      \/ exists categories r,
           categories_of paper = Ok categories
           /\ any_cs categories = Ok true
           /\ cs_paper_of paper categories = Ok r
           /\ cs_papers st' = cs_papers st ++ [r]).
Proof.
  unfold visit, and_then, lift, emit, ret.
  destruct (categories_of paper) as [categories|e]; simpl; [|discriminate].
  destruct (any_cs categories) as [[|]|e] eqn:Hany; simpl; try discriminate.
  - destruct (cs_paper_of paper categories) as [r|e] eqn:Hr; simpl; [|discriminate].
    destruct (reached max_papers _); simpl; intros [= <- <-]; simpl;
      (split; [reflexivity|right; exists categories, r; auto]).
  - intros [= <- <-]. simpl. split; [reflexivity|left; reflexivity].
Qed.

(** Whatever holds of every record built from a selected paper holds of
    every record kept. *)
Lemma loop_keeps (P : dict -> Prop) :
  (forall paper categories r,
      categories_of paper = Ok categories -> any_cs categories = Ok true ->
      cs_paper_of paper categories = Ok r -> P r) ->
  forall f st st' rest,
    fst (loop max_papers st f) = Ok (st', rest) ->
    Forall P (cs_papers st) -> Forall P (cs_papers st').
Proof.
  intros HP. induction f as [|line f IH]; intros st st' rest.
  - simpl. intros [= <- <-] H. exact H.
  - destruct line as [|paper|e];
      [|
      |destruct (exn_decode_dec e) as [->|He];
         [rewrite loop_fails_decode; cbn [fst]; apply IH
         |rewrite (loop_fails _ _ _ _ He); discriminate]].
    + rewrite loop_malformed. cbn [fst]. apply IH.
    + cbn [loop]. rewrite fst_and_then.
      destruct (fst (visit max_papers st (Parsed paper))) as [[fl st1]|e] eqn:Hv;
        simpl; [|discriminate].
      apply visit_inv in Hv as [_ Hkept].
      assert (Forall P (cs_papers st) -> Forall P (cs_papers st1)) as Hstep.
      { intros H. destruct Hkept as [->|(categories & r & Hc & Ha & Hr & ->)];
          [exact H|].
        apply Forall_app. split; [exact H|]. constructor; [|constructor].
        exact (HP _ _ _ Hc Ha Hr). }
      destruct fl.
      * intros Hloop H. exact (IH _ _ _ Hloop (Hstep H)).
      * intros [= <- <-] H. exact (Hstep H).
Qed.

(** The counters of a call that returns. *)
Lemma loop_counts (f : list raw_line) :
  forall st st' rest,
    fst (loop max_papers st f) = Ok (st', rest) ->
    exists consumed,
      f = consumed ++ rest
      /\ total_processed st' = total_processed st + len (parsed consumed)
      /\ len (cs_papers st') <= len (cs_papers st) + len (parsed consumed).
Proof.
  induction f as [|line f IH]; intros st st' rest.
  - simpl. intros [= <- <-]. exists []. split; [reflexivity|].
    change (len (parsed [])) with 0. lia.
  - destruct line as [|paper|e];
      [|
      |destruct (exn_decode_dec e) as [->|He];
         [rewrite loop_fails_decode; cbn [fst]; intros H;
          destruct (IH _ _ _ H) as (consumed & -> & Ht & Hk);
          exists (Fails JSONDecodeError :: consumed); repeat split; assumption
         |rewrite (loop_fails _ _ _ _ He); discriminate]].
    + rewrite loop_malformed. cbn [fst]. intros H.
      destruct (IH _ _ _ H) as (consumed & -> & Ht & Hk).
      exists (Malformed :: consumed). repeat split; assumption.
    + cbn [loop]. rewrite fst_and_then.
      destruct (fst (visit max_papers st (Parsed paper))) as [[fl st1]|e] eqn:Hv;
        simpl; [|discriminate].
      apply visit_inv in Hv as [Ht1 Hkept].
      assert (len (cs_papers st1) <= len (cs_papers st) + 1) as Hk1.
      { destruct Hkept as [->|(categories & r & _ & _ & _ & ->)]; [lia|].
        rewrite len_app. change (len [r]) with 1. lia. }
      destruct fl.
      * intros H. destruct (IH _ _ _ H) as (consumed & -> & Ht & Hk).
        exists (Parsed paper :: consumed). split; [reflexivity|].
        change (parsed (Parsed paper :: consumed)) with (paper :: parsed consumed).
        unfold len in *. simpl length. lia.
      * intros [= <- <-]. exists [Parsed paper]. split; [reflexivity|].
        change (len (parsed [Parsed paper])) with 1. lia.
Qed.

End FilterInvariants.

Lemma parsed_le (f : list raw_line) : len (parsed f) <= len f.
Proof.
  unfold len. induction f as [|[|paper|e] f IH]; simpl in *; lia.
Qed.

(** X1.  Whenever the filter returns, the value returned is the number of
    records saved, no more records are saved than papers were processed,
    and no more papers were processed than lines were read. *)
Theorem filter_counters (f : list raw_line) (input_file output_file : string)
  (max_papers : option Z) (r : run) :
  fst (filter_cs_papers f input_file output_file max_papers) = Ok r ->
  returned r = len (saved r)
  /\ 0 <= len (saved r) <= processed r
  /\ processed r + len (unread r) <= len f.
Proof.
  rewrite filter_unfold.
  destruct (fst (loop max_papers _ f)) as [[st rest]|e] eqn:Hloop;
    simpl; [|discriminate].
  intros [= <-]. simpl.
  destruct (loop_counts max_papers f _ _ _ Hloop) as (consumed & -> & Ht & Hk).
  simpl in Ht, Hk. change (len []) with 0 in Hk.
  pose proof (parsed_le consumed). pose proof (len_nonneg (cs_papers st)).
  rewrite len_app. repeat split; lia.
Qed.

(** X1 on the small input file, capped at two. *)
Lemma filter_counters_witness :
  exists r,
    fst (filter_cs_papers Fake.corpus "in.json" "out.json" (Some 2)) = Ok r
    /\ returned r = len (saved r)
    /\ 0 <= len (saved r) <= processed r
    /\ processed r + len (unread r) <= len Fake.corpus.
Proof.
  eexists. split; [vm_compute; reflexivity|].
  apply (filter_counters Fake.corpus "in.json" "out.json" (Some 2)).
  vm_compute. reflexivity.
Defined.

Section KeptRecords.

Lemma cs_only_all (categories kept : list json) :
  cs_only categories = Ok kept -> forallb cs_string kept = true.
Proof.
  revert kept. induction categories as [|cat categories IH]; intros kept; simpl.
  - intros [= <-]. reflexivity.
  - destruct cat as [| | | |s| |]; simpl; try discriminate.
    destruct (cs_only categories) as [kept'|e]; simpl; [|discriminate].
    fold (cs_tag s). destruct (cs_tag s) eqn:E; intros [= <-]; simpl.
    + rewrite E. exact (IH _ eq_refl).
    + exact (IH _ eq_refl).
Qed.

Lemma cs_only_nonempty (categories kept : list json) :
  any_cs categories = Ok true -> cs_only categories = Ok kept -> kept <> [].
Proof.
  revert kept. induction categories as [|cat categories IH]; intros kept; simpl.
  - discriminate.
  - destruct cat as [| | | |s| |]; simpl; try discriminate.
    destruct (cs_only categories) as [kept'|e]; simpl.
    + destruct (startswith s "cs."); intros Hany [= <-]; [discriminate|].
      exact (IH _ Hany eq_refl).
    + destruct (startswith s "cs."); intros _; discriminate.
Qed.

Lemma clean_inv (v t : json) :
  clean v = Ok t -> exists s, t = JStr s /\ normalised s = true.
Proof.
  destruct v; simpl; try discriminate. intros [= <-].
  eexists. split; [reflexivity|apply clean_normalised].
Qed.

(** The record built from a paper with a [cs.] tag. *)
Lemma cs_paper_of_kept (paper : json) (categories : list json) (r : dict) :
  any_cs categories = Ok true ->
  cs_paper_of paper categories = Ok r ->
  has_schema r /\ has_clean_text r.
Proof.
  intros Hany. destruct paper as [| | | | | |d]; simpl; try discriminate.
  unfold cs_paper_of. simpl.
  destruct (clean (dict_get d "title" (JStr ""))) as [title|e] eqn:Ht;
    simpl; [|discriminate].
  destruct (clean (dict_get d "abstract" (JStr ""))) as [abstract|e] eqn:Ha;
    simpl; [|discriminate].
  destruct (cs_only categories) as [kept|e] eqn:Hk; simpl; [|discriminate].
  intros [= <-].
  apply clean_inv in Ht as (t & -> & Hnt). apply clean_inv in Ha as (a & -> & Hna).
  split.
  - split.
    + rewrite !dom_insert_L, dom_empty_L. unfold kept_keys. set_solver.
    + exists kept. split; [|split].
      * rewrite !(lookup_insert_ne _ _ "categories") by done.
        apply lookup_insert_eq.
      * exact (cs_only_nonempty _ _ Hany Hk).
      * exact (cs_only_all _ _ Hk).
  - exists t, a. split; [|split; [|split; assumption]].
    + rewrite (lookup_insert_ne _ _ "title") by done. apply lookup_insert_eq.
    + rewrite !(lookup_insert_ne _ _ "abstract") by done. apply lookup_insert_eq.
Qed.

Lemma saved_kept (f : list raw_line) (input_file output_file : string)
  (max_papers : option Z) (r : run) :
  fst (filter_cs_papers f input_file output_file max_papers) = Ok r ->
  Forall (fun record => has_schema record /\ has_clean_text record) (saved r).
Proof.
  rewrite filter_unfold.
  destruct (fst (loop max_papers _ f)) as [[st rest]|e] eqn:Hloop;
    simpl; [|discriminate].
  intros [= <-]. simpl.
  apply (loop_keeps max_papers
           (fun record => has_schema record /\ has_clean_text record))
    with (f := f) (st := FilterState [] 0) (rest := rest);
    [|exact Hloop|constructor].
  intros paper categories record _ Hany Hr. exact (cs_paper_of_kept _ _ _ Hany Hr).
Qed.

End KeptRecords.

(** X2.  Whenever the filter returns, whatever the input, every record it
    saves has the six keys id, title, abstract, categories, authors and
    update_date and no other, and its categories are a non-empty list of
    strings that all start with [cs.]. *)
Theorem saved_records_have_schema (f : list raw_line)
  (input_file output_file : string) (max_papers : option Z) (r : run) :
  fst (filter_cs_papers f input_file output_file max_papers) = Ok r ->
  forall record, In record (saved r) ->
    dom record = kept_keys
    /\ exists cats,
         record !! "categories" = Some (JArr cats)
         /\ cats <> [] /\ forallb cs_string cats = true.
Proof.
  intros Hrun record Hin.
  pose proof (saved_kept _ _ _ _ _ Hrun) as H.
  rewrite List.Forall_forall in H. exact (proj1 (H _ Hin)).
Qed.

(** X2 on the small input file. *)
Lemma saved_records_have_schema_witness :
  exists r,
    fst (filter_cs_papers Fake.corpus "in.json" "out.json" None) = Ok r
    /\ forall record, In record (saved r) ->
         dom record = kept_keys
         /\ exists cats,
              record !! "categories" = Some (JArr cats)
              /\ cats <> [] /\ forallb cs_string cats = true.
Proof.
  eexists. split; [vm_compute; reflexivity|].
  apply (saved_records_have_schema Fake.corpus "in.json" "out.json" None).
  vm_compute. reflexivity.
Defined.

(** X3.  Whenever the filter returns, the title and the abstract of every
    record it saves are strings without a newline and without a blank at
    either end. *)
Theorem saved_text_is_normalised (f : list raw_line)
  (input_file output_file : string) (max_papers : option Z) (r : run) :
  fst (filter_cs_papers f input_file output_file max_papers) = Ok r ->
  forall record, In record (saved r) ->
    exists title abstract,
      record !! "title" = Some (JStr title)
      /\ record !! "abstract" = Some (JStr abstract)
      /\ has_char "010" title = false /\ has_char "010" abstract = false
      /\ head_space title = false /\ head_space (String.rev title) = false
      /\ head_space abstract = false /\ head_space (String.rev abstract) = false.
Proof.
  intros Hrun record Hin.
  pose proof (saved_kept _ _ _ _ _ Hrun) as H.
  rewrite List.Forall_forall in H.
  destruct (proj2 (H _ Hin)) as (t & a & Ht & Ha & Hnt & Hna).
  exists t, a. unfold normalised in *.
  apply andb_true_iff in Hnt as [Hnt Ht3]. apply andb_true_iff in Hnt as [Ht1 Ht2].
  apply andb_true_iff in Hna as [Hna Ha3]. apply andb_true_iff in Hna as [Ha1 Ha2].
  apply negb_true_iff in Ht1, Ht2, Ht3, Ha1, Ha2, Ha3.
  repeat split; assumption.
Qed.

(** X3 on a title spread over two lines. *)
Lemma saved_text_is_normalised_witness :
  exists r,
    fst (filter_cs_papers Scenario.two_line_title "in.json" "out.json" None) = Ok r
    /\ map (fun record => record !! "title") (saved r)
       = [Some (JStr "Deep  learning")]
    /\ forall record, In record (saved r) ->
         exists title abstract,
           record !! "title" = Some (JStr title)
           /\ record !! "abstract" = Some (JStr abstract)
           /\ has_char "010" title = false /\ has_char "010" abstract = false
           /\ head_space title = false /\ head_space (String.rev title) = false
           /\ head_space abstract = false
           /\ head_space (String.rev abstract) = false.
Proof.
  eexists. split; [vm_compute; reflexivity|]. split; [vm_compute; reflexivity|].
  apply (saved_text_is_normalised Scenario.two_line_title "in.json" "out.json" None).
  vm_compute. reflexivity.
Defined.


(** X4.  A line that parses to something other than a JSON object is not
    skipped like a line that does not parse: when the filter reaches it
    (the lines before it being papers of the expected shape that do not
    exhaust the cap), the call raises [AttributeError] and saves
    nothing. *)
Theorem non_object_line_is_fatal (pre rest : list raw_line) (v : json)
  (input_file output_file : string) (max_papers : option Z) :
  Forall (fun line => wf_line line = true) pre ->
  is_object v = false ->
  truthy_int max_papers = false \/ matching_count pre < default 0 max_papers ->
  fst (filter_cs_papers (pre ++ Parsed v :: rest) input_file output_file max_papers)
  = Raise AttributeError.
Proof.
  intros Hpre Hv Hcap. rewrite filter_unfold, (loop_through _ _ _ Hpre).
  - cbn [loop]. rewrite fst_and_then, (visit_not_object _ _ _ Hv). reflexivity.
  - change (len []) with 0. destruct Hcap as [Hcap|Hcap]; [left; exact Hcap|].
    right. left. lia.
Qed.

(** X4 with a bare list after the first two lines of the small input
    file. *)
Lemma non_object_line_is_fatal_witness :
  Forall (fun line => wf_line line = true) (take 2 Fake.corpus)
  /\ is_object (JArr [JStr "cs.AI"]) = false
  /\ (truthy_int None = false
      \/ matching_count (take 2 Fake.corpus) < default 0 None)
  /\ fst (filter_cs_papers
            (take 2 Fake.corpus ++ Parsed (JArr [JStr "cs.AI"]) :: drop 2 Fake.corpus)
            "in.json" "out.json" None)
     = Raise AttributeError.
Proof.
  assert (Forall (fun line => wf_line line = true) (take 2 Fake.corpus)) as Hwf
    by (repeat constructor).
  split; [exact Hwf|]. split; [reflexivity|]. split; [left; reflexivity|].
  apply (non_object_line_is_fatal (take 2 Fake.corpus) (drop 2 Fake.corpus)
           (JArr [JStr "cs.AI"]) "in.json" "out.json" None);
    [exact Hwf|reflexivity|left; reflexivity].
Defined.

Section FilterAgain.

Lemma cs_strings_strs (cats : list json) :
  forallb cs_string cats = true ->
  forallb is_str cats = true
  /\ map JStr (List.filter cs_tag (strings_of cats)) = cats.
Proof.
  induction cats as [|cat cats IH]; simpl; [split; reflexivity|].
  destruct cat as [| | | |s| |]; simpl; try discriminate.
  intros H. apply andb_true_iff in H as [Hs Hrest].
  destruct (IH Hrest) as [IH1 IH2]. rewrite Hs. simpl. rewrite IH2.
  split; [exact IH1|reflexivity].
Qed.

Lemma dict_get_present (r : dict) (key : string) (dflt : json) :
  key ∈ dom r -> r !! key = Some (dict_get r key dflt).
Proof.
  intros Hin. apply elem_of_dom in Hin as [v Hv]. unfold dict_get.
  rewrite Hv. reflexivity.
Qed.

(** A saved record read back as a paper: of the expected shape, selected,
    and kept as it is. *)
Lemma kept_record_fixed (r : dict) :
  has_schema r -> has_clean_text r ->
  wf_paper (JObj r) = true /\ matches (JObj r) = true /\ extract (JObj r) = r.
Proof.
  intros (Hdom & cats & Hcats & Hne & Hcs) (t & a & Ht & Ha & Hnt & Hna).
  destruct (cs_strings_strs _ Hcs) as [Hstr Hmap].
  split; [|split].
  - simpl. rewrite Hcats, Ht, Ha, Hstr. reflexivity.
  - unfold matches, tags. rewrite Hcats.
    destruct cats as [|[| | | |s| |] cats]; simpl in *; try congruence.
    apply andb_true_iff in Hcs as [-> _]. reflexivity.
  - unfold extract, tags. rewrite Hcats, Hmap.
    unfold dict_get at 2 3. rewrite Ht, Ha. simpl.
    rewrite (clean_fixed _ Hnt), (clean_fixed _ Hna).
    apply map_eq. intros k.
    assert (forall key, key ∈ kept_keys ->
              r !! key = Some (dict_get r key (JStr ""))) as Hget.
    { intros key Hkey. apply dict_get_present. rewrite Hdom. exact Hkey. }
    destruct (decide (k = "id")) as [->|Hid].
    { rewrite lookup_insert_eq. symmetry. apply Hget. unfold kept_keys. set_solver. }
    rewrite lookup_insert_ne by congruence.
    destruct (decide (k = "title")) as [->|Htitle].
    { rewrite lookup_insert_eq. symmetry. exact Ht. }
    rewrite lookup_insert_ne by congruence.
    destruct (decide (k = "abstract")) as [->|Habs].
    { rewrite lookup_insert_eq. symmetry. exact Ha. }
    rewrite lookup_insert_ne by congruence.
    destruct (decide (k = "categories")) as [->|Hcat].
    { rewrite lookup_insert_eq. symmetry. exact Hcats. }
    rewrite lookup_insert_ne by congruence.
    destruct (decide (k = "authors")) as [->|Hauth].
    { rewrite lookup_insert_eq. symmetry. apply Hget. unfold kept_keys. set_solver. }
    rewrite lookup_insert_ne by congruence.
    destruct (decide (k = "update_date")) as [->|Hdate].
    { rewrite lookup_insert_eq. symmetry. apply Hget. unfold kept_keys. set_solver. }
    rewrite lookup_insert_ne by congruence. rewrite lookup_empty. symmetry.
    apply not_elem_of_dom. rewrite Hdom. unfold kept_keys. set_solver.
Qed.

Lemma json_lines_fixed (records : list dict) :
  Forall (fun r => has_schema r /\ has_clean_text r) records ->
  Forall (fun line => wf_line line = true) (json_lines records)
  /\ map extract (matching (json_lines records)) = records
  /\ len (parsed (json_lines records)) = len records.
Proof.
  induction 1 as [|r records [Hs Hc] _ (IH1 & IH2 & IH3)].
  - repeat split. constructor.
  - destruct (kept_record_fixed r Hs Hc) as (Hwf & Hm & Hex).
    split; [constructor; [exact Hwf|exact IH1]|].
    unfold matching in *.
    change (json_lines (r :: records)) with (Parsed (JObj r) :: json_lines records).
    cbn [parsed flat_map app].
    change (flat_map _ (json_lines records)) with (parsed (json_lines records)).
    cbn [List.filter]. rewrite Hm. cbn [map]. rewrite Hex, IH2.
    split; [reflexivity|]. unfold len in *. cbn [length]. lia.
Qed.

Lemma filter_returned (f : list raw_line) (input_file output_file : string)
  (max_papers : option Z) (r : run) :
  fst (filter_cs_papers f input_file output_file max_papers) = Ok r ->
  returned r = len (saved r).
Proof.
  rewrite filter_unfold.
  destruct (fst (loop max_papers _ f)) as [[st rest]|e]; simpl; [|discriminate].
  intros [= <-]. reflexivity.
Qed.

End FilterAgain.

(** X5.  What the filter does to a record is idempotent: the records a
    call saved are left as they are by the filter.  A raw data set in
    JSON Lines that holds them, one object per line, is filtered without
    a cap to the same records, all of them and in the same order.  (The
    file the filter writes is not such a data set: it is one indented
    array.) *)
Theorem saved_records_are_fixed_points (f : list raw_line)
  (input_file output_file : string) (max_papers : option Z) (r : run)
  (again_file again_output : string) :
  fst (filter_cs_papers f input_file output_file max_papers) = Ok r ->
  exists r',
    fst (filter_cs_papers (json_lines (saved r)) again_file again_output None)
    = Ok r'
    /\ saved r' = saved r
    /\ returned r' = returned r
    /\ processed r' = returned r
    /\ unread r' = [].
Proof.
  intros Hrun.
  destruct (json_lines_fixed _ (saved_kept _ _ _ _ _ Hrun)) as (Hwf & Hsame & Hlen).
  pose proof (filter_returned _ _ _ _ _ Hrun) as Hret.
  eexists. split.
  - rewrite filter_unfold, (loop_no_break None _ Hwf) by (left; reflexivity).
    reflexivity.
  - cbn [saved returned processed unread fst snd cs_papers total_processed app].
    rewrite Hsame, Hlen, Hret. repeat split; lia.
Qed.

(** X5 on the small input file. *)
Lemma saved_records_are_fixed_points_witness :
  exists r,
    fst (filter_cs_papers Fake.corpus "in.json" "out.json" None) = Ok r
    /\ exists r',
         fst (filter_cs_papers (json_lines (saved r)) "again.jsonl" "again.json" None)
         = Ok r'
         /\ saved r' = saved r
         /\ returned r' = returned r
         /\ processed r' = returned r
         /\ unread r' = [].
Proof.
  eexists. split; [vm_compute; reflexivity|].
  apply (saved_records_are_fixed_points Fake.corpus "in.json" "out.json" None).
  vm_compute. reflexivity.
Defined.

(** X6.  A negative cap stops the filter at the first record it keeps: on
    papers of the expected shape the output is the first selected paper
    alone, or empty when none is selected, and the lines after that paper
    are left unread. *)
Theorem negative_cap_keeps_one (f : list raw_line)
  (input_file output_file : string) (k : Z) :
  Forall (fun line => wf_line line = true) f ->
  k < 0 ->
  exists r,
    fst (filter_cs_papers f input_file output_file (Some k)) = Ok r
    /\ saved r = map extract (take 1 (matching f))
    /\ len (saved r) = Z.min 1 (matching_count f)
    /\ (matching_count f = 0 -> unread r = [])
    /\ (1 <= matching_count f ->
        exists pre paper,
          f = pre ++ Parsed paper :: unread r
          /\ matching pre = [] /\ matches paper = true).
Proof.
  intros Hwf Hk.
  destruct (Z.lt_ge_cases (matching_count f) 1) as [Hnone|Hsome].
  - assert (matching f = []) as Hnil.
    { apply len_zero_nil. pose proof (len_nonneg (matching f)).
      unfold matching_count in *. lia. }
    assert (fst (loop (Some k) (FilterState [] 0) f)
            = Ok (FilterState ([] ++ map extract (matching f))
                              (0 + len (parsed f)), [])) as Hloop.
    { rewrite <- (app_nil_r f) at 1.
      rewrite (loop_through _ _ _ Hwf) by (right; right; exact Hnil).
      reflexivity. }
    eexists. split; [rewrite filter_unfold, Hloop; reflexivity|].
    + cbn [saved unread fst snd cs_papers]. rewrite Hnil.
      unfold matching_count. rewrite Hnil.
      repeat split; try reflexivity. change (len []) with 0. lia.
  - destruct (split_at_match f 1 ltac:(lia) Hsome)
      as (pre & paper & rest & -> & Hm & Hc).
    apply Forall_app in Hwf as [Hpre Hrest].
    apply Forall_cons in Hrest as [Hpaper _]. simpl in Hpaper.
    assert (matching pre = []) as Hnil.
    { apply len_zero_nil. unfold matching_count in Hc. lia. }
    assert (matching (pre ++ Parsed paper :: rest)
            = paper :: matching rest) as Hall.
    { change (pre ++ Parsed paper :: rest) with (pre ++ [Parsed paper] ++ rest).
      rewrite !matching_app, Hnil. unfold matching at 1. simpl. rewrite Hm.
      reflexivity. }
    eexists. split.
    + rewrite filter_unfold, (loop_through _ _ _ Hpre)
        by (right; right; exact Hnil).
      cbn [loop]. rewrite fst_and_then, (visit_wf _ _ _ Hpaper), Hm.
      assert (forall papers, reached (Some k) papers = true) as ->.
      { intros papers. rewrite reached_len. simpl.
        pose proof (len_nonneg papers).
        apply andb_true_iff. split; [apply negb_true_iff, Z.eqb_neq; lia|].
        apply Z.leb_le. lia. }
      reflexivity.
    + cbn [saved unread fst snd cs_papers]. rewrite Hnil, Hall.
      unfold matching_count. rewrite Hall.
      pose proof (len_nonneg (matching rest)).
      repeat split; try reflexivity.
      * unfold len in *. simpl. lia.
      * unfold len in *. simpl in *. lia.
      * intros _. exists pre, paper. repeat split; assumption.
Qed.

(** X6 on the small input file. *)
Lemma negative_cap_keeps_one_witness :
  Forall (fun line => wf_line line = true) Fake.corpus /\ (-3 < 0) /\
  exists r,
    fst (filter_cs_papers Fake.corpus "in.json" "out.json" (Some (-3))) = Ok r
    /\ saved r = map extract (take 1 (matching Fake.corpus))
    /\ len (saved r) = Z.min 1 (matching_count Fake.corpus)
    /\ (matching_count Fake.corpus = 0 -> unread r = [])
    /\ (1 <= matching_count Fake.corpus ->
        exists pre paper,
          Fake.corpus = pre ++ Parsed paper :: unread r
          /\ matching pre = [] /\ matches paper = true).
Proof.
  split; [exact fake_corpus_wf|]. split; [lia|].
  apply (negative_cap_keeps_one Fake.corpus "in.json" "out.json" (-3));
    [exact fake_corpus_wf|lia].
Defined.

(** ** The embedding batcher, further *)

Section EmbedMore.

Variable encode : list json -> list vector.
Variable embedding_dim : Z.

Lemma generate_embeddings_result (papers : list dict) (model_name : string)
  (batch_size : Z) :
  fst (generate_embeddings encode embedding_dim papers model_name batch_size)
  = bind (batches (map abstract_of papers) batch_size)
         (fun bs => Ok (attach papers (concat (map encode bs)))).
Proof.
  unfold generate_embeddings, and_then, emit, lift, ret.
  change (map (fun paper => dict_get paper "abstract" (JStr "")) papers)
    with (map abstract_of papers).
  destruct (batches (map abstract_of papers) batch_size); reflexivity.
Qed.

Lemma attach_other_keys (papers : list dict) (all_embeddings : list vector)
  i paper' :
  attach papers all_embeddings !! i = Some paper' ->
  exists paper,
    papers !! i = Some paper
    /\ forall key, key <> "abstract_vector" -> paper' !! key = paper !! key.
Proof.
  intros Hi. pose proof (lookup_lt_Some _ _ _ Hi) as Hlt.
  rewrite attach_length in Hlt.
  destruct (lookup_lt_is_Some_2 papers i Hlt) as [paper Hp].
  exists paper. split; [exact Hp|]. intros key Hkey.
  rewrite (attach_lookup _ _ _ _ Hp) in Hi. injection Hi as <-.
  destruct (all_embeddings !! i); [|reflexivity].
  apply lookup_insert_ne. congruence.
Qed.

End EmbedMore.

Lemma batches_not_positive {A} (xs : list A) (b : Z) :
  b <= 0 -> batches xs b = if b =? 0 then Raise ValueError else Ok [].
Proof.
  intros Hb. unfold batches, range.
  destruct (b =? 0) eqn:E0; [reflexivity|]. apply Z.eqb_neq in E0.
  destruct (0 <? b) eqn:E1; [apply Z.ltb_lt in E1; lia|].
  replace (Z.to_nat (0 - len xs)) with 0%nat by (unfold len; lia).
  reflexivity.
Qed.

(** X7.  Whenever the embedding stage returns, it returns as many papers
    as it was given, in the same order, and each differs from the paper
    given at most under the key [abstract_vector]. *)
Theorem embedding_keeps_other_fields (encode : list json -> list vector)
  (embedding_dim : Z) (papers : list dict) (model_name : string)
  (batch_size : Z) (out : list dict) :
  fst (generate_embeddings encode embedding_dim papers model_name batch_size)
  = Ok out ->
  length out = length papers
  /\ forall i paper',
       out !! i = Some paper' ->
       exists paper,
         papers !! i = Some paper
         /\ forall key, key <> "abstract_vector" -> paper' !! key = paper !! key.
Proof.
  rewrite generate_embeddings_result.
  destruct (batches _ _) as [bs|e]; simpl; [|discriminate]. intros [= <-].
  split; [apply attach_length|]. intros i paper'. apply attach_other_keys.
Qed.

(** X7 with the service that answers every batch with one vector. *)
Lemma embedding_keeps_other_fields_witness :
  exists out,
    fst (generate_embeddings Fake.encode_first 1 Fake.three_papers
           "all-MiniLM-L6-v2" 2) = Ok out
    /\ length out = length Fake.three_papers
    /\ forall i paper',
         out !! i = Some paper' ->
         exists paper,
           Fake.three_papers !! i = Some paper
           /\ forall key, key <> "abstract_vector" -> paper' !! key = paper !! key.
Proof.
  eexists. split; [vm_compute; reflexivity|].
  apply (embedding_keeps_other_fields Fake.encode_first 1 Fake.three_papers
           "all-MiniLM-L6-v2" 2).
  vm_compute. reflexivity.
Defined.

Lemma attach_each (f : json -> vector) (papers : list dict) :
  attach papers (map f (map abstract_of papers))
  = map (fun paper =>
           <["abstract_vector" := tolist (f (abstract_of paper))]> paper) papers.
Proof.
  induction papers as [|paper papers IH]; simpl; [reflexivity|].
  rewrite IH. reflexivity.
Qed.

(** X8.  When the service embeds each text on its own, the batch size has
    no influence on the result: for every positive batch size each paper
    receives the vector of its own abstract. *)
Theorem batch_size_does_not_change_embeddings (f : json -> vector)
  (embedding_dim : Z) (papers : list dict) (model_name : string) (batch_size : Z) :
  0 < batch_size ->
  fst (generate_embeddings (map f) embedding_dim papers model_name batch_size)
  = Ok (map (fun paper =>
               <["abstract_vector" := tolist (f (abstract_of paper))]> paper)
            papers).
Proof.
  intros Hb. rewrite generate_embeddings_result.
  destruct (batches_cover (map abstract_of papers) batch_size Hb)
    as (bs & -> & Hcat).
  simpl. rewrite <- concat_map, Hcat, attach_each. reflexivity.
Qed.

(** X8 on three papers in batches of two. *)
Lemma batch_size_does_not_change_embeddings_witness :
  (0 < 2) /\
  fst (generate_embeddings (map (fun text => [7; 7])) 2 Fake.three_papers
         "all-MiniLM-L6-v2" 2)
  = Ok (map (fun paper =>
               <["abstract_vector" := tolist ((fun text => [7; 7]) (abstract_of paper))]>
                 paper)
            Fake.three_papers).
Proof.
  split; [lia|].
  apply (batch_size_does_not_change_embeddings (fun text => [7; 7]) 2
           Fake.three_papers "all-MiniLM-L6-v2" 2).
  lia.
Defined.

(** X9.  A batch size that is not positive is not rejected as such: with
    0 the stage raises the [ValueError] of [range]; with a negative size
    it never calls the service and returns the papers as they were,
    without any vector attached. *)
Theorem embedding_batch_size_not_positive (encode : list json -> list vector)
  (embedding_dim : Z) (papers : list dict) (model_name : string) (batch_size : Z) :
  batch_size <= 0 ->
  fst (generate_embeddings encode embedding_dim papers model_name batch_size)
  = if batch_size =? 0 then Raise ValueError else Ok papers.
Proof.
  intros Hb. rewrite generate_embeddings_result, (batches_not_positive _ _ Hb).
  destruct (batch_size =? 0); [reflexivity|]. simpl.
  destruct papers; reflexivity.
Qed.

(** X9 with a batch size of -1. *)
Lemma embedding_batch_size_not_positive_witness :
  (-1 <= 0) /\
  fst (generate_embeddings Fake.encode_each 1 Fake.three_papers
         "all-MiniLM-L6-v2" (-1))
  = if -1 =? 0 then Raise ValueError else Ok Fake.three_papers.
Proof.
  split; [lia|].
  apply (embedding_batch_size_not_positive Fake.encode_each 1 Fake.three_papers
           "all-MiniLM-L6-v2" (-1)).
  lia.
Defined.

Lemma path_join_name (a b b' : string) :
  path_join a b = path_join a b' -> b = b'.
Proof.
  unfold path_join.
  destruct (String.rev a) as [|[[] [] [] [] [] [] [] []] r]; try exact id;
    intros H; repeat apply String.app_inj in H; exact H.
Qed.

Lemma generate_embeddings_length (encode : list json -> list vector)
  (embedding_dim : Z) (papers : list dict) (model_name : string)
  (batch_size : Z) (out : list dict) :
  fst (generate_embeddings encode embedding_dim papers model_name batch_size)
  = Ok out ->
  length out = length papers.
Proof.
  rewrite generate_embeddings_result.
  destruct (batches _ _) as [bs|e]; simpl; [|discriminate]. intros [= <-].
  apply attach_length.
Qed.

(** X10.  Whatever its environment, the files and the answer at the
    prompt, [main] of the embedding stage writes no file but
    cs_papers_with_embeddings.json, and leaves cs_papers.json as it is:
    either no file changes at all (and this is so whenever [main] ends
    with an exception), or the output file now holds as many papers as
    the input file and [main] ended normally. *)
Theorem embed_main_writes_output_only (encode : list json -> list vector)
  (embedding_dim : Z) (file_size_mb : list dict -> Z)
  (int : string -> result Z) (response : string)
  (environ : gmap string string) (fs : gmap string (list dict)) :
  let data_dir := getenv environ "DATA_DIR" "./data" in
  let input_file := path_join data_dir "cs_papers.json" in
  let output_file := path_join data_dir "cs_papers_with_embeddings.json" in
  let result := GenerateEmbeddings.main encode embedding_dim file_size_mb int
                  response environ fs in
  let fs' := snd (fst result) in
  (forall path, path <> output_file -> fs' !! path = fs !! path)
  /\ fs' !! input_file = fs !! input_file
  /\ (fs' = fs
      \/ exists papers out,
           fs !! input_file = Some papers
           /\ fs' = <[output_file := out]> fs
           /\ length out = length papers
           /\ fst (fst result) = Ok tt)
  /\ (forall e, fst (fst result) = Raise e -> fs' = fs).
Proof.
  cbv zeta.
  set (data_dir := getenv environ "DATA_DIR" "./data").
  set (input_file := path_join data_dir "cs_papers.json").
  set (output_file := path_join data_dir "cs_papers_with_embeddings.json").
  assert (input_file <> output_file) as Hne.
  { intros H. apply path_join_name in H. discriminate. }
  assert (forall result : result unit * gmap string (list dict) * list log_record,
            (snd (fst result) = fs
             \/ exists papers out,
                  fs !! input_file = Some papers
                  /\ snd (fst result) = <[output_file := out]> fs
                  /\ length out = length papers
                  /\ fst (fst result) = Ok tt) ->
            (forall path, path <> output_file ->
                          snd (fst result) !! path = fs !! path)
            /\ snd (fst result) !! input_file = fs !! input_file
            /\ (snd (fst result) = fs
                \/ exists papers out,
                     fs !! input_file = Some papers
                     /\ snd (fst result) = <[output_file := out]> fs
                     /\ length out = length papers
                     /\ fst (fst result) = Ok tt)
            /\ (forall e, fst (fst result) = Raise e -> snd (fst result) = fs))
    as Hframe.
  { intros result H. split; [|split; [|split; [exact H|]]].
    - intros path Hpath. destruct H as [->|(papers & out & _ & -> & _)];
        [reflexivity|]. apply lookup_insert_ne. congruence.
    - destruct H as [->|(papers & out & _ & -> & _)]; [reflexivity|].
      apply lookup_insert_ne. congruence.
    - intros e He. destruct H as [H|(papers & out & _ & _ & _ & Hok)];
        [exact H|congruence]. }
  apply Hframe. unfold GenerateEmbeddings.main.
  fold data_dir. fold input_file. fold output_file.
  destruct (int _) as [batch_size|e]; [|left; reflexivity].
  destruct (fs !! input_file) as [papers|] eqn:Hin; [|left; reflexivity].
  destruct (match fs !! output_file with
            | Some _ => negb (String.eqb (lower response) "y")
            | None => false
            end); [left; reflexivity|].
  unfold GenerateEmbeddings.load_papers, and_then, emit, lift, ret.
  rewrite Hin. cbn [fst snd].
  destruct (generate_embeddings encode embedding_dim papers _ batch_size)
    as [[out|e] l] eqn:Hgen; cbn [fst snd]; [|left; reflexivity].
  right. exists papers, out. repeat split.
  apply (generate_embeddings_length encode embedding_dim papers
           (getenv environ "EMBEDDING_MODEL" "all-MiniLM-L6-v2") batch_size).
  rewrite Hgen. reflexivity.
Qed.

(** ** The bulk loader, further *)

Lemma action_of_source (index_name : string) (paper : dict) :
  exists source,
    action_of index_name paper !! "_source" = Some (JObj source)
    /\ dom source
       = {["paper_id"; "title"; "abstract"; "categories"; "authors";
           "update_date"; "abstract_vector"]}
    /\ source !! "paper_id" = Some (dict_get paper "id" (JStr ""))
    /\ source !! "categories" = Some (dict_get paper "categories" (JArr []))
    /\ source !! "abstract_vector"
       = Some (dict_get paper "abstract_vector" (JArr [])).
Proof.
  unfold action_of. eexists. split.
  { rewrite !(lookup_insert_ne _ _ "_source") by done. apply lookup_insert_eq. }
  split; [rewrite !dom_insert_L, dom_empty_L; set_solver|].
  split; [apply lookup_insert_eq|].
  split.
  - rewrite !(lookup_insert_ne _ _ "categories") by done. apply lookup_insert_eq.
  - rewrite !(lookup_insert_ne _ _ "abstract_vector") by done.
    apply lookup_insert_eq.
Qed.

(** X11.  [generate_actions] yields one action per paper, in order; an
    action has the keys [_index], [_id] and [_source] and no other,
    targets the index given, and carries the id of the paper both as
    [_id] and as [paper_id] of its source, the empty string standing for
    an id that is missing; the source has its seven keys whatever the
    paper lacks, with the empty list for missing categories or a missing
    vector. *)
Theorem actions_mirror_papers (papers : list dict) (index_name : string) :
  length (generate_actions papers index_name) = length papers
  /\ forall i paper,
       papers !! i = Some paper ->
       exists action source,
         generate_actions papers index_name !! i = Some action
         /\ dom action = {["_index"; "_id"; "_source"]}
         /\ action !! "_index" = Some (JStr index_name)
         /\ action !! "_id" = Some (default (JStr "") (paper !! "id"))
         /\ action !! "_source" = Some (JObj source)
         /\ source !! "paper_id" = action !! "_id"
         /\ dom source
            = {["paper_id"; "title"; "abstract"; "categories"; "authors";
                "update_date"; "abstract_vector"]}
         /\ source !! "categories" = Some (default (JArr []) (paper !! "categories"))
         /\ source !! "abstract_vector"
            = Some (default (JArr []) (paper !! "abstract_vector")).
Proof.
  split; [apply length_map|]. intros i paper Hi.
  destruct (action_of_source index_name paper)
    as (source & Hsrc & Hdom & Hid & Hcat & Hvec).
  exists (action_of index_name paper), source.
  split; [unfold generate_actions; rewrite list_lookup_fmap, Hi; reflexivity|].
  assert (action_of index_name paper !! "_id"
          = Some (default (JStr "") (paper !! "id"))) as Hkey.
  { unfold action_of. rewrite (lookup_insert_ne _ _ "_id") by done.
    apply lookup_insert_eq. }
  split; [unfold action_of; rewrite !dom_insert_L, dom_empty_L; set_solver|].
  split; [apply lookup_insert_eq|].
  split; [exact Hkey|]. split; [exact Hsrc|].
  split; [rewrite Hkey; exact Hid|].
  repeat split; assumption.
Qed.

Section LoaderMore.

Context {Client : Type}.
Variable bulk : Client -> list dict -> Client * bulk_reply.
Variable indices_refresh : Client -> string -> Client * result unit.
Variable index_name : string.

Lemma batches_bounded {A} (xs : list A) (b : Z) bs :
  0 < b -> batches xs b = Ok bs ->
  Forall (fun batch => 1 <= len batch <= b) bs.
Proof.
  intros Hb Hbs. apply Forall_lookup. intros k batch Hk.
  rewrite (batches_size xs b Hb bs k batch Hbs Hk).
  pose proof (Z.mod_pos_bound (len xs) b Hb).
  destruct (Z.of_nat k + 1 <? len bs); [lia|].
  destruct (len xs mod b =? 0) eqn:E; [lia|]. apply Z.eqb_neq in E. lia.
Qed.

Lemma bulk_index_papers_unfold (c : Client) (papers : list dict) (b : Z) :
  bulk_index_papers bulk indices_refresh c papers index_name b
  = match bulk_index_loop bulk c papers index_name b with
    | (Raise e, l) => (c, (Raise e, l))
    | (Ok st, l) =>
        (fst (indices_refresh (client st) index_name),
         (match snd (indices_refresh (client st) index_name) with
          | Ok _ => Ok (total_indexed st)
          | Raise e => Raise e
          end, l))
    end.
Proof.
  unfold bulk_index_papers.
  destruct (bulk_index_loop bulk c papers index_name b) as [[st|e] l];
    [|reflexivity].
  destruct (indices_refresh (client st) index_name) as [c' [[]|e]]; reflexivity.
Qed.

End LoaderMore.

(** X12.  With a positive batch size the loader sends to the bulk helper
    the actions of all the papers, in order and each once, cut into
    [ceil(n / batch_size)] requests: the cluster after the loop is the
    cluster after these requests, none of which is empty or carries more
    than [batch_size] actions. *)
Theorem requests_are_bounded {Client}
  (bulk : Client -> list dict -> Client * bulk_reply)
  (c : Client) (papers : list dict) (index_name : string) (batch_size : Z) :
  0 < batch_size ->
  exists requests st l,
    bulk_index_loop bulk c papers index_name batch_size = (Ok st, l)
    /\ client st = fst (served bulk c requests)
    /\ calls st = zip requests (snd (served bulk c requests))
    /\ concat requests = generate_actions papers index_name
    /\ Forall (fun actions => 1 <= len actions <= batch_size) requests
    /\ len requests = ceil_div (len papers) batch_size.
Proof.
  intros Hb.
  destruct (batches_cover papers batch_size Hb) as (bs & Hbs & Hcat).
  exists (map (fun batch => generate_actions batch index_name) bs).
  eexists _, _. split; [apply bulk_index_loop_unfold; exact Hbs|].
  set (st := fold_left _ _ _).
  destruct (fold_served bulk index_name bs (LoadState c 0 0 [] [])) as [Hclient Hcalls].
  fold st in Hclient, Hcalls. cbn [client calls app] in Hclient, Hcalls.
  pose proof (batches_bounded papers batch_size bs Hb Hbs) as Hbound.
  split; [exact Hclient|]. split; [exact Hcalls|]. split; [|split].
  - rewrite <- Hcat. unfold generate_actions.
    clear. induction bs as [|batch bs IH]; [reflexivity|].
    cbn [map concat]. rewrite map_app, IH. reflexivity.
  - apply Forall_fmap. eapply Forall_impl; [exact Hbound|].
    intros batch H. simpl. rewrite generate_actions_len. exact H.
  - rewrite <- (batches_count papers batch_size Hb bs Hbs).
    unfold len. rewrite length_map. reflexivity.
Qed.

(** X12 on twelve papers in batches of five. *)
Lemma requests_are_bounded_witness :
  (0 < 5) /\
  exists requests st l,
    bulk_index_loop Fake.bulk 0%nat Fake.papers "arxiv-papers" 5 = (Ok st, l)
    /\ client st = fst (served Fake.bulk 0%nat requests)
    /\ calls st = zip requests (snd (served Fake.bulk 0%nat requests))
    /\ concat requests = generate_actions Fake.papers "arxiv-papers"
    /\ Forall (fun actions => 1 <= len actions <= 5) requests
    /\ len requests = ceil_div (len Fake.papers) 5.
Proof.
  split; [lia|].
  apply (requests_are_bounded Fake.bulk 0%nat Fake.papers "arxiv-papers" 5). lia.
Defined.

(** X13.  A batch size that is not positive is not rejected as such.  With
    0 the loader raises the [ValueError] of [range] before it contacts
    the cluster.  With a negative size it sends no request at all,
    refreshes the index, logs that 0 documents were indexed with 0 errors
    and returns 0, however many papers it was given. *)
Theorem loader_batch_size_not_positive {Client}
  (bulk : Client -> list dict -> Client * bulk_reply)
  (indices_refresh : Client -> string -> Client * result unit)
  (c : Client) (papers : list dict) (index_name : string) (batch_size : Z) :
  batch_size <= 0 ->
  bulk_index_papers bulk indices_refresh c papers index_name batch_size
  = if batch_size =? 0
    then (c, (Raise ValueError,
              [Log INFO "Indexing {} papers into '{}'..."
                   [Int (len papers); Str index_name]]))
    else (fst (indices_refresh c index_name),
          (match snd (indices_refresh c index_name) with
           | Ok _ => Ok 0
           | Raise e => Raise e
           end,
           [Log INFO "Indexing {} papers into '{}'..."
                [Int (len papers); Str index_name];
            Log INFO "Indexed {} documents, {} errors" [Int 0; Int 0]])).
Proof.
  intros Hb. rewrite bulk_index_papers_unfold.
  unfold bulk_index_loop, and_then, emit, lift.
  rewrite (batches_not_positive _ _ Hb).
  destruct (batch_size =? 0); reflexivity.
Qed.

(** X13 with a batch size of -500. *)
Lemma loader_batch_size_not_positive_witness :
  (-500 <= 0) /\
  bulk_index_papers Fake.bulk Fake.indices_refresh 0%nat Fake.papers
    "arxiv-papers" (-500)
  = (0%nat,
     (Ok 0,
      [Log INFO "Indexing {} papers into '{}'..." [Int 12; Str "arxiv-papers"];
       Log INFO "Indexed {} documents, {} errors" [Int 0; Int 0]])).
Proof.
  split; [lia|].
  apply (loader_batch_size_not_positive Fake.bulk Fake.indices_refresh 0%nat
           Fake.papers "arxiv-papers" (-500)).
  lia.
Defined.

(** X14.  With a positive batch size the loader sends the batches to the
    bulk helper, refreshes the index once, on the cluster as the last
    batch left it, and returns the sum of the success counts of the
    replies the helper gave; when the refresh raises, the exception
    leaves the loader and the count is lost, the requests having been
    made. *)
Theorem loader_returns_indexed_count {Client}
  (bulk : Client -> list dict -> Client * bulk_reply)
  (indices_refresh : Client -> string -> Client * result unit)
  (c : Client) (papers : list dict) (index_name : string) (batch_size : Z) :
  0 < batch_size ->
  exists bs l,
    batches papers batch_size = Ok bs
    /\ let requests := map (fun batch => generate_actions batch index_name) bs in
       let after := served bulk c requests in
       bulk_index_papers bulk indices_refresh c papers index_name batch_size
       = (fst (indices_refresh (fst after) index_name),
          (match snd (indices_refresh (fst after) index_name) with
           | Ok _ => Ok (total indexed_by (zip requests (snd after)))
           | Raise e => Raise e
           end, l)).
Proof.
  intros Hb.
  destruct (batches_cover papers batch_size Hb) as (bs & Hbs & _).
  exists bs. eexists. split; [exact Hbs|]. cbv zeta.
  rewrite bulk_index_papers_unfold, (bulk_index_loop_unfold bulk index_name c papers
                                       batch_size bs Hbs).
  set (st := fold_left _ _ _).
  destruct (fold_totals bulk index_name bs (LoadState c 0 0 [] []) eq_refl eq_refl)
    as [Hi _]. fold st in Hi.
  destruct (fold_served bulk index_name bs (LoadState c 0 0 [] [])) as [Hclient Hcalls].
  fold st in Hclient, Hcalls. cbn [client calls app] in Hclient, Hcalls.
  rewrite Hi, Hcalls, Hclient. reflexivity.
Qed.

(** X14 on twelve papers in batches of two. *)
Lemma loader_returns_indexed_count_witness :
  (0 < 2) /\
  exists bs l,
    batches Fake.papers 2 = Ok bs
    /\ let requests := map (fun batch => generate_actions batch "arxiv-papers") bs in
       let after := served Fake.bulk 0%nat requests in
       bulk_index_papers Fake.bulk Fake.indices_refresh 0%nat Fake.papers
         "arxiv-papers" 2
       = (fst (Fake.indices_refresh (fst after) "arxiv-papers"),
          (match snd (Fake.indices_refresh (fst after) "arxiv-papers") with
           | Ok _ => Ok (total indexed_by (zip requests (snd after)))
           | Raise e => Raise e
           end, l)).
Proof.
  split; [lia|].
  apply (loader_returns_indexed_count Fake.bulk Fake.indices_refresh 0%nat
           Fake.papers "arxiv-papers" 2).
  lia.
Defined.

(** The same call, computed: five documents indexed, on a cluster that
    received six requests. *)
Example loader_returns_five :
  fst (bulk_index_papers Fake.bulk Fake.indices_refresh 0%nat Fake.papers
         "arxiv-papers" 2) = 6%nat
  /\ fst (snd (bulk_index_papers Fake.bulk Fake.indices_refresh 0%nat Fake.papers
                 "arxiv-papers" 2)) = Ok 5.
Proof. split; reflexivity. Qed.

(** X15.  From the embedder to the loader: for the papers as
    [generate_embeddings] attaches vectors to them, the action of a paper
    carries the vector attached to it, and a paper that came without a
    vector and received none is sent with the empty list for a vector. *)
Theorem unembedded_paper_is_sent_with_empty_vector (papers : list dict)
  (all_embeddings : list vector) (index_name : string) i paper :
  papers !! i = Some paper ->
  exists action source,
    generate_actions (attach papers all_embeddings) index_name !! i = Some action
    /\ action !! "_source" = Some (JObj source)
    /\ source !! "abstract_vector"
       = Some (match all_embeddings !! i with
               | Some v => tolist v
               | None => default (JArr []) (paper !! "abstract_vector")
               end).
Proof.
  intros Hi.
  set (paper' := match all_embeddings !! i with
                 | Some v => <["abstract_vector" := tolist v]> paper
                 | None => paper
                 end).
  destruct (action_of_source index_name paper')
    as (source & Hsrc & _ & _ & _ & Hvec).
  exists (action_of index_name paper'), source.
  split; [|split; [exact Hsrc|]].
  - unfold generate_actions.
    rewrite list_lookup_fmap, (attach_lookup _ _ _ _ Hi). reflexivity.
  - rewrite Hvec. unfold paper', dict_get.
    destruct (all_embeddings !! i); [|reflexivity].
    rewrite lookup_insert_eq. reflexivity.
Qed.

(** X15 on the third of three papers, two vectors having come back. *)
Lemma unembedded_paper_is_sent_with_empty_vector_witness :
  Fake.three_papers !! 2%nat = Some (Fake.with_abstract "z" "ccc") /\
  exists action source,
    generate_actions (attach Fake.three_papers [[1]; [3]]) "arxiv-papers" !! 2%nat
    = Some action
    /\ action !! "_source" = Some (JObj source)
    /\ source !! "abstract_vector"
       = Some (match [[1]; [3]] !! 2%nat with
               | Some v => tolist v
               | None => default (JArr [])
                           (Fake.with_abstract "z" "ccc" !! "abstract_vector")
               end).
Proof.
  split; [reflexivity|].
  apply (unembedded_paper_is_sent_with_empty_vector Fake.three_papers [[1]; [3]]
           "arxiv-papers" 2%nat (Fake.with_abstract "z" "ccc")).
  reflexivity.
Defined.

(** ** The sample data set and [main] of the download stage *)

Import DownloadMain.

Example sample_paper_123 :
  sample_paper 123
  = <["id" := JStr "2001.00123"]>
    (<["title" := JStr "Advances in Distributed Systems: A Study of Consensus and Replication"]>
    (<["abstract" := JStr (sample_abstract ("distributed systems", "consensus", "replication"))]>
    (<["categories" := JArr [JStr "cs.LG"]]>
    (<["authors" := JStr "Author 4, Author 5, Author 1"]>
    (<["update_date" := JStr "2023-04-12"]> ∅))))).
Proof. vm_compute. reflexivity. Qed.

Section SampleFacts.

Lemma range_up_unit (fuel : nat) (i stop : Z) :
  stop - i <= Z.of_nat fuel ->
  range_up fuel i stop 1
  = map (fun k => i + Z.of_nat k) (seq 0 (Z.to_nat (stop - i))).
Proof.
  revert i. induction fuel as [|fuel IH]; intros i Hfuel; simpl.
  - replace (Z.to_nat (stop - i)) with 0%nat by lia. reflexivity.
  - destruct (i <? stop) eqn:E.
    + apply Z.ltb_lt in E. rewrite IH by lia.
      replace (Z.to_nat (stop - i)) with (S (Z.to_nat (stop - (i + 1)))) by lia.
      simpl. rewrite Z.add_0_r. f_equal.
      rewrite <- seq_shift, map_map. apply map_ext. intros k. lia.
    + apply Z.ltb_ge in E.
      replace (Z.to_nat (stop - i)) with 0%nat by lia. reflexivity.
Qed.

Lemma sample_papers_seq (n : Z) :
  sample_papers n = map (fun k => sample_paper (Z.of_nat k)) (seq 0 (Z.to_nat n)).
Proof.
  unfold sample_papers. rewrite range_up_unit by lia.
  rewrite Z.sub_0_r, map_map. reflexivity.
Qed.

Lemma sample_papers_in (n : Z) (paper : dict) :
  In paper (sample_papers n) -> exists i, 0 <= i < n /\ paper = sample_paper i.
Proof.
  rewrite sample_papers_seq, in_map_iff. intros (k & <- & Hk).
  apply in_seq in Hk. exists (Z.of_nat k). split; [lia|reflexivity].
Qed.

Lemma tables_ok : forallb table_ok (seq 0 10) = true.
Proof. vm_compute. reflexivity. Qed.

Lemma sample_paper_kept (i : Z) :
  has_schema (sample_paper i) /\ has_clean_text (sample_paper i)
  /\ exists category,
       sample_paper i !! "categories" = Some (JArr [JStr category])
       /\ In category cs_categories.
Proof.
  unfold sample_paper. change (len topics) with 10. change (len cs_categories) with 10.
  pose proof (Z.mod_pos_bound i 10 ltac:(lia)) as Hk.
  set (k := Z.to_nat (i mod 10)).
  assert (In k (seq 0 10)) as Hin by (apply in_seq; lia).
  pose proof (proj1 (forallb_forall _ _) tables_ok k Hin) as Hok.
  unfold table_ok in Hok.
  apply andb_true_iff in Hok as [Hok Hcs]. apply andb_true_iff in Hok as [Ht Ha].
  cbv zeta. set (topic := nth k topics ("", "", "")) in *.
  set (category := nth k cs_categories "") in *.
  assert ((<["id" := JStr (sample_id i)]>
           (<["title" := JStr (sample_title topic)]>
           (<["abstract" := JStr (sample_abstract topic)]>
           (<["categories" := JArr [JStr category]]>
           (<["authors" := JStr (sample_authors i)]>
           (<["update_date" := JStr (sample_date i)]> (∅ : dict)))))))
           !! "categories" = Some (JArr [JStr category])) as Hcat.
  { rewrite !(lookup_insert_ne _ _ "categories") by done. apply lookup_insert_eq. }
  split; [|split].
  - split; [rewrite !dom_insert_L, dom_empty_L; unfold kept_keys; set_solver|].
    exists [JStr category]. split; [exact Hcat|]. split; [discriminate|].
    simpl. rewrite Hcs. reflexivity.
  - exists (sample_title topic), (sample_abstract topic).
    split; [|split; [|split; assumption]].
    + rewrite (lookup_insert_ne _ _ "title") by done. apply lookup_insert_eq.
    + rewrite !(lookup_insert_ne _ _ "abstract") by done. apply lookup_insert_eq.
  - exists category. split; [exact Hcat|].
    apply nth_In. change (length cs_categories) with 10%nat. lia.
Qed.

End SampleFacts.

(** X16.  [create_sample_dataset] writes [max(0, num_samples)] papers, the
    paper of index [k] at position [k], and touches no other file; the
    value it returns, and the number its two log records give, is
    [num_samples] itself, also when that is negative and the file written
    is empty. *)
Theorem sample_dataset_size (fs : gmap string (list dict)) (output_file : string)
  (num_samples : Z) :
  let created := create_sample_dataset fs output_file num_samples in
  fst (snd created) = Ok num_samples
  /\ snd (snd created)
     = [Log INFO "Creating sample dataset with {} papers..." [Int num_samples];
        Log INFO "Created sample dataset with {} papers at {}"
            [Int num_samples; Str output_file]]
  /\ (exists papers,
        fst created !! output_file = Some papers
        /\ len papers = Z.max 0 num_samples
        /\ forall k, 0 <= k < num_samples ->
                     papers !! Z.to_nat k = Some (sample_paper k))
  /\ forall path, path <> output_file -> fst created !! path = fs !! path.
Proof.
  cbv zeta. unfold create_sample_dataset. cbn [fst snd].
  split; [reflexivity|]. split; [reflexivity|]. split.
  - exists (sample_papers num_samples). split; [apply lookup_insert_eq|].
    rewrite sample_papers_seq. split.
    + unfold len. rewrite length_map, length_seq. lia.
    + intros k Hk. rewrite list_lookup_fmap, lookup_seq_lt by lia.
      simpl. rewrite Z2Nat.id by lia. reflexivity.
  - intros path Hpath. apply lookup_insert_ne. congruence.
Qed.

(** X17.  Every paper of a sample data set has the shape of the records
    the filter saves: the six keys and no other, a title and an abstract
    that are strings without a newline and without a blank at either
    end, and for categories a list of one string, taken from the table of
    categories, which starts with [cs.]. *)
Theorem sample_papers_have_the_saved_shape (num_samples : Z) (paper : dict) :
  In paper (sample_papers num_samples) ->
  dom paper = kept_keys
  /\ (exists title abstract,
        paper !! "title" = Some (JStr title)
        /\ paper !! "abstract" = Some (JStr abstract)
        /\ normalised title = true /\ normalised abstract = true)
  /\ exists category,
       paper !! "categories" = Some (JArr [JStr category])
       /\ In category cs_categories /\ cs_tag category = true.
Proof.
  intros Hin. apply sample_papers_in in Hin as (i & _ & ->).
  destruct (sample_paper_kept i) as ((Hdom & cats & Hcats & _ & Hcs) & Hclean
                                      & category & Hcat & Hin).
  split; [exact Hdom|]. split; [exact Hclean|].
  exists category. split; [exact Hcat|]. split; [exact Hin|].
  rewrite Hcat in Hcats. injection Hcats as <-. simpl in Hcs.
  apply andb_true_iff in Hcs as [Hcs _]. exact Hcs.
Qed.

(** X17 on the second of three sample papers. *)
Lemma sample_papers_have_the_saved_shape_witness :
  In (sample_paper 1) (sample_papers 3)
  /\ sample_paper 1 !! "categories" = Some (JArr [JStr "cs.CL"]).
Proof.
  assert (In (sample_paper 1) (sample_papers 3)) as Hin
    by (right; left; reflexivity).
  split; [exact Hin|].
  destruct (sample_papers_have_the_saved_shape 3 (sample_paper 1) Hin)
    as (_ & _ & category & Hcat & _).
  rewrite Hcat. f_equal. f_equal.
  assert (sample_paper 1 !! "categories" = Some (JArr [JStr "cs.CL"])) as Hone
    by (vm_compute; reflexivity).
  rewrite Hone in Hcat. injection Hcat as <-. reflexivity.
Defined.

Section SampleIds.

Lemma number_of_zero (s : string) :
  number_of (String "0" s) = number_of s.
Proof.
  unfold number_of. simpl.
  destruct (NilEmpty.uint_of_string s); reflexivity.
Qed.

Lemma number_of_zeros (k : nat) (s : string) :
  number_of (zeros k +:+ s) = number_of s.
Proof.
  induction k as [|k IH]; [reflexivity|].
  simpl zeros. rewrite append_cons, number_of_zero. exact IH.
Qed.

Lemma number_of_str (n : Z) : 0 <= n -> number_of (str n) = Some n.
Proof.
  intros Hn. unfold number_of, str.
  pose proof (DecimalZ.of_to n) as Hback.
  destruct n as [|p|p]; [reflexivity| |lia].
  simpl Z.to_int in *. simpl NilZero.string_of_int.
  destruct (Pos.to_uint p) as [|d|d|d|d|d|d|d|d|d|d] eqn:E;
    try (unfold NilZero.string_of_uint; rewrite NilEmpty.usu; simpl;
         simpl in Hback; congruence).
  simpl in Hback. discriminate.
Qed.

Lemma number_of_format (width : nat) (n : Z) :
  0 <= n -> number_of (format_0d width n) = Some n.
Proof.
  intros Hn. unfold format_0d.
  replace (n <? 0) with false by (symmetry; apply Z.ltb_ge; lia).
  rewrite Z.abs_eq by lia. simpl String.length.
  change ("" +:+ ?s) with s. rewrite number_of_zeros. apply number_of_str, Hn.
Qed.

Lemma has_char_append (c : ascii) (s t : string) :
  has_char c (s +:+ t) = has_char c s || has_char c t.
Proof.
  induction s as [|a s IH]; [reflexivity|].
  rewrite append_cons. simpl. rewrite IH. apply orb_assoc.
Qed.

Lemma has_dot_zeros (k : nat) : has_char "." (zeros k) = false.
Proof. induction k as [|k IH]; [reflexivity|]. simpl. exact IH. Qed.

Lemma has_dot_uint (d : Decimal.uint) :
  has_char "." (NilEmpty.string_of_uint d) = false.
Proof. induction d; simpl; assumption || reflexivity. Qed.

Lemma has_dot_format (width : nat) (n : Z) :
  0 <= n -> has_char "." (format_0d width n) = false.
Proof.
  intros Hn. unfold format_0d.
  replace (n <? 0) with false by (symmetry; apply Z.ltb_ge; lia).
  change ("" +:+ ?s) with s.
  rewrite has_char_append, has_dot_zeros. simpl. unfold str.
  destruct (Z.abs n) as [|p|p] eqn:E; [reflexivity| |lia].
  simpl. destruct (Pos.to_uint p); try reflexivity; simpl; apply has_dot_uint.
Qed.

Lemma split_at_dot (a a' b b' : string) :
  has_char "." a = false -> has_char "." a' = false ->
  a +:+ "." +:+ b = a' +:+ "." +:+ b' -> a = a' /\ b = b'.
Proof.
  revert a'. induction a as [|c a IH]; intros [|c' a'] Ha Ha' Heq.
  - change ("" +:+ ?s) with s in Heq. rewrite !append_cons in Heq.
    injection Heq as Heq. split; [reflexivity|exact Heq].
  - change ("" +:+ ?s) with s in Heq. rewrite !append_cons in Heq.
    injection Heq as Hc _. subst c'. simpl in Ha'. discriminate.
  - change ("" +:+ ?s) with s in Heq. rewrite !append_cons in Heq.
    injection Heq as Hc _. subst c. simpl in Ha. discriminate.
  - rewrite !append_cons in Heq. injection Heq as Hc Heq. subst c'.
    simpl in Ha, Ha'. apply orb_false_iff in Ha as [_ Ha].
    apply orb_false_iff in Ha' as [_ Ha'].
    destruct (IH a' Ha Ha' Heq) as [-> ->]. split; reflexivity.
Qed.

Lemma sample_id_inj (i j : Z) :
  0 <= i -> 0 <= j -> sample_id i = sample_id j -> i = j.
Proof.
  intros Hi Hj Heq. unfold sample_id in Heq.
  pose proof (Z.div_pos i 100 Hi ltac:(lia)) as Hqi.
  pose proof (Z.div_pos j 100 Hj ltac:(lia)) as Hqj.
  pose proof (Z.mod_pos_bound i 10000 ltac:(lia)) as Hmi.
  pose proof (Z.mod_pos_bound j 10000 ltac:(lia)) as Hmj.
  apply split_at_dot in Heq as [Hyear Hrest];
    [|apply has_dot_format; lia|apply has_dot_format; lia].
  apply (f_equal number_of) in Hyear, Hrest.
  rewrite !number_of_format in Hyear, Hrest by lia.
  injection Hyear as Hyear. injection Hrest as Hrest.
  pose proof (Z.div_mod i 100 ltac:(lia)).
  pose proof (Z.div_mod j 100 ltac:(lia)).
  pose proof (Z.mod_pos_bound i 100 ltac:(lia)).
  pose proof (Z.mod_pos_bound j 100 ltac:(lia)).
  pose proof (Z.div_mod i 10000 ltac:(lia)).
  pose proof (Z.div_mod j 10000 ltac:(lia)).
  lia.
Qed.

End SampleIds.

(** X18.  The papers of a sample data set have pairwise distinct ids,
    however many are asked for: the year part of the id moves every
    hundred papers and the number part only repeats after ten
    thousand. *)
Theorem sample_ids_are_distinct (num_samples : Z) :
  NoDup (map (fun paper : dict => paper !! "id") (sample_papers num_samples)).
Proof.
  rewrite sample_papers_seq, map_map.
  apply (NoDup_fmap_2_strong _ (seq 0 (Z.to_nat num_samples))).
  - intros a b _ _ Heq. unfold sample_paper in Heq. cbv zeta in Heq.
    rewrite !lookup_insert_eq in Heq. injection Heq as Heq.
    apply sample_id_inj in Heq; lia.
  - apply NoDup_seq.
Qed.

Section DownloadMainFacts.

Lemma fall_back_result (d : disk) (path : string) (max_documents : Z) (e : exn)
  (l : list log_record) :
  fall_back d path max_documents e l
  = (Ok tt,
     Disk (datasets d)
          (<[path := sample_papers (Z.min 1000 max_documents)]> (artifacts d))
          (delete path (unreadable d)),
     l ++ [Log WARNING "Could not download from Kaggle: {}" [Exc e];
           Log INFO "Creating sample dataset for demonstration purposes..." []]
       ++ [Log INFO "Creating sample dataset with {} papers..."
               [Int (Z.min 1000 max_documents)];
           Log INFO "Created sample dataset with {} papers at {}"
               [Int (Z.min 1000 max_documents); Str path]]).
Proof. reflexivity. Qed.

Lemma filter_file_raises (d : disk) (input output : string) (max_papers : option Z)
  (f : list raw_line) (e : exn) :
  datasets d !! input = Some f ->
  fst (filter_cs_papers f input output max_papers) = Raise e ->
  exists l, filter_file d input output max_papers = (d, (Raise e, l)).
Proof.
  intros Hf He. unfold filter_file. rewrite Hf.
  destruct (filter_cs_papers f input output max_papers) as [[r|e'] l]; simpl in He.
  - discriminate.
  - injection He as ->. exists l. reflexivity.
Qed.

Lemma sample_papers_len (n : Z) : len (sample_papers n) = Z.max 0 n.
Proof.
  rewrite sample_papers_seq. unfold len. rewrite length_map, length_seq. lia.
Qed.

End DownloadMainFacts.





(** X20.  A raw data set with a line that parses to something else than
    an object, met before the cap is reached, makes [main] discard the
    raw data: with no [cs_papers.json] on the disk it ends normally,
    writes the sample data set of [min(1000, MAX_DOCUMENTS)] papers as
    [cs_papers.json], leaves the rest of the disk alone, and the log puts
    the [AttributeError] down as a failed download. *)
Theorem ill_shaped_line_gives_sample_data
  (download_kaggle_dataset : disk -> string -> disk * logged string)
  (mkdir : string -> result unit) (int : string -> result Z)
  (environ : gmap string string) (d : disk) (max_documents : Z)
  (pre rest : list raw_line) (v : json) :
  int (getenv environ "MAX_DOCUMENTS" "50000") = Ok max_documents ->
  mkdir (getenv environ "DATA_DIR" "./data") = Ok tt ->
  artifacts d !! path_join (getenv environ "DATA_DIR" "./data") "cs_papers.json"
  = None ->
  unreadable d !! path_join (getenv environ "DATA_DIR" "./data") "cs_papers.json"
  = None ->
  datasets d !! path_join (getenv environ "DATA_DIR" "./data")
                          "arxiv-metadata-oai-snapshot.json"
  = Some (pre ++ Parsed v :: rest) ->
  Forall (fun line => wf_line line = true) pre ->
  is_object v = false ->
  max_documents = 0 \/ matching_count pre < max_documents ->
  let ran := main download_kaggle_dataset mkdir int environ d in
  fst (fst ran) = Ok tt
  /\ snd (fst ran)
     = Disk (datasets d)
            (<[path_join (getenv environ "DATA_DIR" "./data") "cs_papers.json"
               := sample_papers (Z.min 1000 max_documents)]> (artifacts d))
            (unreadable d)
  /\ In (Log WARNING "Could not download from Kaggle: {}" [Exc AttributeError])
        (snd ran).
Proof.
  intros Hint Hmkdir Hout Hread Hraw Hpre Hv Hcap. cbv zeta.
  assert (fst (filter_cs_papers (pre ++ Parsed v :: rest)
                 (path_join (getenv environ "DATA_DIR" "./data")
                            "arxiv-metadata-oai-snapshot.json")
                 (path_join (getenv environ "DATA_DIR" "./data") "cs_papers.json")
                 (Some max_documents)) = Raise AttributeError) as Hraise.
  { rewrite filter_unfold, (loop_through _ _ _ Hpre).
    - cbn [loop]. rewrite fst_and_then, (visit_not_object _ _ _ Hv). reflexivity.
    - change (len []) with 0.
      change (default 0 (Some max_documents)) with max_documents.
      destruct Hcap as [->|Hcap]; [left; reflexivity|]. right. left. lia. }
  destruct (filter_file_raises d _ _ _ _ _ Hraw Hraise) as [l Hfile].
  unfold main. rewrite Hint, Hmkdir, Hread, Hout, Hraw, Hfile, fall_back_result.
  cbn [fst snd]. split; [reflexivity|]. split.
  - rewrite (delete_id _ _ Hread). reflexivity.
  - apply in_or_app. right. left. reflexivity.
Qed.

Lemma ill_shaped_line_gives_sample_data_witness :
  snd (fst (main Scenario.download_fails Scenario.mkdir Fake.int ∅ Scenario.raw_disk))
  = Disk (datasets Scenario.raw_disk)
         (<["./data/cs_papers.json" := sample_papers (Z.min 1000 50000)]> ∅) ∅.
Proof.
  refine (proj1 (proj2
    (ill_shaped_line_gives_sample_data Scenario.download_fails Scenario.mkdir
       Fake.int ∅ Scenario.raw_disk 50000 (take 2 Fake.corpus)
       (drop 2 Fake.corpus) (JArr [JStr "cs.AI"]) _ _ _ _ _ _ _ _))).
  - vm_compute. reflexivity.
  - reflexivity.
  - reflexivity.
  - reflexivity.
  - reflexivity.
  - repeat constructor.
  - reflexivity.
  - right. vm_compute. reflexivity.
Defined.

(** X21.  When neither [cs_papers.json] nor the raw data set is on disk
    and the download raises, [main] ends normally with the sample data
    set in place of the data: at most a thousand papers, and none at all
    when [MAX_DOCUMENTS] is zero or negative. *)
Theorem failed_download_gives_sample_data
  (download_kaggle_dataset : disk -> string -> disk * logged string)
  (mkdir : string -> result unit) (int : string -> result Z)
  (environ : gmap string string) (d d1 : disk) (max_documents : Z)
  (e : exn) (l1 : list log_record) :
  int (getenv environ "MAX_DOCUMENTS" "50000") = Ok max_documents ->
  mkdir (getenv environ "DATA_DIR" "./data") = Ok tt ->
  artifacts d !! path_join (getenv environ "DATA_DIR" "./data") "cs_papers.json"
  = None ->
  unreadable d !! path_join (getenv environ "DATA_DIR" "./data") "cs_papers.json"
  = None ->
  datasets d !! path_join (getenv environ "DATA_DIR" "./data")
                          "arxiv-metadata-oai-snapshot.json" = None ->
  download_kaggle_dataset d (getenv environ "DATA_DIR" "./data")
  = (d1, (Raise e, l1)) ->
  let ran := main download_kaggle_dataset mkdir int environ d in
  fst (fst ran) = Ok tt
  /\ exists papers,
       artifacts (snd (fst ran))
       !! path_join (getenv environ "DATA_DIR" "./data") "cs_papers.json"
       = Some papers
       /\ papers = sample_papers (Z.min 1000 max_documents)
       /\ len papers = Z.max 0 (Z.min 1000 max_documents)
       /\ len papers <= 1000
       /\ (max_documents <= 0 -> papers = []).
Proof.
  intros Hint Hmkdir Hout Hread Hraw Hdown. cbv zeta.
  unfold main. rewrite Hint, Hmkdir, Hread, Hout, Hraw, Hdown, fall_back_result.
  cbn [fst snd artifacts]. split; [reflexivity|].
  exists (sample_papers (Z.min 1000 max_documents)).
  split; [apply lookup_insert_eq|]. split; [reflexivity|].
  rewrite sample_papers_len. split; [reflexivity|]. split; [lia|].
  intros Hmax. apply len_zero_nil. rewrite sample_papers_len. lia.
Qed.

Lemma failed_download_gives_sample_data_witness :
  fst (fst (main Scenario.download_fails Scenario.mkdir Fake.int
              (<["MAX_DOCUMENTS" := "0"]> ∅) (Disk ∅ ∅ ∅))) = Ok tt
  /\ exists papers,
       artifacts (snd (fst (main Scenario.download_fails Scenario.mkdir Fake.int
                              (<["MAX_DOCUMENTS" := "0"]> ∅) (Disk ∅ ∅ ∅))))
       !! "./data/cs_papers.json" = Some papers
       /\ papers = [].
Proof.
  assert (Fake.int (getenv (<["MAX_DOCUMENTS" := "0"]> ∅) "MAX_DOCUMENTS" "50000")
          = Ok 0) as Hint by (vm_compute; reflexivity).
  destruct (failed_download_gives_sample_data Scenario.download_fails Scenario.mkdir
              Fake.int (<["MAX_DOCUMENTS" := "0"]> ∅) (Disk ∅ ∅ ∅) (Disk ∅ ∅ ∅) 0
              (OtherException "Could not find kaggle.json")
              [Log ERROR "Error downloading dataset: {}"
                   [Exc (OtherException "Could not find kaggle.json")]]
              Hint eq_refl (lookup_empty _) (lookup_empty _) (lookup_empty _) eq_refl)
    as (Hended & papers & Hlookup & _ & _ & _ & Hnone).
  split; [exact Hended|]. exists papers.
  split; [exact Hlookup|apply Hnone; lia].
Defined.




(** ** [main] of the ingestion stage *)

Lemma batches_defined {A} (xs : list A) (b : Z) :
  b <> 0 -> exists bs, batches xs b = Ok bs.
Proof.
  intros Hb. destruct (Z.lt_trichotomy b 0) as [Hneg|[Hzero|Hpos]].
  - exists []. rewrite batches_not_positive by lia.
    destruct (b =? 0) eqn:E; [apply Z.eqb_eq in E; lia|reflexivity].
  - contradiction.
  - eexists. apply batches_unfold, Hpos.
Qed.

(** X23.  Once connected, [main] of the ingestion stage does not depend
    on what the bulk requests give: when the index is created, refreshed
    and verified without an exception and the batch size is not zero,
    [main] ends normally and logs that the ingestion is complete, also
    when every bulk request raised and nothing was indexed. *)
Theorem ingest_main_completes_whatever_bulk_replies {Client : Type}
  (bulk : Client -> list dict -> Client * bulk_reply)
  (indices_refresh : Client -> string -> Client * result unit)
  (get_elasticsearch_client : logged Client)
  (load_index_mapping : string -> logged json)
  (create_index : Client -> string -> json -> Client * logged unit)
  (verify_index : Client -> string -> Client * logged unit)
  (int : string -> result Z)
  (environ : gmap string string) (fs : gmap string (list dict))
  (batch_size : Z) (papers : list dict) :
  int (getenv environ "BATCH_SIZE" "500") = Ok batch_size ->
  batch_size <> 0 ->
  fs !! path_join (getenv environ "DATA_DIR" "./data")
                  "cs_papers_with_embeddings.json" = Some papers ->
  (exists c, fst get_elasticsearch_client = Ok c) ->
  (exists mapping, fst (load_index_mapping "./config/index_mapping.json")
                   = Ok mapping) ->
  (forall c index_name mapping,
      fst (snd (create_index c index_name mapping)) = Ok tt) ->
  (forall c index_name, snd (indices_refresh c index_name) = Ok tt) ->
  (forall c index_name, fst (snd (verify_index c index_name)) = Ok tt) ->
  let ran := IngestData.main bulk indices_refresh get_elasticsearch_client
               load_index_mapping create_index verify_index int environ fs in
  fst (fst ran) = Ok tt
  /\ is_Some (snd (fst ran))
  /\ In (Log INFO "Data ingestion complete!" []) (snd ran).
Proof.
  intros Hint Hb Hin [c Hc] [mapping Hmapping] Hcreate Hrefresh Hverify. cbv zeta.
  unfold IngestData.main. rewrite Hint, Hin.
  destruct get_elasticsearch_client as [rc l0]. simpl in Hc. subst rc.
  destruct (load_index_mapping _) as [rm l1]. simpl in Hmapping. subst rm.
  specialize (Hcreate c (getenv environ "INDEX_NAME" "arxiv-papers") mapping).
  destruct (create_index _ _ _) as [c1 [r2 l2]]. simpl in Hcreate. subst r2.
  unfold IngestData.load_papers, and_then, emit, lift, ret. rewrite Hin.
  cbn [fst snd].
  destruct (batches_defined papers batch_size Hb) as [bs Hbs].
  rewrite bulk_index_papers_unfold, (bulk_index_loop_unfold _ _ _ _ _ _ Hbs).
  rewrite Hrefresh.
  match goal with
  | |- context [verify_index ?c2 ?name] =>
      specialize (Hverify c2 name); destruct (verify_index c2 name) as [c3 [r5 l5]]
  end.
  simpl in Hverify. subst r5. cbn [fst snd].
  split; [reflexivity|]. split; [eexists; reflexivity|].
  repeat (apply in_or_app; right). left. reflexivity.
Qed.

Lemma ingest_main_completes_whatever_bulk_replies_witness :
  fst (fst (IngestData.main Scenario.lost Fake.indices_refresh
              Fake.get_elasticsearch_client Fake.load_index_mapping
              Fake.create_index Fake.verify_index Fake.int ∅
              Scenario.embedded_files)) = Ok tt.
Proof.
  refine (proj1 (ingest_main_completes_whatever_bulk_replies Scenario.lost
                   Fake.indices_refresh Fake.get_elasticsearch_client
                   Fake.load_index_mapping Fake.create_index Fake.verify_index
                   Fake.int ∅ Scenario.embedded_files 500 Fake.papers
                   _ _ _ _ _ _ _ _)).
  - vm_compute. reflexivity.
  - lia.
  - vm_compute. reflexivity.
  - eexists. reflexivity.
  - eexists. reflexivity.
  - intros. reflexivity.
  - intros. reflexivity.
  - intros. reflexivity.
Defined.

(** ** The snapshot menu *)

Section SessionFacts.

Import SnapshotMenu.

Context {Client : Type}.
Variable send : Client -> request -> Client * result json.
Variable strftime_now : nat -> string.
Variable format : json -> string.
Variable message : exn -> string.

Lemma restores_app (xs ys : list request) :
  restores (xs ++ ys) = restores xs ++ restores ys.
Proof. unfold restores. apply flat_map_app. Qed.

Lemma replayed_app (c : Client) (xs ys : list request) :
  replayed send c (xs ++ ys) = replayed send (replayed send c xs) ys.
Proof. unfold replayed. apply fold_left_app. Qed.

Lemma adds_weaken {A} (P Q : restore_call -> Prop) (m : io Client A) :
  (forall call, P call -> Q call) -> adds send P m -> adds send Q m.
Proof.
  intros HPQ Hm w. destruct (Hm w) as (new & Heq & Hc & HP).
  exists new. split; [exact Heq|]. split; [exact Hc|].
  eapply Forall_impl; eassumption.
Qed.

Lemma adds_same {A} (P : restore_call -> Prop) (m : io Client A) :
  (forall w, sent (snd (fst (m w))) = sent w
             /\ cluster (snd (fst (m w))) = cluster w) ->
  adds send P m.
Proof.
  intros Hm w. exists []. destruct (Hm w) as [-> ->]. rewrite app_nil_r.
  split; [reflexivity|]. split; [reflexivity|constructor].
Qed.

Lemma adds_pure {A} P (a : A) : adds send P (pure Client a).
Proof. apply adds_same. intros w. split; reflexivity. Qed.

Lemma adds_raise {A} P (e : exn) : adds send P (@raise Client A e).
Proof. apply adds_same. intros w. split; reflexivity. Qed.

Lemma adds_of_result {A} P (r : result A) : adds send P (of_result Client r).
Proof. apply adds_same. intros w. split; reflexivity. Qed.

Lemma adds_log P lv template values : adds send P (log Client lv template values).
Proof. apply adds_same. intros w. split; reflexivity. Qed.

Lemma adds_now P : adds send P (now Client strftime_now).
Proof. apply adds_same. intros w. split; reflexivity. Qed.

Lemma adds_call P (r : request) :
  restores [r] = [] -> adds send P (call Client send r).
Proof.
  intros Hr w. exists [r]. unfold call. cbn [fst snd sent cluster].
  split; [reflexivity|]. split; [reflexivity|]. rewrite Hr. constructor.
Qed.

Lemma adds_seq {A B} P (m : io Client A) (k : A -> io Client B) :
  adds send P m -> (forall a, adds send P (k a)) -> adds send P (seq Client m k).
Proof.
  intros Hm Hk w. unfold seq.
  destruct (Hm w) as (new1 & Heq1 & Hc1 & HP1).
  destruct (m w) as [[[a|e] w1] l1]; cbn [fst snd] in *.
  - destruct (Hk a w1) as (new2 & Heq2 & Hc2 & HP2).
    destruct (k a w1) as [[r w2] l2]; cbn [fst snd] in *.
    exists (new1 ++ new2). rewrite Heq2, Heq1, app_assoc.
    split; [reflexivity|]. rewrite Hc2, Hc1, replayed_app.
    split; [reflexivity|]. rewrite restores_app. apply Forall_app.
    split; assumption.
  - exists new1. split; [exact Heq1|]. split; assumption.
Qed.

Lemma adds_try {A} P (m : io Client A) (handler : exn -> io Client A) :
  adds send P m -> (forall e, adds send P (handler e)) ->
  adds send P (try Client m handler).
Proof.
  intros Hm Hh w. unfold try.
  destruct (Hm w) as (new1 & Heq1 & Hc1 & HP1).
  destruct (m w) as [[[a|e] w1] l1]; cbn [fst snd] in *.
  - exists new1. split; [exact Heq1|]. split; assumption.
  - destruct (Hh e w1) as (new2 & Heq2 & Hc2 & HP2).
    destruct (handler e w1) as [[r w2] l2]; cbn [fst snd] in *.
    exists (new1 ++ new2). rewrite Heq2, Heq1, app_assoc.
    split; [reflexivity|]. rewrite Hc2, Hc1, replayed_app.
    split; [reflexivity|]. rewrite restores_app. apply Forall_app.
    split; assumption.
Qed.

Lemma adds_for_each {A} P (xs : list A) (body : A -> io Client unit) :
  (forall x, adds send P (body x)) -> adds send P (for_each Client xs body).
Proof.
  intros Hbody. induction xs as [|x xs IH]; simpl.
  - apply adds_pure.
  - apply adds_seq; [apply Hbody|intros _; exact IH].
Qed.

Ltac quiet :=
  repeat first
    [ apply adds_pure | apply adds_raise | apply adds_of_result | apply adds_log
    | apply adds_now | apply adds_call; reflexivity
    | apply adds_seq; [|intro] | apply adds_try; [|intro]
    | apply adds_for_each; intro
    | match goal with
      | |- adds _ _ (if ?b then _ else _) => destruct b
      | |- adds _ _ (match ?o with Some _ => _ | None => _ end) => destruct o
      end ].

Lemma adds_register P (repo_name repo_path : string) :
  adds send P (register_snapshot_repository send repo_name repo_path).
Proof. unfold register_snapshot_repository. quiet. Qed.

Lemma adds_create P (repo_name : string) (snapshot_name : option string)
  (indices : option (list string)) (wait : bool) :
  adds send P (create_snapshot send strftime_now format repo_name snapshot_name
                 indices wait).
Proof. unfold create_snapshot. quiet. Qed.

Lemma adds_list P (repo_name : string) :
  adds send P (list_snapshots send format repo_name).
Proof. unfold list_snapshots, describe. quiet. Qed.

Lemma adds_demo P (environ : gmap string string) (index_name : string) :
  adds send P
       (demo_snapshot_restore send strftime_now format message environ index_name).
Proof.
  unfold demo_snapshot_restore. cbv zeta.
  quiet; first [apply adds_register | apply adds_create | apply adds_list].
Qed.

Lemma adds_restore (P : restore_call -> Prop) (repo_name snapshot_name : string)
  (indices : option (list string)) (rename_pattern rename_replacement : option string)
  (wait : bool) :
  P (Restore repo_name snapshot_name
       (restore_body indices rename_pattern rename_replacement) wait) ->
  adds send P (SnapshotMenu.restore_snapshot send repo_name snapshot_name indices
                 rename_pattern rename_replacement wait).
Proof.
  intros HP w. unfold SnapshotMenu.restore_snapshot.
  destruct (restore_snapshot_sends (fun c r => send c (RestoreSnapshot r))
              (cluster w) repo_name snapshot_name indices rename_pattern
              rename_replacement wait) as [Hreq Hcall].
  destruct (SetupSnapshots.restore_snapshot _ _ _ _ _ _ _ _) as [[r c'] [reply l]].
  cbn [fst snd sent cluster] in *. subst r.
  eexists. split; [reflexivity|]. split.
  - unfold replayed. cbn [fold_left]. rewrite <- Hcall. reflexivity.
  - constructor; [exact HP|constructor].
Qed.

Lemma menu_restore_later (repo_name index_name : string) (skipped lines : list string)
  (call : restore_call) :
  menu_restore repo_name index_name lines call ->
  menu_restore repo_name index_name (skipped ++ lines) call.
Proof.
  intros (Hrepo & Hwait & Hfour & (line & Hline & Hname) & Hbody).
  split; [exact Hrepo|]. split; [exact Hwait|].
  split; [apply in_or_app; right; exact Hfour|].
  split; [|exact Hbody].
  exists line. split; [apply in_or_app; right; exact Hline|exact Hname].
Qed.

Lemma menu_adds (environ : gmap string string)
  (repo_name repo_path index_name : string) (n : nat) :
  forall lines, (length lines <= n)%nat ->
    adds send (menu_restore repo_name index_name lines)
         (menu send strftime_now format message environ repo_name repo_path
            index_name lines).
Proof.
  induction n as [|n IH]; intros lines Hlen.
  { destruct lines; [|simpl in Hlen; lia]. simpl. apply adds_raise. }
  destruct lines as [|choice rest]; [simpl; apply adds_raise|].
  simpl in Hlen.
  assert (adds send (menu_restore repo_name index_name (choice :: rest))
               (menu send strftime_now format message environ repo_name repo_path
                  index_name rest)) as Hrest.
  { eapply adds_weaken; [|apply IH; lia].
    intros call. apply (menu_restore_later _ _ [choice]). }
  assert (forall line rest',
            rest = line :: rest' ->
            adds send (menu_restore repo_name index_name (choice :: rest))
                 (menu send strftime_now format message environ repo_name repo_path
                    index_name rest')) as Hrest'.
  { intros line rest' ->. eapply adds_weaken; [|apply IH; simpl in Hlen; lia].
    intros call. apply (menu_restore_later _ _ [choice; line]). }
  cbn [menu].
  destruct (String.eqb choice "1") eqn:E1.
  { apply adds_seq; [apply adds_register|intros _; exact Hrest]. }
  destruct (String.eqb choice "2") eqn:E2.
  { destruct rest as [|line rest']; [apply adds_raise|]. cbv zeta.
    apply adds_seq; [apply adds_create|intros _; eapply Hrest'; reflexivity]. }
  destruct (String.eqb choice "3") eqn:E3.
  { apply adds_seq; [apply adds_list|intros _; exact Hrest]. }
  destruct (String.eqb choice "4") eqn:E4.
  { apply String.eqb_eq in E4. subst choice.
    apply adds_seq; [apply adds_list|intros snapshots].
    destruct (truthy snapshots); [|exact Hrest].
    destruct rest as [|line rest']; [apply adds_raise|]. cbv zeta.
    apply adds_seq; [|intros _; eapply Hrest'; reflexivity].
    destruct (truthy_str (Some (strip line))) eqn:Hname; [|apply adds_pure].
    apply adds_seq; [|intros _; apply adds_pure].
    apply adds_restore.
    split; [reflexivity|]. split; [reflexivity|]. split; [left; reflexivity|].
    split; [|reflexivity].
    exists line. split; [right; left; reflexivity|]. split; [reflexivity|].
    intros Hempty. simpl in Hname. rewrite Hempty in Hname. discriminate. }
  destruct (String.eqb choice "5") eqn:E5.
  { apply adds_seq; [apply adds_demo|intros _; exact Hrest]. }
  destruct (String.eqb choice "6") eqn:E6; [apply adds_pure|exact Hrest].
Qed.

Lemma restore_body_indices (index_name : string)
  (rename_pattern rename_replacement : option string) :
  restore_body (Some [index_name]) rename_pattern rename_replacement !! "indices"
  = Some index_name.
Proof.
  unfold restore_body. cbn [truthy_list default String.concat].
  destruct (truthy_str rename_pattern && truthy_str rename_replacement).
  - rewrite !lookup_insert_ne by done. apply lookup_insert_eq.
  - apply lookup_insert_eq.
Qed.

End SessionFacts.

(** X24.  Whatever is typed at the snapshot menu and whatever the cluster
    replies, the requests the session records are those the cluster
    received, in this order, and every restore request among them comes
    from a choice 4: it names the repository of the environment and the
    snapshot typed (blanks at the ends removed, not empty), waits for
    completion and restores the index of the environment alone, renamed
    to [<index>_restored].  With an empty [INDEX_NAME] the request has no
    rename fields. *)
Theorem menu_restores_under_new_name {Client : Type}
  (send : Client -> SnapshotMenu.request -> Client * result json)
  (strftime_now : nat -> string) (format : json -> string)
  (message : exn -> string) (get_elasticsearch_client : result Client)
  (environ : gmap string string) (lines : list string)
  (w : SnapshotMenu.world Client) :
  snd (fst (SnapshotMenu.main send strftime_now format message
              get_elasticsearch_client environ lines)) = Some w ->
  let index_name := getenv environ "INDEX_NAME" "arxiv-papers" in
  (exists c,
      get_elasticsearch_client = Ok c
      /\ SnapshotMenu.cluster w = replayed send c (SnapshotMenu.sent w))
  /\ forall call,
       In (SnapshotMenu.RestoreSnapshot call) (SnapshotMenu.sent w) ->
       In "4" lines
       /\ repository call = getenv environ "SNAPSHOT_REPO_NAME" "arxiv_backup"
       /\ (exists line,
             In line lines /\ snapshot call = strip line /\ strip line <> "")
       /\ wait_for_completion call = true
       /\ body call !! "indices" = Some index_name
       /\ (index_name <> "" ->
           body call !! "rename_pattern" = Some index_name
           /\ body call !! "rename_replacement" = Some (index_name +:+ "_restored"))
       /\ (index_name = "" ->
           body call !! "rename_pattern" = None
           /\ body call !! "rename_replacement" = None).
Proof.
  intros Hmain. cbv zeta.
  unfold SnapshotMenu.main in Hmain.
  destruct get_elasticsearch_client as [c|e]; [|discriminate].
  pose proof (menu_adds send strftime_now format message environ
                (getenv environ "SNAPSHOT_REPO_NAME" "arxiv_backup")
                (getenv environ "SNAPSHOT_REPO_PATH" "/usr/share/elasticsearch/snapshots")
                (getenv environ "INDEX_NAME" "arxiv-papers")
                (length lines) lines (le_n _) (SnapshotMenu.World c 0 []))
    as (new & Heq & Hcluster & Hall).
  destruct (SnapshotMenu.menu _ _ _ _ _ _ _ _ _ _) as [[r w'] l].
  cbn [fst snd SnapshotMenu.sent SnapshotMenu.cluster app] in *.
  injection Hmain as ->. subst new.
  split; [exists c; split; [reflexivity|exact Hcluster]|].
  intros call Hsent.
  assert (In call (restores (SnapshotMenu.sent w))) as Hin.
  { unfold restores. apply in_flat_map.
    exists (SnapshotMenu.RestoreSnapshot call). split; [exact Hsent|left; reflexivity]. }
  pose proof (proj1 (List.Forall_forall _ _) Hall call Hin)
    as (Hrepo & Hwait & Hfour & Hname & Hbody).
  split; [exact Hfour|]. split; [exact Hrepo|]. split; [exact Hname|].
  split; [exact Hwait|]. rewrite Hbody.
  split; [apply restore_body_indices|].
  pose proof (restore_body_rename
                (Some [getenv environ "INDEX_NAME" "arxiv-papers"])
                (Some (getenv environ "INDEX_NAME" "arxiv-papers"))
                (Some (getenv environ "INDEX_NAME" "arxiv-papers" +:+ "_restored")))
    as Hrename.
  cbv zeta in Hrename.
  split.
  - intros Hne.
    replace (truthy_str (Some (getenv environ "INDEX_NAME" "arxiv-papers")))
      with true in Hrename.
    + replace (truthy_str (Some (getenv environ "INDEX_NAME" "arxiv-papers"
                                 +:+ "_restored"))) with true in Hrename.
      * exact Hrename.
      * symmetry. simpl.
        destruct (getenv environ "INDEX_NAME" "arxiv-papers"); reflexivity.
    + symmetry. simpl. apply negb_true_iff. apply String.eqb_neq. exact Hne.
  - intros Hempty. rewrite Hempty in *. exact Hrename.
Qed.

(** X24 on a session that lists the snapshots, restores the one named and
    leaves: the cluster, which counts its requests, has received two. *)
Lemma menu_restores_under_new_name_witness :
  body (Restore "arxiv_backup" "nightly"
          (restore_body (Some ["arxiv-papers"]) (Some "arxiv-papers")
             (Some "arxiv-papers_restored")) true) !! "rename_replacement"
  = Some "arxiv-papers_restored".
Proof.
  assert (snd (fst (SnapshotMenu.main Scenario.snapshot_cluster Scenario.clock
                      Scenario.show Scenario.message (Ok 0%nat) ∅
                      ["4"; " nightly "; "6"]))
          = Some (SnapshotMenu.World 2%nat 0%nat
                    [SnapshotMenu.GetSnapshots "arxiv_backup" "*";
                     SnapshotMenu.RestoreSnapshot
                       (Restore "arxiv_backup" "nightly"
                          (restore_body (Some ["arxiv-papers"]) (Some "arxiv-papers")
                             (Some "arxiv-papers_restored")) true)])) as Hmain
    by (vm_compute; reflexivity).
  pose proof (menu_restores_under_new_name _ _ _ _ _ _ _ _ Hmain) as H.
  cbv zeta in H. destruct H as [_ H].
  destruct (H (Restore "arxiv_backup" "nightly"
                 (restore_body (Some ["arxiv-papers"]) (Some "arxiv-papers")
                    (Some "arxiv-papers_restored")) true)
              (or_intror (or_introl eq_refl)))
    as (_ & _ & _ & _ & _ & Hrename & _).
  apply Hrename. discriminate.
Defined.

Section DemoFacts.

Import SnapshotMenu.

Context {Client : Type}.
Variable send : Client -> request -> Client * result json.
Variable strftime_now : nat -> string.
Variable format : json -> string.
Variable message : exn -> string.

Lemma emits_same {A} (m : io Client A) :
  (forall w, sent (snd (fst (m w))) = sent w) -> emits [] m.
Proof. intros Hm w. rewrite Hm, app_nil_r. reflexivity. Qed.

Lemma emits_seq {A B} (rs : list request) (m : io Client A) (k : A -> io Client B) :
  emits rs m -> (forall a, emits [] (k a)) -> emits rs (seq Client m k).
Proof.
  intros Hm Hk w. unfold seq. specialize (Hm w).
  destruct (m w) as [[[a|e] w1] l1]; cbn [fst snd] in *; [|exact Hm].
  specialize (Hk a w1). destruct (k a w1) as [[r w2] l2]; cbn [fst snd] in *.
  rewrite Hk, Hm, app_nil_r. reflexivity.
Qed.

Lemma emits_after {A B} (rs : list request) (m : io Client A) (k : A -> io Client B) :
  emits [] m -> (forall w, exists a, fst (fst (m w)) = Ok a) ->
  (forall a, emits rs (k a)) -> emits rs (seq Client m k).
Proof.
  intros Hm Hok Hk w. unfold seq. specialize (Hm w).
  destruct (Hok w) as [a' Ha'].
  destruct (m w) as [[[a|e] w1] l1]; cbn [fst snd] in *; [|discriminate].
  specialize (Hk a w1). destruct (k a w1) as [[r w2] l2]; cbn [fst snd] in *.
  rewrite Hk, Hm, app_nil_r. reflexivity.
Qed.

Lemma emits_for_each {A} (xs : list A) (body : A -> io Client unit) :
  (forall x, emits [] (body x)) -> emits [] (for_each Client xs body).
Proof.
  intros Hbody. induction xs as [|x xs IH]; simpl.
  - apply emits_same. reflexivity.
  - apply emits_seq; [apply Hbody|intros _; exact IH].
Qed.

Ltac silent :=
  repeat first
    [ apply emits_same; reflexivity
    | apply emits_for_each; intro
    | apply emits_seq; [|intro]
    | match goal with
      | |- emits _ (if ?b then _ else _) => destruct b
      end ].

Lemma emits_call (r : request) : emits [r] (call Client send r).
Proof. intros w. reflexivity. Qed.

Lemma emits_register (repo_name repo_path : string) :
  emits [CreateRepository repo_name (repository_body repo_path)]
        (register_snapshot_repository send repo_name repo_path).
Proof.
  unfold register_snapshot_repository.
  apply emits_after; [apply emits_same; reflexivity|eexists; reflexivity|intros _].
  apply emits_seq; [apply emits_call|intros response]. silent.
Qed.

Lemma seq_pure {A B} (a : A) (k : A -> io Client B) (w : world Client) :
  seq Client (pure Client a) k w = k a w.
Proof. unfold seq, pure. destruct (k a w) as [[r w2] l2]. reflexivity. Qed.

Lemma emits_create (repo_name snapshot_name : string)
  (indices : option (list string)) (wait : bool) :
  emits [CreateSnapshot repo_name snapshot_name (snapshot_body indices) wait]
        (create_snapshot send strftime_now format repo_name (Some snapshot_name)
           indices wait).
Proof.
  unfold create_snapshot. intros w. rewrite seq_pure. revert w.
  apply emits_after; [apply emits_same; reflexivity|eexists; reflexivity|intros _].
  apply emits_seq; [apply emits_call|intros response]. silent.
Qed.

Lemma emits_list (repo_name : string) :
  emits [GetSnapshots repo_name "*"] (list_snapshots send format repo_name).
Proof.
  unfold list_snapshots, describe.
  apply emits_after; [apply emits_same; reflexivity|eexists; reflexivity|intros _].
  apply emits_seq; [apply emits_call|intros response]. silent.
Qed.

Lemma seq_ok {A B} (m : io Client A) (k : A -> io Client B) (w w1 w2 : world Client)
  (a : A) (r : result B) (l1 l2 : list log_record) :
  m w = (Ok a, w1, l1) -> k a w1 = (r, w2, l2) ->
  seq Client m k w = (r, w2, l1 ++ l2).
Proof. intros Hm Hk. unfold seq. rewrite Hm, Hk. reflexivity. Qed.

Lemma seq_raise {A B} (m : io Client A) (k : A -> io Client B) (w w1 : world Client)
  (e : exn) (l1 : list log_record) :
  m w = (Raise e, w1, l1) -> seq Client m k w = (Raise e, w1, l1).
Proof. intros Hm. unfold seq. rewrite Hm. reflexivity. Qed.

(** A [try] whose handler only logs ends normally and leaves the state
    its body left. *)
Lemma try_logged {A} (m : io Client A) (lv : level) (template : string)
  (w : world Client) :
  exists l,
    try Client (seq Client m (fun _ => pure Client tt))
      (fun e => log Client lv template [Exc e]) w
    = (Ok tt, snd (fst (m w)), l).
Proof.
  unfold try, seq, pure, log.
  destruct (m w) as [[[a|e] w1] l1]; eexists; reflexivity.
Qed.

(** The first step of the demo: the registration, with its handler. *)
Lemma try_register (repo_name repo_path : string) (w : world Client) :
  exists w1 l,
    try Client
      (seq Client (register_snapshot_repository send repo_name repo_path)
         (fun _ => pure Client tt))
      (fun e =>
         if contains "repository_already_exists" (lower (message e))
         then log Client INFO "Repository '{}' already exists" [Str repo_name]
         else raise Client e) w
    = (match snd (send (cluster w)
                    (CreateRepository repo_name (repository_body repo_path))) with
       | Ok _ => Ok tt
       | Raise e =>
           if contains "repository_already_exists" (lower (message e))
           then Ok tt else Raise e
       end, w1, l)
    /\ sent w1 = sent w ++ [CreateRepository repo_name (repository_body repo_path)]
    /\ ticks w1 = ticks w.
Proof.
  unfold try, seq, register_snapshot_repository, seq, call, log, pure, raise.
  cbn [fst snd cluster ticks sent].
  destruct (send (cluster w) _) as [c1 [response|e]]; cbn [fst snd].
  - eexists. eexists. split; [reflexivity|]. split; reflexivity.
  - destruct (contains _ _); eexists; eexists; (split; [reflexivity|]);
      split; reflexivity.
Qed.

(** The demo after the registration: it ends normally whatever the
    cluster replies. *)
Lemma demo_rest (repo_name index_name : string) (w1 : world Client) :
  exists w3 l,
    seq Client (now Client strftime_now)
      (fun timestamp =>
         seq Client
           (try Client
              (seq Client
                 (create_snapshot send strftime_now format repo_name
                    (Some ("demo_snapshot_" +:+ timestamp)) (Some [index_name]) true)
                 (fun _ => pure Client tt))
              (fun e => log Client ERROR "Error creating snapshot: {}" [Exc e]))
           (fun _ =>
              seq Client
                (try Client
                   (seq Client (list_snapshots send format repo_name)
                      (fun _ => pure Client tt))
                   (fun e => log Client ERROR "Error listing snapshots: {}" [Exc e]))
                (fun _ => pure Client tt))) w1
    = (Ok tt, w3, l)
    /\ sent w3
       = sent w1 ++ [CreateSnapshot repo_name
                       ("demo_snapshot_" +:+ strftime_now (ticks w1))
                       (<["indices" := index_name]> ∅) true;
                     GetSnapshots repo_name "*"].
Proof.
  destruct (try_logged
              (create_snapshot send strftime_now format repo_name
                 (Some ("demo_snapshot_" +:+ strftime_now (ticks w1)))
                 (Some [index_name]) true)
              ERROR "Error creating snapshot: {}"
              (World (cluster w1) (S (ticks w1)) (sent w1))) as [l2 Htry2].
  pose proof (emits_create repo_name ("demo_snapshot_" +:+ strftime_now (ticks w1))
                (Some [index_name]) true
                (World (cluster w1) (S (ticks w1)) (sent w1))) as Hsent2.
  set (w2 := snd (fst (create_snapshot send strftime_now format repo_name
                         (Some ("demo_snapshot_" +:+ strftime_now (ticks w1)))
                         (Some [index_name]) true
                         (World (cluster w1) (S (ticks w1)) (sent w1))))) in *.
  destruct (try_logged (list_snapshots send format repo_name)
              ERROR "Error listing snapshots: {}" w2) as [l3 Htry3].
  pose proof (emits_list repo_name w2) as Hsent3.
  eexists. eexists. split.
  - eapply seq_ok; [reflexivity|].
    eapply seq_ok; [exact Htry2|].
    eapply seq_ok; [exact Htry3|reflexivity].
  - rewrite Hsent3, Hsent2. cbn [sent]. rewrite <- app_assoc. reflexivity.
Qed.

Lemma demo_run (environ : gmap string string) (index_name : string)
  (w : world Client) :
  let repo_name := getenv environ "SNAPSHOT_REPO_NAME" "arxiv_backup" in
  let repo_path :=
    getenv environ "SNAPSHOT_REPO_PATH" "/usr/share/elasticsearch/snapshots" in
  let registration := CreateRepository repo_name (repository_body repo_path) in
  let ran := demo_snapshot_restore send strftime_now format message environ
               index_name w in
  match snd (send (cluster w) registration) with
  | Raise e =>
      if contains "repository_already_exists" (lower (message e))
      then fst (fst ran) = Ok tt
           /\ sent (snd (fst ran))
              = sent w ++ [registration;
                           CreateSnapshot repo_name
                             ("demo_snapshot_" +:+ strftime_now (ticks w))
                             (<["indices" := index_name]> ∅) true;
                           GetSnapshots repo_name "*"]
      else fst (fst ran) = Raise e /\ sent (snd (fst ran)) = sent w ++ [registration]
  | Ok _ =>
      fst (fst ran) = Ok tt
      /\ sent (snd (fst ran))
         = sent w ++ [registration;
                      CreateSnapshot repo_name
                        ("demo_snapshot_" +:+ strftime_now (ticks w))
                        (<["indices" := index_name]> ∅) true;
                      GetSnapshots repo_name "*"]
  end.
Proof.
  cbv zeta. unfold demo_snapshot_restore. cbv zeta.
  set (repo_name := getenv environ "SNAPSHOT_REPO_NAME" "arxiv_backup").
  set (repo_path := getenv environ "SNAPSHOT_REPO_PATH" _).
  destruct (try_register repo_name repo_path w) as (w1 & l1 & Htry & Hsent & Hticks).
  destruct (demo_rest repo_name index_name w1) as (w3 & l3 & Hrest & Hsent3).
  assert (sent w3
          = sent w ++ [CreateRepository repo_name (repository_body repo_path);
                       CreateSnapshot repo_name
                         ("demo_snapshot_" +:+ strftime_now (ticks w))
                         (<["indices" := index_name]> ∅) true;
                       GetSnapshots repo_name "*"]) as Hall.
  { rewrite Hsent3, Hsent, Hticks, <- app_assoc. reflexivity. }
  destruct (snd (send (cluster w) _)) as [response|e].
  - rewrite (seq_ok _ _ _ _ _ _ _ _ _ Htry Hrest). split; [reflexivity|exact Hall].
  - destruct (contains _ _).
    + rewrite (seq_ok _ _ _ _ _ _ _ _ _ Htry Hrest). split; [reflexivity|exact Hall].
    + rewrite (seq_raise _ _ _ _ _ _ Htry). split; [reflexivity|exact Hsent].
Qed.

End DemoFacts.

(** X25.  The demo stops at the registration only: when the request to
    register the repository raises and the text of the exception, in
    lower case, does not mention [repository_already_exists], that
    exception leaves the demo and nothing else is sent.  In every other
    case the demo ends normally having sent, in this order, the
    registration, the request for a snapshot of the index named
    [demo_snapshot_<time>] and the request for the list of snapshots,
    whatever the cluster replied to the last two.  In both cases the
    cluster is left as these requests, and no other, leave it. *)
Theorem demo_goes_on_after_failures {Client : Type}
  (send : Client -> SnapshotMenu.request -> Client * result json)
  (strftime_now : nat -> string) (format : json -> string)
  (message : exn -> string) (environ : gmap string string)
  (index_name : string) (w : SnapshotMenu.world Client) :
  let repo_name := getenv environ "SNAPSHOT_REPO_NAME" "arxiv_backup" in
  let repo_path :=
    getenv environ "SNAPSHOT_REPO_PATH" "/usr/share/elasticsearch/snapshots" in
  let registration :=
    SnapshotMenu.CreateRepository repo_name (SnapshotMenu.repository_body repo_path) in
  let all_three :=
    [registration;
     SnapshotMenu.CreateSnapshot repo_name
       ("demo_snapshot_" +:+ strftime_now (SnapshotMenu.ticks w))
       (<["indices" := index_name]> ∅) true;
     SnapshotMenu.GetSnapshots repo_name "*"] in
  let ran := SnapshotMenu.demo_snapshot_restore send strftime_now format message
               environ index_name w in
  (forall e,
      snd (send (SnapshotMenu.cluster w) registration) = Raise e ->
      SnapshotMenu.contains "repository_already_exists" (lower (message e)) = false ->
      fst (fst ran) = Raise e
      /\ SnapshotMenu.sent (snd (fst ran)) = SnapshotMenu.sent w ++ [registration]
      /\ SnapshotMenu.cluster (snd (fst ran))
         = replayed send (SnapshotMenu.cluster w) [registration])
  /\ ((forall e,
         snd (send (SnapshotMenu.cluster w) registration) = Raise e ->
         SnapshotMenu.contains "repository_already_exists" (lower (message e))
         = true) ->
      fst (fst ran) = Ok tt
      /\ SnapshotMenu.sent (snd (fst ran)) = SnapshotMenu.sent w ++ all_three
      /\ SnapshotMenu.cluster (snd (fst ran))
         = replayed send (SnapshotMenu.cluster w) all_three).
Proof.
  cbv zeta.
  pose proof (demo_run send strftime_now format message environ index_name w) as H.
  cbv zeta in H.
  destruct (adds_demo send strftime_now format message (fun _ => True) environ
              index_name w) as (new & Hnew & Hcluster & _).
  assert (forall requests,
            SnapshotMenu.sent
              (snd (fst (SnapshotMenu.demo_snapshot_restore send strftime_now format
                           message environ index_name w)))
            = SnapshotMenu.sent w ++ requests ->
            SnapshotMenu.cluster
              (snd (fst (SnapshotMenu.demo_snapshot_restore send strftime_now format
                           message environ index_name w)))
            = replayed send (SnapshotMenu.cluster w) requests) as Htie.
  { intros requests Hsent. rewrite Hnew in Hsent. apply app_inv_head in Hsent.
    subst new. exact Hcluster. }
  destruct (snd (send (SnapshotMenu.cluster w) _)) as [response|e].
  - split; [intros e He; discriminate|intros _].
    destruct H as [Hok Hsent]. split; [exact Hok|]. split; [exact Hsent|].
    apply Htie, Hsent.
  - split.
    + intros e' He' Hcontains. injection He' as <-. rewrite Hcontains in H.
      destruct H as [Hraise Hsent]. split; [exact Hraise|]. split; [exact Hsent|].
      apply Htie, Hsent.
    + intros Hknown. rewrite (Hknown e eq_refl) in H.
      destruct H as [Hok Hsent]. split; [exact Hok|]. split; [exact Hsent|].
      apply Htie, Hsent.
Qed.

(** X25 against the cluster whose repository is registered already. *)
Lemma demo_goes_on_after_failures_witness :
  fst (fst (SnapshotMenu.demo_snapshot_restore Scenario.snapshot_cluster
              Scenario.clock Scenario.show Scenario.message ∅ "arxiv-papers"
              (SnapshotMenu.World 0%nat 0%nat []))) = Ok tt.
Proof.
  refine (proj1 (proj2 (demo_goes_on_after_failures Scenario.snapshot_cluster
                          Scenario.clock Scenario.show Scenario.message ∅
                          "arxiv-papers" (SnapshotMenu.World 0%nat 0%nat [])) _)).
  intros e He. vm_compute in He. injection He as <-. vm_compute. reflexivity.
Defined.
